(** * Authentication configuration resolver and token-attaching API client

    A shallow embedding of the TypeScript sources of the frontend
    authentication layer:

    - [config/runtimeConfig.ts]   (module [RuntimeConfigTs])
    - [auth/authConfig.ts]        (module [AuthConfigTs])
    - [auth/apiClient.ts]         (module [ApiClientTs])
    - [auth/AuthContext.tsx]      (module [AuthContextTs])
    - [api/authenticatedApi.ts]   (module [AuthenticatedApiTs])

    JavaScript values are modelled at the types the TypeScript interfaces
    declare: an optional string field is an [option string] ([None] stands for
    both [undefined] and [null]), an optional array an [option (list string)].
    Asynchronous functions are run sequentially (one task, no interleaving);
    what the outside world answers to a call is given by an environment. *)

From Stdlib Require Import ZArith String Ascii List Bool Lia DecimalString.
From stdpp Require Import base option list strings gmap.

Import ListNotations.
Local Open Scope string_scope.
Local Open Scope Z_scope.

(** ** JavaScript truthiness and [||] at the types used by the sources *)

Module Js.

(** [!!v] for a value of type [string | null | undefined]: the empty string
    is falsy, like [null] and [undefined]. *)
Definition truthy (v : option string) : bool :=
  match v with
  | Some s => negb (String.eqb s EmptyString)
  | None => false
  end.

(** [a || b] on such values. *)
Definition or (a b : option string) : option string :=
  if truthy a then a else b.

(** [!!v] for a value of type [string[] | undefined]: every array is truthy,
    the empty one too. *)
Definition truthy_arr (v : option (list string)) : bool :=
  match v with
  | Some _ => true
  | None => false
  end.

Definition or_arr (a b : option (list string)) : option (list string) :=
  if truthy_arr a then a else b.

End Js.

(** ** HTTP responses as the sources consume them *)

(** What [await fetch(...)] followed by [await response.json()] can yield:
    the fetch promise rejects (network failure), or a response arrives with a
    status and a body that parses to an [A] ([Some]) or whose parsing rejects
    ([None]). *)
Record Response (A : Type) : Type := mkResponse {
  status : Z;
  json : option A
}.
Arguments mkResponse {A} _ _.
Arguments status {A} _.
Arguments json {A} _.

(** [response.ok] is true exactly for the statuses 200..299. *)
Definition ok {A} (r : Response A) : bool :=
  (200 <=? status r) && (status r <=? 299).

Inductive FetchResult (A : Type) : Type :=
| FetchRejected
| FetchResponse (r : Response A).
Arguments FetchRejected {A}.
Arguments FetchResponse {A} r.

(** ** [config/runtimeConfig.ts] *)

Module RuntimeConfigTs.

(** [interface RuntimeConfig]: every field optional. *)
Record RuntimeConfig : Type := mkRuntimeConfig {
  AZURE_CLIENT_ID : option string;
  AZURE_TENANT_ID : option string;
  AZURE_AUTHORITY : option string;
  API_SCOPES : option (list string)
}.

(** The JSON object answered by [GET /getMsalConfig]. *)
Module Backend.
Record Config : Type := mkConfig {
  clientId : option string;
  tenantId : option string;
  authority : option string
}.
End Backend.

(** [interface AppServiceAuthInfo], the fields the loader reads. *)
Module AppService.
Record AuthInfo : Type := mkAuthInfo {
  client_id : option string;
  authority : option string
}.
End AppService.

(** Everything the loader reads from outside during one resolution. *)
Record Sources : Type := mkSources {
  getMsalConfig : FetchResult Backend.Config;         (* GET /getMsalConfig *)
  authMe : FetchResult (list AppService.AuthInfo);    (* GET /.auth/me *)
  RUNTIME_CONFIG : option RuntimeConfig;              (* window.__RUNTIME_CONFIG__ *)
  VITE_AZURE_CLIENT_ID : option string;               (* import.meta.env.* *)
  VITE_AZURE_TENANT_ID : option string;
  VITE_AZURE_AUTHORITY : option string
}.

(** *** The tenant pattern
    [/\/([0-9a-f-]{36}|common|organizations|consumers)\/?$/i] *)

Definition lower (c : ascii) : ascii :=
  let n := nat_of_ascii c in
  if ((65 <=? n) && (n <=? 90))%nat then ascii_of_nat (n + 32) else c.

(** The class [[0-9a-f-]] under the [i] flag. *)
Definition in_class (c : ascii) : bool :=
  let n := nat_of_ascii (lower c) in
  (((48 <=? n) && (n <=? 57)) || ((97 <=? n) && (n <=? 102)) || (n =? 45))%nat.

(** [{n}] repetitions of the class at the start of [s]: the matched text
    and what follows it. *)
Fixpoint class_times (n : nat) (s : string) : option (string * string) :=
  match n with
  | O => Some (EmptyString, s)
  | S n' =>
      match s with
      | String c s' =>
          if in_class c then
            match class_times n' s' with
            | Some (m, rest) => Some (String c m, rest)
            | None => None
            end
          else None
      | EmptyString => None
      end
  end.

(** A literal word at the start of [s], compared without regard to case;
    the matched text keeps the case of [s]. *)
Fixpoint literal_ci (word s : string) : option (string * string) :=
  match word with
  | EmptyString => Some (EmptyString, s)
  | String w word' =>
      match s with
      | String c s' =>
          if Ascii.eqb (lower c) (lower w) then
            match literal_ci word' s' with
            | Some (m, rest) => Some (String c m, rest)
            | None => None
            end
          else None
      | EmptyString => None
      end
  end.

(** [\/?$]: an optional slash, then the end of the input. *)
Definition at_end (rest : string) : bool :=
  String.eqb rest EmptyString || String.eqb rest "/".

(** One alternative of the group followed by the tail of the pattern. *)
Definition alternative (m : option (string * string)) : option string :=
  match m with
  | Some (g, rest) => if at_end rest then Some g else None
  | None => None
  end.

Definition first_of (l : list (option string)) : option string :=
  List.fold_right (fun o acc => match o with Some g => Some g | None => acc end) None l.

(** The pattern tried at the start of [s]; the alternatives in the order
    they are written. The result is capture group 1. *)
Definition match_here (s : string) : option string :=
  match s with
  | String "/" s' =>
      first_of [ alternative (class_times 36 s');
                 alternative (literal_ci "common" s');
                 alternative (literal_ci "organizations" s');
                 alternative (literal_ci "consumers" s') ]
  | _ => None
  end.

(** [authority.match(...)]: the leftmost start position that matches;
    [Some g] is [tenantMatch[1]], [None] a null match. *)
Fixpoint tenantMatch (s : string) : option string :=
  match match_here s with
  | Some g => Some g
  | None =>
      match s with
      | String _ s' => tenantMatch s'
      | EmptyString => None
      end
  end.

(** *** The resolution steps, in source order *)

Definition emptyConfig : RuntimeConfig := mkRuntimeConfig None None None None.

(** First [try] block: the backend answer is copied field by field when
    the response is ok and parses; any failure leaves [config] as it is. *)
Definition fromBackend (r : FetchResult Backend.Config) (config : RuntimeConfig)
  : RuntimeConfig :=
  match r with
  | FetchResponse resp =>
      if ok resp then
        match json resp with
        | Some backendConfig =>
            mkRuntimeConfig (Backend.clientId backendConfig)
                            (Backend.tenantId backendConfig)
                            (Backend.authority backendConfig)
                            (API_SCOPES config)
        | None => config
        end
      else config
  | FetchRejected => config
  end.

(** Second [try] block: only [authData[0]] is read. *)
Definition fromAppService (r : FetchResult (list AppService.AuthInfo))
    (config : RuntimeConfig) : RuntimeConfig :=
  match r with
  | FetchResponse resp =>
      if ok resp then
        match json resp with
        | Some (authInfo :: _) =>
            let config1 :=
              mkRuntimeConfig
                (Js.or (AZURE_CLIENT_ID config) (AppService.client_id authInfo))
                (AZURE_TENANT_ID config) (AZURE_AUTHORITY config) (API_SCOPES config) in
            if Js.truthy (AppService.authority authInfo) then
              let config2 :=
                mkRuntimeConfig (AZURE_CLIENT_ID config1) (AZURE_TENANT_ID config1)
                                (AppService.authority authInfo) (API_SCOPES config1) in
              match tenantMatch (default EmptyString (AppService.authority authInfo)) with
              | Some g =>
                  mkRuntimeConfig (AZURE_CLIENT_ID config2) (Some g)
                                  (AZURE_AUTHORITY config2) (API_SCOPES config2)
              | None => config2
              end
            else config1
        | _ => config
        end
      else config
  | FetchRejected => config
  end.

(** [window.__RUNTIME_CONFIG__], when there is one. *)
Definition fromRuntimeGlobal (g : option RuntimeConfig) (config : RuntimeConfig)
  : RuntimeConfig :=
  match g with
  | Some runtimeConfig =>
      mkRuntimeConfig
        (Js.or (AZURE_CLIENT_ID config) (AZURE_CLIENT_ID runtimeConfig))
        (Js.or (AZURE_TENANT_ID config) (AZURE_TENANT_ID runtimeConfig))
        (Js.or (AZURE_AUTHORITY config) (AZURE_AUTHORITY runtimeConfig))
        (Js.or_arr (API_SCOPES config) (API_SCOPES runtimeConfig))
  | None => config
  end.

(** The build-time values. *)
Definition fromBuildEnv (src : Sources) (config : RuntimeConfig) : RuntimeConfig :=
  mkRuntimeConfig
    (Js.or (AZURE_CLIENT_ID config) (VITE_AZURE_CLIENT_ID src))
    (Js.or (AZURE_TENANT_ID config) (VITE_AZURE_TENANT_ID src))
    (Js.or (AZURE_AUTHORITY config) (VITE_AZURE_AUTHORITY src))
    (API_SCOPES config).

Definition issuerBase : string := "https://login.microsoftonline.com".
Definition commonAuthority : string := "https://login.microsoftonline.com/common".

(** The three defaulting [if]s that close the function. *)
Definition withDefaults (config : RuntimeConfig) : RuntimeConfig :=
  let authority1 :=
    if Js.truthy (AZURE_TENANT_ID config) && negb (Js.truthy (AZURE_AUTHORITY config))
    then Some (issuerBase +:+ "/" +:+ default EmptyString (AZURE_TENANT_ID config))
    else AZURE_AUTHORITY config in
  let authority2 :=
    if negb (Js.truthy authority1) then Some commonAuthority else authority1 in
  let scopes :=
    if negb (Js.truthy_arr (API_SCOPES config)) then
      let base := ["User.Read"] in
      if Js.truthy (AZURE_CLIENT_ID config)
      then Some (base ++ ["api://" +:+ default EmptyString (AZURE_CLIENT_ID config) +:+ "/access_as_user"])%list
      else Some base
    else API_SCOPES config in
  mkRuntimeConfig (AZURE_CLIENT_ID config) (AZURE_TENANT_ID config) authority2 scopes.

(** The object [loadRuntimeConfig] builds when the cache is empty. *)
Definition resolve (src : Sources) : RuntimeConfig :=
  withDefaults
    (fromBuildEnv src
      (fromRuntimeGlobal (RUNTIME_CONFIG src)
        (fromAppService (authMe src)
          (fromBackend (getMsalConfig src) emptyConfig)))).

(** *** The module state and the loader itself

    [cachedConfig] holds a reference to the configuration object or [null].
    Objects live in a heap addressed by allocation order, so that two
    results can be compared by reference. [requests] records, oldest
    first, the URL of every [fetch] the module has issued. *)

Definition ref : Type := nat.

Record Store : Type := mkStore {
  cachedConfig : option ref;
  heap : list RuntimeConfig;
  requests : list string
}.

Definition initialStore : Store := mkStore None [] [].

Definition M (A : Type) : Type := Store -> A * Store.

#[global] Instance M_ret : MRet M := fun A a st => (a, st).
#[global] Instance M_bind : MBind M :=
  fun A B f m st => let '(a, st') := m st in f a st'.

Definition readCache : M (option ref) := fun st => (cachedConfig st, st).

Definition writeCache (c : option ref) : M unit :=
  fun st => (tt, mkStore c (heap st) (requests st)).

(** A new object: it gets the next free address. *)
Definition alloc (config : RuntimeConfig) : M ref :=
  fun st => (length (heap st),
             mkStore (cachedConfig st) (heap st ++ [config])%list (requests st)).

(** [await fetch(url, ...)]: the request is recorded, the answer is the
    one the environment gives. *)
Definition fetch {A} (url : string) (answer : FetchResult A) : M (FetchResult A) :=
  fun st => (answer,
             mkStore (cachedConfig st) (heap st) (requests st ++ [url])%list).

Definition loadRuntimeConfig (src : Sources) : M ref :=
  cached ← readCache;
  match cached with
  | Some config => mret config
  | None =>
      backendResponse ← fetch "/getMsalConfig" (getMsalConfig src);
      let config := fromBackend backendResponse emptyConfig in
      response ← fetch "/.auth/me" (authMe src);
      let config := fromAppService response config in
      let config := fromRuntimeGlobal (RUNTIME_CONFIG src) config in
      let config := fromBuildEnv src config in
      let config := withDefaults config in
      r ← alloc config;
      writeCache (Some r);;
      mret r
  end.

Definition clearConfigCache : M unit := writeCache None.

Definition getCachedConfig : M (option ref) := readCache.

(** Reading through a reference. *)
Definition deref (st : Store) (r : ref) : option RuntimeConfig := heap st !! r.

End RuntimeConfigTs.

(** ** [auth/authConfig.ts] *)

Module AuthConfigTs.
Import RuntimeConfigTs.

(** The fields of the module-level objects [msalConfig], [apiRequest] and
    [silentRequest] that [loadMsalConfig] assigns. *)
Record MsalObjects : Type := mkMsalObjects {
  auth_clientId : string;
  auth_authority : string;
  apiRequest_scopes : list string;
  silentRequest_scopes : list string
}.

(** Their values when the module is loaded. *)
Definition initialObjects : MsalObjects :=
  mkMsalObjects EmptyString "https://login.microsoftonline.com/common" [] ["User.Read"].

(** [scopes.includes(x)] *)
Definition includes (x : string) (scopes : list string) : bool :=
  existsb (String.eqb x) scopes.

(** The body of [loadMsalConfig] once [await loadRuntimeConfig()] has
    returned [runtimeConfig]; the loader does not throw, so the [catch]
    branch is not taken. *)
Definition loadMsalConfig (runtimeConfig : RuntimeConfig) (o : MsalObjects) : MsalObjects :=
  let o :=
    if Js.truthy (AZURE_CLIENT_ID runtimeConfig)
    then mkMsalObjects (default EmptyString (AZURE_CLIENT_ID runtimeConfig))
                       (auth_authority o) (apiRequest_scopes o) (silentRequest_scopes o)
    else o in
  let o :=
    if Js.truthy (AZURE_AUTHORITY runtimeConfig)
    then mkMsalObjects (auth_clientId o)
                       (default EmptyString (AZURE_AUTHORITY runtimeConfig))
                       (apiRequest_scopes o) (silentRequest_scopes o)
    else o in
  match API_SCOPES runtimeConfig with
  | Some ((_ :: _) as scopes) =>
      mkMsalObjects (auth_clientId o) (auth_authority o) scopes
                    (if includes "User.Read" scopes then scopes
                     else "User.Read" :: scopes)
  | _ => o
  end.

End AuthConfigTs.


(** ** The browser side: the identity library, the network, React setters

    The functions of [apiClient.ts] and [AuthContext.tsx] talk to the MSAL
    client handle, to [fetch] and to React state setters. Each such call is
    an [Event] that records the call together with its answer. A program
    receives the history of events that happened before it started and yields
    an outcome together with the events it produced itself, in order. What
    the outside answers may depend on everything that happened so far. *)

Module Browser.

Inductive AccountInfo : Type := mkAccount (username : string).

(** The classes of failure the sources tell apart with [instanceof]. *)
Inductive AuthError : Type :=
| InteractionRequiredAuthError
| OtherAuthError (message : string).

(** A thrown JavaScript value. *)
Inductive Exn : Type :=
| AuthExn (e : AuthError)          (* rejected by the identity library *)
| NetworkExn                       (* [fetch] rejected *)
| ErrorExn (message : string).     (* [new Error(message)] *)

Inductive TokenReply : Type :=
| TokenOk (accessToken : string)
| TokenRejected (e : AuthError).

(** Values of type [any] handed to [JSON.stringify] or read from a body. *)
#[local] Set Warnings "-register-all".
Inductive JsValue : Type :=
| JsUndefined
| JsNull
| JsBool (b : bool)
| JsNumber (z : Z)
| JsString (s : string)
| JsArray (items : list JsValue)
| JsObject (fields : list (string * JsValue)).
#[local] Set Warnings "register-all".

Definition truthy_value (v : JsValue) : bool :=
  match v with
  | JsUndefined | JsNull => false
  | JsBool b => b
  | JsNumber z => negb (z =? 0)
  | JsString s => negb (String.eqb s EmptyString)
  | JsArray _ | JsObject _ => true
  end.

Inductive File : Type := mkFile (name : string).

Inductive FormDataEntry : Type :=
| EntryFile (f : File)
| EntryString (s : string).

(** [BodyInit] as the sources build it: a string or a [FormData]. *)
Inductive BodyInit : Type :=
| BodyText (s : string)
| BodyFormData (entries : list (string * FormDataEntry)).

(** The second argument of [fetch] together with the URL. *)
Record Request : Type := mkRequest {
  url : string;
  method : option string;
  body : option BodyInit;
  headers : gmap string string;
  signal : option nat
}.

Inductive Event : Type :=
| EvGetAllAccounts (result : list AccountInfo)
| EvAcquireTokenSilent (scopes : list string) (account : AccountInfo) (reply : TokenReply)
| EvAcquireTokenPopup (scopes : list string) (account : AccountInfo) (reply : TokenReply)
| EvLoginRedirect (scopes : list string) (prompt : string) (reply : option Exn)
| EvLogoutRedirect (account : AccountInfo) (reply : option Exn)
| EvFetch (req : Request) (reply : FetchResult JsValue)
| EvSetError (e : option string)
| EvSetAccounts (l : list AccountInfo)
| EvSetIsAuthenticated (b : bool).

Definition History : Type := list Event.

(** [PublicClientApplication]: the methods the sources call. Each answers
    from the history of what happened so far. [getAllAccounts] reads the
    library's cache and is taken not to throw; the token and redirect methods
    can be rejected. *)
Record PublicClientApplication : Type := mkMsal {
  getAllAccounts : History -> list AccountInfo;
  acquireTokenSilent : History -> list string -> AccountInfo -> TokenReply;
  acquireTokenPopup : History -> list string -> AccountInfo -> TokenReply;
  loginRedirect : History -> list string -> string -> option Exn;
  logoutRedirect : History -> AccountInfo -> option Exn
}.

(** The globals [fetch] and [JSON.stringify]. *)
Record Env : Type := mkEnv {
  fetch : History -> Request -> FetchResult JsValue;
  JSON_stringify : JsValue -> string
}.

Inductive Outcome (A : Type) : Type :=
| Returned (a : A)
| Thrown (e : Exn).
Arguments Returned {A} a.
Arguments Thrown {A} e.

Definition Prog (A : Type) : Type := History -> Outcome A * list Event.

#[global] Instance Prog_ret : MRet Prog := fun A a _ => (Returned a, []).

#[global] Instance Prog_bind : MBind Prog :=
  fun A B f m h =>
    match m h with
    | (Returned a, es) => let '(o, es') := f a (h ++ es)%list in (o, (es ++ es')%list)
    | (Thrown e, es) => (Thrown e, es)
    end.

Definition throw {A} (e : Exn) : Prog A := fun _ => (Thrown e, []).

(** [try { body } catch (e) { handler(e) }] *)
Definition try_catch {A} (body : Prog A) (handler : Exn -> Prog A) : Prog A :=
  fun h =>
    match body h with
    | (Returned a, es) => (Returned a, es)
    | (Thrown e, es) => let '(o, es') := handler e (h ++ es)%list in (o, (es ++ es')%list)
    end.

Definition emit (e : Event) : Prog unit := fun _ => (Returned tt, [e]).

Definition call_getAllAccounts (msal : PublicClientApplication) : Prog (list AccountInfo) :=
  fun h => let r := getAllAccounts msal h in (Returned r, [EvGetAllAccounts r]).

Definition token_outcome (r : TokenReply) : Outcome string :=
  match r with
  | TokenOk t => Returned t
  | TokenRejected e => Thrown (AuthExn e)
  end.

(** [(await msal.acquireTokenSilent(request)).accessToken] *)
Definition call_acquireTokenSilent (msal : PublicClientApplication)
    (scopes : list string) (account : AccountInfo) : Prog string :=
  fun h => let r := acquireTokenSilent msal h scopes account in
           (token_outcome r, [EvAcquireTokenSilent scopes account r]).

(** [(await msal.acquireTokenPopup(request)).accessToken] *)
Definition call_acquireTokenPopup (msal : PublicClientApplication)
    (scopes : list string) (account : AccountInfo) : Prog string :=
  fun h => let r := acquireTokenPopup msal h scopes account in
           (token_outcome r, [EvAcquireTokenPopup scopes account r]).

Definition unit_outcome (r : option Exn) : Outcome unit :=
  match r with
  | None => Returned tt
  | Some e => Thrown e
  end.

Definition call_loginRedirect (msal : PublicClientApplication)
    (scopes : list string) (prompt : string) : Prog unit :=
  fun h => let r := loginRedirect msal h scopes prompt in
           (unit_outcome r, [EvLoginRedirect scopes prompt r]).

Definition call_logoutRedirect (msal : PublicClientApplication)
    (account : AccountInfo) : Prog unit :=
  fun h => let r := logoutRedirect msal h account in
           (unit_outcome r, [EvLogoutRedirect account r]).

Definition fetch_outcome (r : FetchResult JsValue) : Outcome (Response JsValue) :=
  match r with
  | FetchResponse resp => Returned resp
  | FetchRejected => Thrown NetworkExn
  end.

Definition call_fetch (E : Env) (req : Request) : Prog (Response JsValue) :=
  fun h => let r := fetch E h req in (fetch_outcome r, [EvFetch req r]).

(** Observations on a list of events. *)
Definition is_fetch (e : Event) : bool :=
  match e with EvFetch _ _ => true | _ => false end.
Definition is_silent (e : Event) : bool :=
  match e with EvAcquireTokenSilent _ _ _ => true | _ => false end.
Definition is_popup (e : Event) : bool :=
  match e with EvAcquireTokenPopup _ _ _ => true | _ => false end.
Definition count (p : Event -> bool) (es : list Event) : nat :=
  length (List.filter p es).

(** The requests sent, oldest first. *)
Definition requests_of (es : list Event) : list Request :=
  List.flat_map (fun e => match e with EvFetch req _ => [req] | _ => [] end) es.

(** The failure class of the silent attempt in [es], if one failed. *)
Definition silent_failure (es : list Event) : option AuthError :=
  List.fold_right
    (fun e acc => match e with
                  | EvAcquireTokenSilent _ _ (TokenRejected err) => Some err
                  | _ => acc
                  end) None es.

(** The value of the React [error] state after the setters in [es] ran,
    starting from [e0]. *)
Definition error_after (e0 : option string) (es : list Event) : option string :=
  List.fold_left
    (fun acc e => match e with EvSetError v => v | _ => acc end) es e0.

End Browser.

(** ** [auth/apiClient.ts] *)

Module ApiClientTs.
Import Browser.

(** [AuthenticatedFetchOptions]: the [RequestInit] fields the sources set,
    plus [scopes] and [skipAuth]. *)
Record AuthenticatedFetchOptions : Type := mkOptions {
  opt_method : option string;
  opt_body : option BodyInit;
  opt_headers : option (gmap string string);
  opt_signal : option nat;
  opt_scopes : option (list string);
  opt_skipAuth : option bool
}.

Definition noOptions : AuthenticatedFetchOptions :=
  mkOptions None None None None None None.

(** The private fields of [class AuthenticatedApiClient]. *)
Record AuthenticatedApiClient : Type := mkClient {
  msalInstance : option PublicClientApplication;
  defaultScopes : list string
}.

(** [new AuthenticatedApiClient()] *)
Definition newClient : AuthenticatedApiClient := mkClient None ["User.Read"].

Definition setMsalInstance (this : AuthenticatedApiClient)
    (instance : PublicClientApplication) : AuthenticatedApiClient :=
  mkClient (Some instance) (defaultScopes this).

Definition getAccessToken (this : AuthenticatedApiClient) (scopes : list string)
  : Prog (option string) :=
  match msalInstance this with
  | None => mret None
  | Some msal =>
      try_catch
        (accounts ← call_getAllAccounts msal;
         match accounts with
         | [] => mret None
         | account :: _ =>
             accessToken ← call_acquireTokenSilent msal scopes account;
             mret (Some accessToken)
         end)
        (fun error =>
           try_catch
             (accounts ← call_getAllAccounts msal;
              match accounts with
              | account :: _ =>
                  accessToken ← call_acquireTokenPopup msal scopes account;
                  mret (Some accessToken)
              | [] => mret None
              end)
             (fun interactiveError => mret None))
  end.

Definition bearer (token : string) : string := "Bearer " +:+ token.

(** [{ 'Content-Type': 'application/json', ...(fetchOptions.headers || {}) }]:
    the caller's entries win over the default one. *)
Definition prepareHeaders (h : option (gmap string string)) : gmap string string :=
  default ∅ h ∪ {[ "Content-Type" := "application/json" ]}.

Section WithEnv.
Variable E : Env.

Definition authenticatedFetch (this : AuthenticatedApiClient) (url : string)
    (options : AuthenticatedFetchOptions) : Prog (Response JsValue) :=
  let scopes := default (defaultScopes this) (opt_scopes options) in
  let skipAuth := default false (opt_skipAuth options) in
  let send (hs : gmap string string) :=
    call_fetch E (mkRequest url (opt_method options) (opt_body options) hs
                            (opt_signal options)) in
  let headers := prepareHeaders (opt_headers options) in
  headers ←
    (if negb skipAuth then
       token ← getAccessToken this scopes;
       mret (if Js.truthy token
             then <[ "Authorization" := bearer (default EmptyString token) ]> headers
             else headers)
     else mret headers);
  response ← send headers;
  if (status response =? 401) && negb skipAuth then
    freshToken ← getAccessToken this scopes;
    if Js.truthy freshToken then
      send (<[ "Authorization" := bearer (default EmptyString freshToken) ]> headers)
    else mret response
  else mret response.

(** [{ ...options, method: m }] and [{ ...options, method: m, body: b }] *)
Definition withMethod (options : option AuthenticatedFetchOptions) (m : string)
  : AuthenticatedFetchOptions :=
  let o := default noOptions options in
  mkOptions (Some m) (opt_body o) (opt_headers o) (opt_signal o)
            (opt_scopes o) (opt_skipAuth o).

Definition withMethodBody (options : option AuthenticatedFetchOptions) (m : string)
    (b : option BodyInit) : AuthenticatedFetchOptions :=
  let o := default noOptions options in
  mkOptions (Some m) b (opt_headers o) (opt_signal o)
            (opt_scopes o) (opt_skipAuth o).

(** [body ? JSON.stringify(body) : undefined] *)
Definition jsonBody (body : JsValue) : option BodyInit :=
  if truthy_value body then Some (BodyText (JSON_stringify E body)) else None.

Definition get (this : AuthenticatedApiClient) (url : string)
    (options : option AuthenticatedFetchOptions) : Prog (Response JsValue) :=
  authenticatedFetch this url (withMethod options "GET").

Definition post (this : AuthenticatedApiClient) (url : string) (body : JsValue)
    (options : option AuthenticatedFetchOptions) : Prog (Response JsValue) :=
  authenticatedFetch this url (withMethodBody options "POST" (jsonBody body)).

Definition put (this : AuthenticatedApiClient) (url : string) (body : JsValue)
    (options : option AuthenticatedFetchOptions) : Prog (Response JsValue) :=
  authenticatedFetch this url (withMethodBody options "PUT" (jsonBody body)).

Definition delete (this : AuthenticatedApiClient) (url : string)
    (options : option AuthenticatedFetchOptions) : Prog (Response JsValue) :=
  authenticatedFetch this url (withMethod options "DELETE").

End WithEnv.

End ApiClientTs.

(** ** [auth/AuthContext.tsx] *)

Module AuthContextTs.
Import Browser.

(** The React state of [AuthProvider] as one render sees it. The
    operations below are closures over such a snapshot; what they change
    they change through the setters, recorded as events. *)
Record AuthState : Type := mkAuthState {
  instance : option PublicClientApplication;
  accounts : list AccountInfo;
  isAuthenticated : bool;
  isLoading : bool;
  error : option string
}.

(** The state before [initializeMsal] has finished. *)
Definition initialState : AuthState := mkAuthState None [] false true None.

Definition login (s : AuthState) : Prog unit :=
  match instance s with
  | None => throw (ErrorExn "MSAL instance not initialized")
  | Some msal =>
      try_catch
        (emit (EvSetError None);;
         currentAccounts ← call_getAllAccounts msal;
         match currentAccounts with
         | _ :: _ =>
             emit (EvSetAccounts currentAccounts);;
             emit (EvSetIsAuthenticated true)
         | [] => call_loginRedirect msal ["User.Read"] "select_account"
         end)
        (fun err => emit (EvSetError (Some "Login failed"));; throw err)
  end.

Definition logout (s : AuthState) : Prog unit :=
  match instance s with
  | None => throw (ErrorExn "MSAL instance not initialized")
  | Some msal =>
      try_catch
        (emit (EvSetError None);;
         currentAccounts ← call_getAllAccounts msal;
         match currentAccounts with
         | account :: _ => call_logoutRedirect msal account
         | [] => mret tt
         end;;
         emit (EvSetAccounts []);;
         emit (EvSetIsAuthenticated false))
        (fun err => emit (EvSetError (Some "Logout failed"));; throw err)
  end.

(** [scopes] is the argument after its default [['User.Read']] has been
    applied. *)
Definition acquireTokenSilently (s : AuthState) (scopes : list string)
  : Prog (option string) :=
  match instance s, isAuthenticated s, accounts s with
  | Some msal, true, account :: _ =>
      try_catch
        (emit (EvSetError None);;
         accessToken ← call_acquireTokenSilent msal scopes account;
         mret (Some accessToken))
        (fun err =>
           match err with
           | AuthExn InteractionRequiredAuthError =>
               try_catch
                 (accessToken ← call_acquireTokenPopup msal scopes account;
                  mret (Some accessToken))
                 (fun interactiveError =>
                    emit (EvSetError (Some "Failed to acquire token"));;
                    mret None)
           | _ =>
               emit (EvSetError (Some "Failed to acquire token silently"));;
               mret None
           end)
  | _, _, _ => mret None
  end.

End AuthContextTs.

(** ** [api/authenticatedApi.ts] *)

Module AuthenticatedApiTs.
Import Browser ApiClientTs.

Section WithEnv.
Variable E : Env.

(** [apiClient] is the module-level singleton; its current value is an
    argument here. [tags] and [folder] are the arguments after their
    defaults (no tags, the empty folder name) have been applied. *)
Definition uploadFileAuthenticated (apiClient : AuthenticatedApiClient)
    (file : File) (tags : list string) (folder : string)
  : Prog (Response JsValue) :=
  let formData := [("file", EntryFile file)] in
  let formData :=
    if (0 <? length tags)%nat
    then (formData ++ [("tags", EntryString (JSON_stringify E (JsArray (map JsString tags))))])%list
    else formData in
  let formData :=
    if negb (String.eqb folder EmptyString)
    then (formData ++ [("folder", EntryString folder)])%list
    else formData in
  authenticatedFetch E apiClient "/upload"
    (mkOptions (Some "POST") (Some (BodyFormData formData)) (Some ∅) None None None).

End WithEnv.

(** The functions a proxy member can refer to: the ones re-exported from
    [./api] and their authenticated counterparts defined in this file. *)
Inductive ApiName : Type :=
| chatApi_ | getAllUploadStatus_ | deleteItem_ | resubmitItem_ | getInfo_
| getWarningBanner_ | getApplicationTitle_ | getStatusLog_ | getTags_
| getFeatureFlags_ | getMaxCSVFileSize_ | fetchCitationFile_ | uploadFile_.

Inductive ApiFunction : Type :=
| Plain (n : ApiName)             (* [n] from [./api] *)
| Authenticated (n : ApiName).    (* [nAuthenticated] *)

Record ApiProxy : Type := mkApiProxy {
  chatApi : ApiFunction;
  getAllUploadStatus : ApiFunction;
  deleteItem : ApiFunction;
  resubmitItem : ApiFunction;
  getInfo : ApiFunction;
  getWarningBanner : ApiFunction;
  getApplicationTitle : ApiFunction;
  getStatusLog : ApiFunction;
  getTags : ApiFunction;
  getFeatureFlags : ApiFunction;
  getMaxCSVFileSize : ApiFunction;
  fetchCitationFile : ApiFunction;
  uploadFile : ApiFunction
}.

Definition createApiProxy (useAuthenticated : bool) : ApiProxy :=
  {| chatApi := if useAuthenticated then Authenticated chatApi_ else Authenticated chatApi_;
     getAllUploadStatus := if useAuthenticated then Authenticated getAllUploadStatus_
                           else Authenticated getAllUploadStatus_;
     deleteItem := if useAuthenticated then Authenticated deleteItem_
                   else Authenticated deleteItem_;
     resubmitItem := if useAuthenticated then Authenticated resubmitItem_
                     else Authenticated resubmitItem_;
     getInfo := if useAuthenticated then Authenticated getInfo_ else Authenticated getInfo_;
     getWarningBanner := if useAuthenticated then Authenticated getWarningBanner_
                         else Authenticated getWarningBanner_;
     getApplicationTitle := if useAuthenticated then Authenticated getApplicationTitle_
                            else Authenticated getApplicationTitle_;
     getStatusLog := if useAuthenticated then Authenticated getStatusLog_
                     else Authenticated getStatusLog_;
     getTags := if useAuthenticated then Authenticated getTags_ else Authenticated getTags_;
     getFeatureFlags := if useAuthenticated then Authenticated getFeatureFlags_
                        else Authenticated getFeatureFlags_;
     getMaxCSVFileSize := if useAuthenticated then Authenticated getMaxCSVFileSize_
                          else Authenticated getMaxCSVFileSize_;
     fetchCitationFile := if useAuthenticated then Authenticated fetchCitationFile_
                          else Authenticated fetchCitationFile_;
     uploadFile := if useAuthenticated then Authenticated uploadFile_
                   else Authenticated uploadFile_ |}.

(** [proxy[name]] *)
Definition member (p : ApiProxy) (n : ApiName) : ApiFunction :=
  match n with
  | chatApi_ => chatApi p
  | getAllUploadStatus_ => getAllUploadStatus p
  | deleteItem_ => deleteItem p
  | resubmitItem_ => resubmitItem p
  | getInfo_ => getInfo p
  | getWarningBanner_ => getWarningBanner p
  | getApplicationTitle_ => getApplicationTitle p
  | getStatusLog_ => getStatusLog p
  | getTags_ => getTags p
  | getFeatureFlags_ => getFeatureFlags p
  | getMaxCSVFileSize_ => getMaxCSVFileSize p
  | fetchCitationFile_ => fetchCitationFile p
  | uploadFile_ => uploadFile p
  end.

Definition allNames : list ApiName :=
  [ chatApi_; getAllUploadStatus_; deleteItem_; resubmitItem_; getInfo_;
    getWarningBanner_; getApplicationTitle_; getStatusLog_; getTags_;
    getFeatureFlags_; getMaxCSVFileSize_; fetchCitationFile_; uploadFile_ ].

End AuthenticatedApiTs.

(** ** [auth/AuthContext.tsx]: the initialization effect of [AuthProvider] *)

Module AuthProviderTs.
Import Browser AuthContextTs AuthConfigTs.

(** A value caught by [catch (err)]: an [Error] with its message, or
    something that is not an [Error]. *)
Inductive Caught : Type :=
| CaughtError (message : string)
| CaughtOther.

(** What the identity library answers while the provider starts up:
    [new PublicClientApplication(config)], [await instance.initialize()]
    and [await instance.handleRedirectPromise()], whose answer is [true]
    for a response and [false] for [null]. *)
Record Startup : Type := mkStartup {
  construct : MsalObjects -> Caught + PublicClientApplication;
  initialize : option Caught;
  handleRedirectPromise : History -> Caught + bool
}.

(** The effect threads the React state and the history of the calls made,
    and can be left by a throw. *)
Definition Init (A : Type) : Type :=
  AuthState * History -> (Caught + A) * (AuthState * History).

#[global] Instance Init_ret : MRet Init := fun A a st => (inr a, st).

#[global] Instance Init_bind : MBind Init :=
  fun A B f m st =>
    match m st with
    | (inr a, st') => f a st'
    | (inl e, st') => (inl e, st')
    end.

Definition raise {A} (e : Caught) : Init A := fun st => (inl e, st).

Definition settle {A} (r : Caught + A) : Init A := fun st => (r, st).

(** [try { body } catch (err) { handler(err) }] *)
Definition try_catch_init {A} (body : Init A) (handler : Caught -> Init A) : Init A :=
  fun st =>
    match body st with
    | (inr a, st') => (inr a, st')
    | (inl e, st') => handler e st'
    end.

(** [try { body } finally { cleanup }], for a cleanup that does not throw. *)
Definition try_finally {A} (body : Init A) (cleanup : Init unit) : Init A :=
  fun st =>
    let '(r, st') := body st in
    let '(_, st'') := cleanup st' in
    (r, st'').

Definition setIsLoading (b : bool) : Init unit :=
  fun '(s, h) =>
    (inr tt, (mkAuthState (instance s) (accounts s) (isAuthenticated s) b (error s), h)).

Definition setError (e : option string) : Init unit :=
  fun '(s, h) =>
    (inr tt, (mkAuthState (instance s) (accounts s) (isAuthenticated s) (isLoading s) e,
              (h ++ [EvSetError e])%list)).

Definition setInstance (m : PublicClientApplication) : Init unit :=
  fun '(s, h) =>
    (inr tt, (mkAuthState (Some m) (accounts s) (isAuthenticated s) (isLoading s) (error s), h)).

Definition setAccounts (l : list AccountInfo) : Init unit :=
  fun '(s, h) =>
    (inr tt, (mkAuthState (instance s) l (isAuthenticated s) (isLoading s) (error s),
              (h ++ [EvSetAccounts l])%list)).

Definition setIsAuthenticated (b : bool) : Init unit :=
  fun '(s, h) =>
    (inr tt, (mkAuthState (instance s) (accounts s) b (isLoading s) (error s),
              (h ++ [EvSetIsAuthenticated b])%list)).

(** [msal.getAllAccounts()] *)
Definition readAccounts (msal : PublicClientApplication) : Init (list AccountInfo) :=
  fun '(s, h) =>
    let r := getAllAccounts msal h in (inr r, (s, (h ++ [EvGetAllAccounts r])%list)).

Definition awaitRedirect (boot : Startup) : Init bool :=
  fun '(s, h) => (handleRedirectPromise boot h, (s, h)).

Definition clientIdMissing : string :=
  "Azure Client ID is not configured. Please set AZURE_CLIENT_ID in your environment or App Service configuration.".

(** [initializeMsal], with [configResult] what [await loadMsalConfig()]
    returned. *)
Definition initializeMsal (boot : Startup) (configResult : MsalObjects) : Init unit :=
  try_finally
    (try_catch_init
       (setIsLoading true;;
        setError None;;
        if String.eqb (auth_clientId configResult) EmptyString
        then raise (CaughtError clientIdMissing)
        else
          msalInstance ← settle (construct boot configResult);
          settle (match initialize boot with Some e => inl e | None => inr tt end);;
          setInstance msalInstance;;
          currentAccounts ← readAccounts msalInstance;
          setAccounts currentAccounts;;
          setIsAuthenticated (0 <? length currentAccounts)%nat;;
          response ← awaitRedirect boot;
          if (response : bool) then
            l ← readAccounts msalInstance;
            setAccounts l;;
            setIsAuthenticated true
          else mret tt)
       (fun err =>
          setError (Some match err with
                         | CaughtError message => message
                         | CaughtOther => "Failed to initialize authentication"
                         end)))
    (setIsLoading false).

(** The React state once the effect has run. *)
Definition stateAfter {A} (m : Init A) (s : AuthState) (h : History) : AuthState :=
  fst (snd (m (s, h))).

End AuthProviderTs.

(** ** [auth/AuthenticatedApp.tsx] *)

Module AuthenticatedAppTs.
Import Browser AuthContextTs ApiClientTs.

(** What the component returns: the loading screen, the sign-in prompt
    (each with the error text it shows, if any) or its children. *)
Inductive View : Type :=
| LoadingView (shown : option string)
| SignInView (shown : option string)
| ChildrenView.

(** [{error && (...)}] *)
Definition shownError (s : AuthState) : option string :=
  if Js.truthy (error s) then error s else None.

Definition render (s : AuthState) : View :=
  if isLoading s then LoadingView (shownError s)
  else
    match instance s, isAuthenticated s, accounts s with
    | Some _, false, [] => SignInView (shownError s)
    | _, _, _ => ChildrenView
    end.

(** The first effect: hand the instance to the API client when there is
    one. *)
Definition syncApiClient (s : AuthState) (apiClient : AuthenticatedApiClient)
  : AuthenticatedApiClient :=
  match instance s with
  | Some msal => setMsalInstance apiClient msal
  | None => apiClient
  end.

Section WithEnv.
Variable E : Env.

(** [fetch('/.auth/me')], without options. *)
Definition probeRequest : Request := mkRequest "/.auth/me" None None ∅ None.

(** The second effect. Its branches only log; a body that does not parse
    makes [response.json()] reject, which the inner [catch] absorbs. *)
Definition attemptSilentLogin (s : AuthState) : Prog unit :=
  match instance s with
  | Some msal =>
      if negb (isAuthenticated s) && negb (isLoading s) then
        try_catch
          (currentAccounts ← call_getAllAccounts msal;
           match currentAccounts with
           | _ :: _ => mret tt
           | [] =>
               try_catch
                 (response ← call_fetch E probeRequest;
                  if ok response then
                    match json response with
                    | Some authData => mret tt
                    | None => throw (ErrorExn "Unexpected token")
                    end
                  else mret tt)
                 (fun appServiceError => mret tt)
           end)
          (fun error => mret tt)
      else mret tt
  | None => mret tt
  end.

End WithEnv.

(** [useAuthenticatedUser().user] and the [user] of [Layout]. *)
Definition user (s : AuthState) : option AccountInfo := head (accounts s).

End AuthenticatedAppTs.

(** ** [pages/layout/Layout.tsx] *)

Module LayoutTs.
Import Browser AuthContextTs.

(** [handleLogout]: the failure of [logout] is logged and dropped. *)
Definition handleLogout (s : AuthState) : Prog unit :=
  try_catch (logout s) (fun error => mret tt).

End LayoutTs.

(** ** [auth/apiClient.ts]: the constructor *)

Module ApiClientClassTs.
Import Browser ApiClientTs.

(** [Partial<ApiConfig>] *)
Record PartialApiConfig : Type := mkPartialApiConfig {
  cfg_msalInstance : option PublicClientApplication;
  cfg_defaultScopes : option (list string)
}.

(** [new AuthenticatedApiClient(config)]: a field of [config] replaces the
    initial value when it is truthy; every array is. *)
Definition construct (config : option PartialApiConfig) : AuthenticatedApiClient :=
  let this := mkClient None ["User.Read"] in
  let this :=
    match config ≫= cfg_msalInstance with
    | Some instance => mkClient (Some instance) (defaultScopes this)
    | None => this
    end in
  match config ≫= cfg_defaultScopes with
  | Some scopes => mkClient (msalInstance this) scopes
  | None => this
  end.

End ApiClientClassTs.


(** ** [api/authenticatedApi.ts]: the API functions *)

Module ApiCallsTs.
Import Browser ApiClientTs.

(** What an API function can throw: what [authenticatedFetch] threw, the
    rejection of [response.json()], the [TypeError] of a property read on
    [null] or [undefined], an [Error] made from a value, or a value of some
    other origin, which may carry a [status] property. Only the last kind
    has a [status]. *)
Inductive ApiExn : Type :=
| Propagated (e : Exn)
| JsonRejected
| PropertyTypeError
| ErrorOf (message : JsValue)
| Foreign (status : option Z).


Definition ApiProg (A : Type) : Type := History -> (ApiExn + A) * list Event.

(** A request through the client followed by steps that call nothing
    outside. *)
Definition thenLocally {A} (request : Prog (Response JsValue))
    (k : Response JsValue -> ApiExn + A) : ApiProg A :=
  fun h =>
    match request h with
    | (Returned response, es) => (k response, es)
    | (Thrown e, es) => (inl (Propagated e), es)
    end.

(** [await response.json()] *)
Definition parsed (response : Response JsValue) : ApiExn + JsValue :=
  match json response with
  | Some v => inr v
  | None => inl JsonRejected
  end.

(** The last binding of [k], as [JSON.parse] and object literals keep it. *)
Fixpoint field (k : string) (fields : list (string * JsValue)) : option JsValue :=
  match fields with
  | [] => None
  | (k', v) :: rest =>
      match field k rest with
      | Some v' => Some v'
      | None => if String.eqb k k' then Some v else None
      end
  end.

(** [v.k]: a [TypeError] on [null] and [undefined] ([None]), [undefined]
    where there is no such property. *)
Definition prop (v : JsValue) (k : string) : option JsValue :=
  match v with
  | JsUndefined | JsNull => None
  | JsObject fields => Some (default JsUndefined (field k fields))
  | _ => Some JsUndefined
  end.

(** [v?.k] *)
Definition optProp (v : JsValue) (k : string) : JsValue :=
  default JsUndefined (prop v k).

(** [`${n}`] for an integer. *)
Definition decimal (n : Z) : string := NilZero.string_of_int (Z.to_int n).

(** [ChatRequest], field by field. *)
Record ChatRequest : Type := mkChatRequest {
  history : JsValue;
  approach : JsValue;
  overrides : JsValue;
  citation_lookup : JsValue;
  thought_chain : JsValue
}.

Record GetUploadStatusRequest : Type := mkGetUploadStatusRequest {
  timeframe : JsValue;
  state : JsValue;
  folder : JsValue;
  tag : JsValue
}.

Section WithEnv.
Variable E : Env.
Variable apiClient : AuthenticatedApiClient.
(** The global [encodeURIComponent]. *)
Variable encodeURIComponent : string -> string.

Definition chatBody (options : ChatRequest) : JsValue :=
  JsObject
    [ ("history", history options);
      ("approach", approach options);
      ("overrides",
       JsObject
         [ ("semantic_ranker", optProp (overrides options) "semanticRanker");
           ("semantic_captions", optProp (overrides options) "semanticCaptions");
           ("top", optProp (overrides options) "top");
           ("temperature", optProp (overrides options) "temperature");
           ("prompt_template", optProp (overrides options) "promptTemplate");
           ("prompt_template_prefix", optProp (overrides options) "promptTemplatePrefix");
           ("prompt_template_suffix", optProp (overrides options) "promptTemplateSuffix");
           ("exclude_category", optProp (overrides options) "excludeCategory");
           ("suggest_followup_questions",
            optProp (overrides options) "suggestFollowupQuestions");
           ("byPassRAG", optProp (overrides options) "byPassRAG");
           ("user_persona", optProp (overrides options) "userPersona");
           ("system_persona", optProp (overrides options) "systemPersona");
           ("ai_persona", optProp (overrides options) "aiPersona");
           ("response_length", optProp (overrides options) "responseLength");
           ("response_temp", optProp (overrides options) "responseTemp");
           ("selected_folders", optProp (overrides options) "selectedFolders");
           ("selected_tags", optProp (overrides options) "selectedTags") ]);
      ("citation_lookup", citation_lookup options);
      ("thought_chain", thought_chain options) ].

Definition chatApiAuthenticated (options : ChatRequest) (signal : nat)
  : ApiProg (Response JsValue) :=
  thenLocally
    (post E apiClient "/chat" (chatBody options)
          (Some (mkOptions None None None (Some signal) None None)))
    (fun response =>
       if (299 <? status response) || negb (ok response)
       then inl (ErrorOf (JsString "Unknown error"))
       else inr response).

Definition getAllUploadStatusAuthenticated (options : GetUploadStatusRequest)
  : ApiProg JsValue :=
  thenLocally
    (post E apiClient "/getalluploadstatus"
          (JsObject [ ("timeframe", timeframe options); ("state", state options);
                      ("folder", folder options); ("tag", tag options) ])
          None)
    (fun response =>
       match parsed response with
       | inl e => inl e
       | inr parsedResponse =>
           if (299 <? status response) || negb (ok response) then
             match prop parsedResponse "error" with
             | None => inl PropertyTypeError
             | Some error =>
                 inl (ErrorOf (if truthy_value error then error
                               else JsString "Unknown error"))
             end
           else inr (JsObject [("statuses", parsedResponse)])
       end).

(** The body shared by [deleteItemAuthenticated] and
    [resubmitItemAuthenticated]; their [catch] logs and throws again. *)
Definition postPath (url : string) (path : JsValue) : ApiProg bool :=
  thenLocally
    (post E apiClient url (JsObject [("path", path)]) None)
    (fun response =>
       if negb (ok response)
       then inl (ErrorOf (JsString ("HTTP error! status: " +:+ decimal (status response))))
       else inr true).

Definition deleteItemAuthenticated (path : JsValue) : ApiProg bool :=
  postPath "/deleteItems" path.

Definition resubmitItemAuthenticated (path : JsValue) : ApiProg bool :=
  postPath "/resubmitItems" path.

(** The body shared by the eight functions that [GET] a JSON document. *)
Definition getJson (url : string) (failure : string) : ApiProg JsValue :=
  thenLocally
    (get E apiClient url None)
    (fun response =>
       if negb (ok response) then inl (ErrorOf (JsString failure))
       else parsed response).

Definition getInfoAuthenticated : ApiProg JsValue :=
  getJson "/info" "Failed to get info".

Definition getWarningBannerAuthenticated : ApiProg JsValue :=
  getJson "/warningbanner" "Failed to get warning banner".

Definition getApplicationTitleAuthenticated : ApiProg JsValue :=
  getJson "/applicationtitle" "Failed to get application title".

Definition getStatusLogAuthenticated : ApiProg JsValue :=
  getJson "/statuslog" "Failed to get status log".

Definition getTagsAuthenticated : ApiProg JsValue :=
  getJson "/gettags" "Failed to get tags".

Definition getFeatureFlagsAuthenticated : ApiProg JsValue :=
  getJson "/getfeatureflags" "Failed to get feature flags".

Definition getMaxCSVFileSizeAuthenticated : ApiProg JsValue :=
  getJson "/getmaxcsvfilesize" "Failed to get max CSV file size".

Definition fetchCitationFileAuthenticated (citation : string) : ApiProg JsValue :=
  getJson ("/getcitationfilepath/" +:+ encodeURIComponent citation)
          "Failed to fetch citation file".

End WithEnv.

End ApiCallsTs.

(** ** [hooks/useApi.ts] *)

Module UseApiTs.
Import Browser RuntimeConfigTs ApiCallsTs.


Record Capabilities : Type := mkCapabilities {
  hasAuthentication : bool;
  hasValidTokens : bool;
  supportsSilentAuth : bool;
  errorMessage : option string
}.

Section WithEnv.
Variable E : Env.
(** [`${error}`] for a caught value. *)
Variable describe : Exn -> string.

(** The injected global and the build-time client id are read from [src];
    the endpoint is asked through [fetch], without options. *)
Definition checkAuthenticationCapabilities (src : Sources) : Prog Capabilities :=
  try_catch
    (appServiceResponse ← call_fetch E (mkRequest "/.auth/me" None None ∅ None);
     let hasAppServiceAuth := ok appServiceResponse in
     let hasMsalConfig :=
       Js.truthy (Js.or (RUNTIME_CONFIG src ≫= AZURE_CLIENT_ID) (VITE_AZURE_CLIENT_ID src)) in
     mret (mkCapabilities
             (hasAppServiceAuth || hasMsalConfig)
             hasAppServiceAuth
             hasMsalConfig
             (if negb hasAppServiceAuth && negb hasMsalConfig
              then Some "No authentication configuration found"
              else None)))
    (fun error =>
       mret (mkCapabilities false false false
               (Some ("Authentication check failed: " +:+ describe error)))).

End WithEnv.

End UseApiTs.


(** * Vocabulary of the statements

    Definitions used to state the properties below; they are not part of the
    sources. *)

Module RuntimeConfigSpec.
Import RuntimeConfigTs.

(** [loads src st cfg]: called in store [st] with the outside answering as
    [src], the loader returns a reference to an object that reads [cfg]. *)
Definition loads (src : Sources) (st : Store) (cfg : RuntimeConfig) : Prop :=
  let '(r, st') := loadRuntimeConfig src st in deref st' r = Some cfg.

(** The configuration before the defaults are applied. *)
Definition merged (src : Sources) : RuntimeConfig :=
  fromBuildEnv src
    (fromRuntimeGlobal (RUNTIME_CONFIG src)
      (fromAppService (authMe src)
        (fromBackend (getMsalConfig src) emptyConfig))).

(** A source is unavailable when its request is rejected, answers with a
    status outside 200..299, or its body does not parse. *)
Definition unavailable {A} (r : FetchResult A) : Prop :=
  match r with
  | FetchRejected => True
  | FetchResponse resp => ok resp = false \/ json resp = None
  end.

(** What the backend endpoint supplies, when it is available. *)
Definition backendOffer (src : Sources) : option Backend.Config :=
  match getMsalConfig src with
  | FetchResponse resp => if ok resp then json resp else None
  | FetchRejected => None
  end.

(** The identity [/.auth/me] supplies: the first of the list, when the
    endpoint is available and lists one. *)
Definition appServiceOffer (src : Sources) : option AppService.AuthInfo :=
  match authMe src with
  | FetchResponse resp =>
      if ok resp then
        match json resp with
        | Some (authInfo :: _) => Some authInfo
        | _ => None
        end
      else None
  | FetchRejected => None
  end.

(** [/.auth/me] supplies a non-empty authority. *)
Definition appServiceAuthority (src : Sources) : bool :=
  match appServiceOffer src with
  | Some authInfo => Js.truthy (AppService.authority authInfo)
  | None => false
  end.

Definition offer {A} (o : option A) (field : A -> option string) : list (option string) :=
  match o with
  | Some a => [field a]
  | None => []
  end.

(** The values offered for each field by the sources that are present,
    highest precedence first. *)
Definition clientIdOffers (src : Sources) : list (option string) :=
  offer (backendOffer src) Backend.clientId
  ++ offer (appServiceOffer src) AppService.client_id
  ++ offer (RUNTIME_CONFIG src) AZURE_CLIENT_ID
  ++ [VITE_AZURE_CLIENT_ID src].

Definition tenantIdOffers (src : Sources) : list (option string) :=
  offer (backendOffer src) Backend.tenantId
  ++ offer (RUNTIME_CONFIG src) AZURE_TENANT_ID
  ++ [VITE_AZURE_TENANT_ID src].

Definition authorityOffers (src : Sources) : list (option string) :=
  offer (backendOffer src) Backend.authority
  ++ offer (RUNTIME_CONFIG src) AZURE_AUTHORITY
  ++ [VITE_AZURE_AUTHORITY src].

(** [v] is the first non-empty value of [offers]; when there is none, [v]
    is not set (absent or empty). *)
Definition firstSet (offers : list (option string)) (v : option string) : Prop :=
  match List.find Js.truthy offers with
  | Some x => v = x
  | None => Js.truthy v = false
  end.

(** The scopes computed when none are given explicitly. *)
Definition computedScopes (clientId : option string) : list string :=
  match clientId with
  | Some c => if String.eqb c EmptyString then ["User.Read"]
              else ["User.Read"; "api://" +:+ c +:+ "/access_as_user"]
  | None => ["User.Read"]
  end.

(** The authority computed when none is supplied. *)
Definition defaultAuthority (tenantId : option string) : string :=
  match tenantId with
  | Some t => if String.eqb t EmptyString then commonAuthority else issuerBase +:+ "/" +:+ t
  | None => commonAuthority
  end.

(** The stores the module can be in: the initial one and those reached by
    calls of its exported functions. *)
Inductive reachable : Store -> Prop :=
| reachable_initial : reachable initialStore
| reachable_load src st : reachable st -> reachable (snd (loadRuntimeConfig src st))
| reachable_clear st : reachable st -> reachable (snd (clearConfigCache st)).

(** On the stores the module can reach, the cached reference points to an
    object, and every object has a non-empty authority and scopes. *)
Definition store_ok (st : Store) : Prop :=
  (forall r, cachedConfig st = Some r -> (r < length (heap st))%nat) /\
  Forall (fun cfg => Js.truthy (AZURE_AUTHORITY cfg) = true /\ API_SCOPES cfg <> None)
         (heap st).

End RuntimeConfigSpec.

Module TraceSpec.
Import Browser.

(** The first request of a list of events, with its answer. *)
Definition first_fetch (es : list Event) : option (Request * FetchResult JsValue) :=
  List.fold_right
    (fun e acc => match e with EvFetch req reply => Some (req, reply) | _ => acc end)
    None es.

(** The account list most recently read in [es]. *)
Definition last_accounts (es : list Event) : option (list AccountInfo) :=
  List.fold_left
    (fun acc e => match e with EvGetAllAccounts l => Some l | _ => acc end)
    es None.

(** A popup request in [es] was rejected. *)
Definition popup_failed (es : list Event) : bool :=
  existsb (fun e => match e with
                    | EvAcquireTokenPopup _ _ (TokenRejected _) => true
                    | _ => false
                    end) es.

Definition is_setError (e : Event) : bool :=
  match e with EvSetError _ => true | _ => false end.

(** [req] with its [Authorization] header set to [v]. *)
Definition with_authorization (req : Request) (v : string) : Request :=
  mkRequest (url req) (method req) (body req)
            (<[ "Authorization" := v ]> (headers req)) (signal req).

(** An identity library whose answers do not depend on the history. *)
Definition constantMsal (accounts : list AccountInfo) (silent popup : TokenReply)
  : PublicClientApplication :=
  mkMsal (fun _ => accounts) (fun _ _ _ => silent) (fun _ _ _ => popup)
         (fun _ _ _ => None) (fun _ _ => None).

(** A network that answers every request with the same status. *)
Definition constantEnv (code : Z) : Env :=
  mkEnv (fun _ _ => FetchResponse (mkResponse code None)) (fun _ => "{}").

(** A network that answers 401 until a request carries the given
    [Authorization] header. *)
Definition expiringEnv (good : string) : Env :=
  mkEnv (fun _ req =>
           if decide (headers req !! "Authorization" = Some good)
           then FetchResponse (mkResponse 200 None)
           else FetchResponse (mkResponse 401 None))
        (fun _ => "{}").

(** An identity library that hands out [stale] on the first silent request
    and [fresh] afterwards. *)
Definition refreshingMsal (account : AccountInfo) (stale fresh : string)
  : PublicClientApplication :=
  mkMsal (fun _ => [account])
         (fun h _ _ => if (count is_silent h =? 0)%nat then TokenOk stale else TokenOk fresh)
         (fun _ _ _ => TokenRejected (OtherAuthError "popup blocked"))
         (fun _ _ _ => None) (fun _ _ => None).

End TraceSpec.

Module ApiClientSpec.
Import Browser ApiClientTs TraceSpec.

(** The headers of the first request: the prepared ones, with the bearer
    token when one was obtained. *)
Definition firstHeaders (options : AuthenticatedFetchOptions) (token : option string)
  : gmap string string :=
  if Js.truthy token
  then <[ "Authorization" := ("Bearer " +:+ default EmptyString token) ]> (prepareHeaders (opt_headers options))
  else prepareHeaders (opt_headers options).

Definition firstRequest (url : string) (options : AuthenticatedFetchOptions)
    (token : option string) : Request :=
  mkRequest url (opt_method options) (opt_body options) (firstHeaders options token)
            (opt_signal options).

(** The scopes a call asks tokens for. *)
Definition scopesOf (this : AuthenticatedApiClient) (options : AuthenticatedFetchOptions)
  : list string :=
  default (defaultScopes this) (opt_scopes options).

End ApiClientSpec.

Module PatternSpec.
Import RuntimeConfigTs.

(** [s] has no slash. *)
Fixpoint slashFree (s : string) : bool :=
  match s with
  | EmptyString => true
  | String c s' => negb (Ascii.eqb c "/") && slashFree s'
  end.

(** Every character of [s] is in the class [[0-9a-f-]], either case. *)
Fixpoint allInClass (s : string) : bool :=
  match s with
  | EmptyString => true
  | String c s' => in_class c && allInClass s'
  end.

(** [s] and [word] are equal up to the case of ASCII letters. *)
Fixpoint sameLetters (s word : string) : bool :=
  match s, word with
  | EmptyString, EmptyString => true
  | String c s', String w word' => Ascii.eqb (lower c) (lower w) && sameLetters s' word'
  | _, _ => false
  end.

(** What the group of the tenant pattern can hold: 36 characters of the
    class, or one of the three words in any case. *)
Definition tenantShaped (g : string) : bool :=
  ((String.length g =? 36)%nat && allInClass g)
  || sameLetters g "common" || sameLetters g "organizations" || sameLetters g "consumers".

End PatternSpec.


Module AuthConfigSpec.
Import RuntimeConfigTs AuthConfigTs.

(** The values the module-level objects can take: the initial ones and
    those left by [loadMsalConfig], whatever configuration it was given. *)
Inductive configured : MsalObjects -> Prop :=
| configured_initial : configured initialObjects
| configured_load runtimeConfig o :
    configured o -> configured (loadMsalConfig runtimeConfig o).

End AuthConfigSpec.


Module SessionSpec.
Import Browser.

(** A React state setter was called. *)
Definition is_setter (e : Event) : bool :=
  match e with
  | EvSetError _ | EvSetAccounts _ | EvSetIsAuthenticated _ => true
  | _ => false
  end.

(** An interactive flow of the identity library was started. *)
Definition is_interactive (e : Event) : bool :=
  match e with
  | EvAcquireTokenPopup _ _ _ | EvLoginRedirect _ _ _ | EvLogoutRedirect _ _ => true
  | _ => false
  end.

(** The scopes and the account of every token request, silent or popup. *)
Definition token_requests (es : list Event) : list (list string * AccountInfo) :=
  List.flat_map
    (fun e => match e with
              | EvAcquireTokenSilent scopes account _
              | EvAcquireTokenPopup scopes account _ => [(scopes, account)]
              | _ => []
              end) es.

(** The access tokens the identity library handed out in [es]. *)
Definition tokens_obtained (es : list Event) : list string :=
  List.flat_map
    (fun e => match e with
              | EvAcquireTokenSilent _ _ (TokenOk t)
              | EvAcquireTokenPopup _ _ (TokenOk t) => [t]
              | _ => []
              end) es.

(** The answer to the last request of [es]. *)
Definition last_reply (es : list Event) : option (FetchResult JsValue) :=
  List.fold_left
    (fun acc e => match e with EvFetch _ reply => Some reply | _ => acc end) es None.

End SessionSpec.


Module ApiCallsSpec.
Import Browser ApiClientTs ApiCallsTs.

(** The eight functions that [GET] a JSON document, each with its URL and
    the message of the error it throws. *)
Definition jsonGetters (E : Env) (apiClient : AuthenticatedApiClient)
    (encodeURIComponent : string -> string) (citation : string)
  : list (ApiProg JsValue * string * string) :=
  [ (getInfoAuthenticated E apiClient, "/info", "Failed to get info");
    (getWarningBannerAuthenticated E apiClient, "/warningbanner",
     "Failed to get warning banner");
    (getApplicationTitleAuthenticated E apiClient, "/applicationtitle",
     "Failed to get application title");
    (getStatusLogAuthenticated E apiClient, "/statuslog", "Failed to get status log");
    (getTagsAuthenticated E apiClient, "/gettags", "Failed to get tags");
    (getFeatureFlagsAuthenticated E apiClient, "/getfeatureflags",
     "Failed to get feature flags");
    (getMaxCSVFileSizeAuthenticated E apiClient, "/getmaxcsvfilesize",
     "Failed to get max CSV file size");
    (fetchCitationFileAuthenticated E apiClient encodeURIComponent citation,
     "/getcitationfilepath/" +:+ encodeURIComponent citation,
     "Failed to fetch citation file") ].

(** What a function that ends with [k] makes of the answer to its last
    request. *)
Definition fromReply {A} (k : Response JsValue -> ApiExn + A)
    (reply : FetchResult JsValue) : ApiExn + A :=
  match reply with
  | FetchRejected => inl (Propagated NetworkExn)
  | FetchResponse response => k response
  end.

End ApiCallsSpec.


(** * Properties *)

(** ** Truthiness *)

Module JsFacts.

Lemma truthy_Some_iff (v : option string) :
  Js.truthy v = true <-> exists s, v = Some s /\ s <> EmptyString.
Proof.
  destruct v as [s|]; simpl.
  - rewrite negb_true_iff. split.
    + intros H. exists s. split; [reflexivity|].
      intros ->. discriminate.
    + intros (s' & [= <-] & Hne).
      destruct (String.eqb_spec s EmptyString); congruence.
  - split; [discriminate|]. intros (s & [=] & _).
Qed.

Lemma or_truthy_l (a b : option string) : Js.truthy a = true -> Js.or a b = a.
Proof. unfold Js.or. intros ->. reflexivity. Qed.

Lemma or_falsy_l (a b : option string) : Js.truthy a = false -> Js.or a b = b.
Proof. unfold Js.or. intros ->. reflexivity. Qed.

Lemma or_None_l (b : option string) : Js.or None b = b.
Proof. reflexivity. Qed.

(** [||] keeps a truthy left operand and is truthy as soon as one side is. *)
Lemma truthy_or (a b : option string) :
  Js.truthy (Js.or a b) = Js.truthy a || Js.truthy b.
Proof. unfold Js.or. destruct (Js.truthy a) eqn:Ha; simpl; [exact Ha | reflexivity]. Qed.

End JsFacts.

(** ** The configuration loader *)

Module RuntimeConfigFacts.
Import RuntimeConfigTs RuntimeConfigSpec.

Lemma resolve_merged (src : Sources) : resolve src = withDefaults (merged src).
Proof. reflexivity. Qed.

(** With an empty cache the loader queries both endpoints, in order,
    allocates the resolved object and caches the reference to it. *)
Lemma loadRuntimeConfig_miss (src : Sources) (st : Store) :
  cachedConfig st = None ->
  loadRuntimeConfig src st =
    (length (heap st),
     mkStore (Some (length (heap st)))
             (heap st ++ [resolve src])
             (requests st ++ ["/getMsalConfig"; "/.auth/me"])).
Proof.
  intros Hc. unfold loadRuntimeConfig, mbind, M_bind, readCache. rewrite Hc.
  cbn. rewrite <- app_assoc. reflexivity.
Qed.

(** With a cached reference the loader returns it and touches nothing. *)
Lemma loadRuntimeConfig_hit (src : Sources) (st : Store) (r : ref) :
  cachedConfig st = Some r -> loadRuntimeConfig src st = (r, st).
Proof.
  intros Hc. unfold loadRuntimeConfig, mbind, M_bind, readCache. rewrite Hc.
  reflexivity.
Qed.

Lemma loads_miss (src : Sources) (st : Store) :
  cachedConfig st = None -> loads src st (resolve src).
Proof.
  intros Hc. unfold loads. rewrite (loadRuntimeConfig_miss _ _ Hc).
  unfold deref. cbn. apply list_lookup_middle. reflexivity.
Qed.

(** After any call the cache holds the reference that was returned. *)
Lemma loadRuntimeConfig_caches (src : Sources) (st : Store) :
  cachedConfig (snd (loadRuntimeConfig src st)) = Some (fst (loadRuntimeConfig src st)).
Proof.
  destruct (cachedConfig st) as [r|] eqn:Hc.
  - rewrite (loadRuntimeConfig_hit _ _ _ Hc). exact Hc.
  - rewrite (loadRuntimeConfig_miss _ _ Hc). reflexivity.
Qed.

(** *** The tenant pattern on the usual authorities *)

Example tenantMatch_guid :
  tenantMatch "https://login.microsoftonline.com/72F988BF-86f1-41af-91ab-2d7cd011db47/"
  = Some "72F988BF-86f1-41af-91ab-2d7cd011db47".
Proof. reflexivity. Qed.

Example tenantMatch_common :
  tenantMatch "https://login.microsoftonline.com/common" = Some "common".
Proof. reflexivity. Qed.

Example tenantMatch_v2 :
  tenantMatch "https://login.microsoftonline.com/common/v2.0" = None.
Proof. reflexivity. Qed.

(** The tenant of a derived authority is found again by the pattern: for a
    tenant id [t] of 36 characters of the class, the authority
    [{issuer-base}/t] matches with group [t]. *)
Lemma tenantMatch_derived_authority (t : string) :
  class_times 36 t = Some (t, EmptyString) ->
  tenantMatch (issuerBase +:+ "/" +:+ t) = Some t.
Proof.
  intros Ht. unfold issuerBase.
  cbv [String.append]. cbn -[class_times literal_ci]. rewrite Ht. reflexivity.
Qed.

(** *** The defaults *)

Lemma withDefaults_clientId (config : RuntimeConfig) :
  AZURE_CLIENT_ID (withDefaults config) = AZURE_CLIENT_ID config.
Proof. reflexivity. Qed.

Lemma withDefaults_tenantId (config : RuntimeConfig) :
  AZURE_TENANT_ID (withDefaults config) = AZURE_TENANT_ID config.
Proof. reflexivity. Qed.

(** A supplied authority is kept; otherwise the default one is computed
    from the tenant. *)
Lemma withDefaults_authority (config : RuntimeConfig) :
  AZURE_AUTHORITY (withDefaults config) =
    if Js.truthy (AZURE_AUTHORITY config) then AZURE_AUTHORITY config
    else Some (defaultAuthority (AZURE_TENANT_ID config)).
Proof.
  unfold withDefaults, defaultAuthority. cbn [AZURE_AUTHORITY].
  destruct (Js.truthy (AZURE_AUTHORITY config)) eqn:Ha.
  - rewrite andb_false_r. rewrite Ha. reflexivity.
  - rewrite andb_true_r.
    destruct (AZURE_TENANT_ID config) as [t|]; cbn.
    + destruct (String.eqb t EmptyString) eqn:Ht; cbn.
      * rewrite Ha. reflexivity.
      * reflexivity.
    + rewrite Ha. reflexivity.
Qed.

Lemma withDefaults_scopes (config : RuntimeConfig) :
  API_SCOPES (withDefaults config) =
    match API_SCOPES config with
    | Some explicit => Some explicit
    | None => Some (computedScopes (AZURE_CLIENT_ID config))
    end.
Proof.
  unfold withDefaults, computedScopes. cbn [API_SCOPES].
  destruct (API_SCOPES config); cbn; [reflexivity|].
  destruct (AZURE_CLIENT_ID config) as [c|]; cbn; [|reflexivity].
  destruct (String.eqb c EmptyString); reflexivity.
Qed.

Lemma defaultAuthority_nonempty (t : option string) : defaultAuthority t <> EmptyString.
Proof.
  unfold defaultAuthority, commonAuthority, issuerBase.
  destruct t as [t|]; [destruct (String.eqb t EmptyString)|]; discriminate.
Qed.

Lemma baseline_in_computedScopes (c : option string) : In "User.Read" (computedScopes c).
Proof.
  unfold computedScopes.
  destruct c as [c|]; [destruct (String.eqb c EmptyString)|]; left; reflexivity.
Qed.

(** Only the injected global can supply scopes. *)
Lemma merged_scopes (src : Sources) :
  API_SCOPES (merged src) = RUNTIME_CONFIG src ≫= API_SCOPES.
Proof.
  unfold merged, fromBuildEnv. cbn [API_SCOPES].
  assert (Hb : API_SCOPES (fromBackend (getMsalConfig src) emptyConfig) = None).
  { unfold fromBackend. repeat case_match; reflexivity. }
  assert (Ha : API_SCOPES (fromAppService (authMe src)
                 (fromBackend (getMsalConfig src) emptyConfig)) = None).
  { unfold fromAppService. repeat case_match; cbn; exact Hb. }
  unfold fromRuntimeGlobal. destruct (RUNTIME_CONFIG src) as [g|]; cbn.
  - rewrite Ha. reflexivity.
  - exact Ha.
Qed.

(** The resolved authority is never absent or empty. *)
Lemma resolve_authority_nonempty (src : Sources) :
  exists a, AZURE_AUTHORITY (resolve src) = Some a /\ a <> EmptyString.
Proof.
  rewrite resolve_merged, withDefaults_authority.
  destruct (Js.truthy (AZURE_AUTHORITY (merged src))) eqn:Ha.
  - apply JsFacts.truthy_Some_iff in Ha. exact Ha.
  - eexists. split; [reflexivity | apply defaultAuthority_nonempty].
Qed.

(** *** The scenario of the backend answering alone *)

(** C4. With no injected global, no build-time values and [/.auth/me]
    unavailable, a backend answer [{clientId:"c1", tenantId:"t1",
    authority:null}] resolves to client id [c1], tenant [t1], the authority
    derived from the tenant and the scopes [User.Read] then
    [api://c1/access_as_user], in that order. *)
Theorem C4_backend_only_scenario (st : Store) (code : Z)
    (me : FetchResult (list AppService.AuthInfo)) :
  cachedConfig st = None ->
  200 <= code <= 299 ->
  unavailable me ->
  loads (mkSources
           (FetchResponse
              (mkResponse code (Some (Backend.mkConfig (Some "c1") (Some "t1") None))))
           me None None None None)
        st
        (mkRuntimeConfig (Some "c1") (Some "t1")
           (Some "https://login.microsoftonline.com/t1")
           (Some ["User.Read"; "api://c1/access_as_user"])).
Proof.
  intros Hc Hcode Hme.
  match goal with |- loads ?src _ ?cfg => assert (Hr : resolve src = cfg) end.
  { unfold resolve, fromBackend, ok. cbn [getMsalConfig authMe status json].
    replace (200 <=? code) with true by (symmetry; apply Z.leb_le; lia).
    replace (code <=? 299) with true by (symmetry; apply Z.leb_le; lia).
    cbn [andb].
    assert (Hskip : forall c, fromAppService me c = c).
    { intros c. unfold fromAppService. destruct me as [|resp]; [reflexivity|].
      destruct Hme as [Hok | Hjson]; [rewrite Hok | rewrite Hjson];
        [reflexivity | destruct (ok resp); reflexivity]. }
    rewrite Hskip. reflexivity. }
  rewrite <- Hr. apply loads_miss. exact Hc.
Qed.

Lemma C4_backend_only_scenario_witness :
  loads (mkSources
           (FetchResponse
              (mkResponse 200 (Some (Backend.mkConfig (Some "c1") (Some "t1") None))))
           FetchRejected None None None None)
        initialStore
        (mkRuntimeConfig (Some "c1") (Some "t1")
           (Some "https://login.microsoftonline.com/t1")
           (Some ["User.Read"; "api://c1/access_as_user"])).
Proof.
  apply (C4_backend_only_scenario initialStore 200 FetchRejected);
    [reflexivity | lia | exact I].
Defined.

(** The second scenario of the specification: the backend unreachable
    and the injected global supplying the client id [c2] only. *)
Example global_only_scenario :
  loads (mkSources FetchRejected FetchRejected
           (Some (mkRuntimeConfig (Some "c2") None None None)) None None None)
        initialStore
        (mkRuntimeConfig (Some "c2") None
           (Some "https://login.microsoftonline.com/common")
           (Some ["User.Read"; "api://c2/access_as_user"])).
Proof. reflexivity. Qed.

(** *** Authority and scopes after resolution *)

(** C5, as stated, fails: an injected global with an empty [API_SCOPES]
    array resolves to empty scopes, without the baseline scope. *)
Lemma C5_counterexample_empty_scopes :
  let src := mkSources FetchRejected FetchRejected
               (Some (mkRuntimeConfig None None None (Some []))) None None None in
  exists cfg, loads src initialStore cfg /\ API_SCOPES cfg = Some [].
Proof. eexists. split; reflexivity. Qed.

(** C5, amended. Whatever the sources supply, the resolved authority is a
    non-empty string: the supplied one when a non-empty one was merged,
    otherwise [{issuer-base}/{tenantId}] for a non-empty resolved tenant and
    the generic multi-tenant authority without one. The resolved scopes are
    the [API_SCOPES] array of the injected global exactly as given when it
    has one; otherwise the baseline scope followed, for a non-empty client
    id, by the derived scope, and then they contain the baseline scope. *)
Theorem C5_authority_and_scopes (src : Sources) (st : Store) :
  cachedConfig st = None ->
  exists cfg a scopes,
    loads src st cfg /\
    AZURE_AUTHORITY cfg = Some a /\ a <> EmptyString /\
    (if Js.truthy (AZURE_AUTHORITY (merged src))
     then AZURE_AUTHORITY (merged src) = Some a
     else a = defaultAuthority (AZURE_TENANT_ID cfg)) /\
    API_SCOPES cfg = Some scopes /\
    match RUNTIME_CONFIG src ≫= API_SCOPES with
    | Some explicit => scopes = explicit
    | None => scopes = computedScopes (AZURE_CLIENT_ID cfg) /\ In "User.Read" scopes
    end.
Proof.
  intros Hc.
  destruct (resolve_authority_nonempty src) as (a & Ha & Hne).
  pose proof (withDefaults_scopes (merged src)) as Hs.
  rewrite merged_scopes in Hs. rewrite <- resolve_merged in Hs.
  assert (Hd : if Js.truthy (AZURE_AUTHORITY (merged src))
               then AZURE_AUTHORITY (merged src) = Some a
               else a = defaultAuthority (AZURE_TENANT_ID (resolve src))).
  { rewrite resolve_merged, withDefaults_authority in Ha.
    rewrite resolve_merged, withDefaults_tenantId.
    destruct (Js.truthy (AZURE_AUTHORITY (merged src))); congruence. }
  exists (resolve src), a.
  destruct (RUNTIME_CONFIG src ≫= API_SCOPES) as [explicit|] eqn:Hg.
  - exists explicit. auto 10 using loads_miss.
  - exists (computedScopes (AZURE_CLIENT_ID (merged src))).
    auto 10 using loads_miss, baseline_in_computedScopes.
Qed.

Lemma C5_authority_and_scopes_witness :
  let src := mkSources FetchRejected FetchRejected None None (Some "t9") None in
  cachedConfig initialStore = None /\
  exists cfg a scopes,
    loads src initialStore cfg /\
    AZURE_AUTHORITY cfg = Some a /\ a <> EmptyString /\
    (if Js.truthy (AZURE_AUTHORITY (merged src))
     then AZURE_AUTHORITY (merged src) = Some a
     else a = defaultAuthority (AZURE_TENANT_ID cfg)) /\
    API_SCOPES cfg = Some scopes /\
    match RUNTIME_CONFIG src ≫= API_SCOPES with
    | Some explicit => scopes = explicit
    | None => scopes = computedScopes (AZURE_CLIENT_ID cfg) /\ In "User.Read" scopes
    end.
Proof.
  split; [reflexivity|].
  apply (C5_authority_and_scopes
           (mkSources FetchRejected FetchRejected None None (Some "t9") None)
           initialStore).
  reflexivity.
Defined.

(** *** Precedence *)

(** Filling a field from a list of offers, each with [||]. *)
Lemma fill_truthy (l : list (option string)) (v : option string) :
  Js.truthy v = true -> fold_left Js.or l v = v.
Proof.
  revert v. induction l as [|x l IH]; intros v Hv; [reflexivity|].
  cbn. rewrite (JsFacts.or_truthy_l _ _ Hv). apply IH. exact Hv.
Qed.

Lemma fill_firstSet (l : list (option string)) (v : option string) :
  Js.truthy v = false -> l <> [] -> firstSet l (fold_left Js.or l v).
Proof.
  revert v. induction l as [|x l IH]; intros v Hv Hne; [congruence|].
  cbn [fold_left]. rewrite (JsFacts.or_falsy_l _ _ Hv).
  unfold firstSet. cbn [find].
  destruct (Js.truthy x) eqn:Hx.
  - apply fill_truthy. exact Hx.
  - destruct l as [|y l].
    + cbn. exact Hx.
    + apply (IH x Hx). discriminate.
Qed.

Lemma merged_clientId (src : Sources) :
  AZURE_CLIENT_ID (merged src) = fold_left Js.or (clientIdOffers src) None.
Proof.
  unfold clientIdOffers, merged.
  rewrite !fold_left_app. unfold fromBuildEnv. cbn [AZURE_CLIENT_ID fold_left].
  f_equal.
  assert (Hrg : forall c,
             AZURE_CLIENT_ID (fromRuntimeGlobal (RUNTIME_CONFIG src) c)
             = fold_left Js.or (offer (RUNTIME_CONFIG src) AZURE_CLIENT_ID)
                 (AZURE_CLIENT_ID c)).
  { intros c. unfold fromRuntimeGlobal. destruct (RUNTIME_CONFIG src); reflexivity. }
  rewrite Hrg. f_equal.
  assert (Has : forall c,
             AZURE_CLIENT_ID (fromAppService (authMe src) c)
             = fold_left Js.or (offer (appServiceOffer src) AppService.client_id)
                 (AZURE_CLIENT_ID c)).
  { intros c. unfold fromAppService, appServiceOffer.
    destruct (authMe src) as [|ra]; [reflexivity|].
    destruct (ok ra); [|reflexivity].
    destruct (json ra) as [[|ai ?]|]; [reflexivity| |reflexivity].
    repeat case_match; reflexivity. }
  rewrite Has. f_equal.
  unfold fromBackend, backendOffer.
  destruct (getMsalConfig src) as [|rb]; [reflexivity|].
  destruct (ok rb); [|reflexivity]. destruct (json rb); reflexivity.
Qed.

Lemma fromAppService_without_authority (src : Sources) (config : RuntimeConfig) :
  appServiceAuthority src = false ->
  AZURE_TENANT_ID (fromAppService (authMe src) config) = AZURE_TENANT_ID config /\
  AZURE_AUTHORITY (fromAppService (authMe src) config) = AZURE_AUTHORITY config.
Proof.
  unfold appServiceAuthority, appServiceOffer, fromAppService.
  destruct (authMe src) as [|ra]; [auto|].
  destruct (ok ra); [|auto].
  destruct (json ra) as [[|ai ?]|]; [auto| |auto].
  intros ->. auto.
Qed.

Lemma merged_tenantId (src : Sources) :
  appServiceAuthority src = false ->
  AZURE_TENANT_ID (merged src) = fold_left Js.or (tenantIdOffers src) None.
Proof.
  intros Hno. unfold tenantIdOffers, merged, backendOffer.
  rewrite !fold_left_app. unfold fromBuildEnv. cbn [AZURE_TENANT_ID fold_left].
  f_equal.
  assert (Hrg : AZURE_TENANT_ID
                  (fromRuntimeGlobal (RUNTIME_CONFIG src)
                     (fromAppService (authMe src)
                        (fromBackend (getMsalConfig src) emptyConfig)))
                = fold_left Js.or (offer (RUNTIME_CONFIG src) AZURE_TENANT_ID)
                    (AZURE_TENANT_ID (fromAppService (authMe src)
                        (fromBackend (getMsalConfig src) emptyConfig)))).
  { unfold fromRuntimeGlobal. destruct (RUNTIME_CONFIG src); reflexivity. }
  rewrite Hrg. f_equal.
  rewrite (proj1 (fromAppService_without_authority src _ Hno)).
  unfold fromBackend.
  destruct (getMsalConfig src) as [|rb]; [reflexivity|].
  destruct (ok rb); [|reflexivity]. destruct (json rb); reflexivity.
Qed.

Lemma merged_authority (src : Sources) :
  appServiceAuthority src = false ->
  AZURE_AUTHORITY (merged src) = fold_left Js.or (authorityOffers src) None.
Proof.
  intros Hno. unfold authorityOffers, merged, backendOffer.
  rewrite !fold_left_app. unfold fromBuildEnv. cbn [AZURE_AUTHORITY fold_left].
  f_equal.
  assert (Hrg : AZURE_AUTHORITY
                  (fromRuntimeGlobal (RUNTIME_CONFIG src)
                     (fromAppService (authMe src)
                        (fromBackend (getMsalConfig src) emptyConfig)))
                = fold_left Js.or (offer (RUNTIME_CONFIG src) AZURE_AUTHORITY)
                    (AZURE_AUTHORITY (fromAppService (authMe src)
                        (fromBackend (getMsalConfig src) emptyConfig)))).
  { unfold fromRuntimeGlobal. destruct (RUNTIME_CONFIG src); reflexivity. }
  rewrite Hrg. f_equal.
  rewrite (proj2 (fromAppService_without_authority src _ Hno)).
  unfold fromBackend.
  destruct (getMsalConfig src) as [|rb]; [reflexivity|].
  destruct (ok rb); [|reflexivity]. destruct (json rb); reflexivity.
Qed.

Lemma offers_nonempty (l : list (option string)) (v : option string) : (l ++ [v])%list <> [].
Proof. destruct l; discriminate. Qed.

(** C1, as stated, fails: a value the backend supplies that is not null
    but the empty string is replaced by a lower-precedence source, here the
    build-time value. *)
Lemma C1_counterexample_empty_backend_value :
  let backendConfig := Backend.mkConfig (Some EmptyString) None None in
  let src := mkSources (FetchResponse (mkResponse 200 (Some backendConfig)))
               FetchRejected None (Some "env-id") None None in
  Backend.clientId backendConfig <> None /\
  exists cfg, loads src initialStore cfg /\ AZURE_CLIENT_ID cfg = Some "env-id".
Proof. split; [discriminate|]. eexists. split; reflexivity. Qed.

(** C1, amended. A field counts as set when it holds a non-empty string.
    The resolved client id is the first non-empty client id offered by the
    sources that are present, in the order backend, [/.auth/me], injected
    global, build-time value (and is unset when none is non-empty); a
    non-empty client id of the backend is therefore never replaced. When
    [/.auth/me] supplies no authority the same holds for the tenant id and the
    authority over backend, injected global and build-time value, the
    authority falling back to the computed default when none is offered. *)
Theorem C1_precedence (src : Sources) (st : Store) :
  cachedConfig st = None ->
  exists cfg,
    loads src st cfg /\
    firstSet (clientIdOffers src) (AZURE_CLIENT_ID cfg) /\
    (forall b, backendOffer src = Some b ->
               Js.truthy (Backend.clientId b) = true ->
               AZURE_CLIENT_ID cfg = Backend.clientId b) /\
    (appServiceAuthority src = false ->
       firstSet (tenantIdOffers src) (AZURE_TENANT_ID cfg) /\
       match List.find Js.truthy (authorityOffers src) with
       | Some x => AZURE_AUTHORITY cfg = x
       | None => AZURE_AUTHORITY cfg = Some (defaultAuthority (AZURE_TENANT_ID cfg))
       end /\
       (forall b, backendOffer src = Some b ->
                  (Js.truthy (Backend.tenantId b) = true ->
                   AZURE_TENANT_ID cfg = Backend.tenantId b) /\
                  (Js.truthy (Backend.authority b) = true ->
                   AZURE_AUTHORITY cfg = Backend.authority b))).
Proof.
  intros Hc. exists (resolve src).
  assert (Hcid : firstSet (clientIdOffers src) (AZURE_CLIENT_ID (resolve src))).
  { rewrite resolve_merged, withDefaults_clientId, merged_clientId.
    apply fill_firstSet; [reflexivity|].
    unfold clientIdOffers. rewrite !app_assoc. apply offers_nonempty. }
  split; [apply loads_miss; exact Hc|]. split; [exact Hcid|]. split.
  - intros b Hb Ht. unfold firstSet, clientIdOffers in Hcid.
    rewrite Hb in Hcid. cbn in Hcid. rewrite Ht in Hcid. exact Hcid.
  - intros Hno.
    assert (Htid : firstSet (tenantIdOffers src) (AZURE_TENANT_ID (resolve src))).
    { rewrite resolve_merged, withDefaults_tenantId, (merged_tenantId _ Hno).
      apply fill_firstSet; [reflexivity|].
      unfold tenantIdOffers. rewrite !app_assoc. apply offers_nonempty. }
    assert (Hau : firstSet (authorityOffers src) (AZURE_AUTHORITY (merged src))).
    { rewrite (merged_authority _ Hno).
      apply fill_firstSet; [reflexivity|].
      unfold authorityOffers. rewrite !app_assoc. apply offers_nonempty. }
    assert (Hau' : match List.find Js.truthy (authorityOffers src) with
                   | Some x => AZURE_AUTHORITY (resolve src) = x
                   | None => AZURE_AUTHORITY (resolve src)
                             = Some (defaultAuthority (AZURE_TENANT_ID (resolve src)))
                   end).
    { rewrite resolve_merged, withDefaults_authority, withDefaults_tenantId.
      unfold firstSet in Hau.
      destruct (find Js.truthy (authorityOffers src)) as [x|] eqn:Hf.
      - apply find_some in Hf. destruct Hf as [_ Hx].
        rewrite Hau, Hx. reflexivity.
      - rewrite Hau. reflexivity. }
    split; [exact Htid|]. split; [exact Hau'|].
    intros b Hb. split; intros Ht.
    + unfold firstSet, tenantIdOffers in Htid.
      rewrite Hb in Htid. cbn in Htid. rewrite Ht in Htid. exact Htid.
    + unfold authorityOffers in Hau'.
      rewrite Hb in Hau'. cbn in Hau'. rewrite Ht in Hau'. exact Hau'.
Qed.

Lemma C1_precedence_witness :
  let src := mkSources
               (FetchResponse
                  (mkResponse 200
                     (Some (Backend.mkConfig (Some "backend-id") None
                              (Some "https://login.microsoftonline.com/t1")))))
               (FetchResponse
                  (mkResponse 200 (Some [AppService.mkAuthInfo (Some "easyauth-id") None])))
               (Some (mkRuntimeConfig (Some "global-id") (Some "t2") None None))
               (Some "env-id") (Some "t3") None in
  exists cfg,
    loads src initialStore cfg /\
    AZURE_CLIENT_ID cfg = Some "backend-id" /\
    AZURE_TENANT_ID cfg = Some "t2" /\
    AZURE_AUTHORITY cfg = Some "https://login.microsoftonline.com/t1".
Proof.
  intros src.
  destruct (C1_precedence src initialStore eq_refl)
    as (cfg & Hl & Hcid & _ & Hrest).
  destruct (Hrest eq_refl) as (Htid & Hau & _).
  exists cfg. repeat split; [exact Hl | exact Hcid | exact Htid | exact Hau].
Defined.

(** What the amended statement leaves open: when [/.auth/me] supplies an
    authority, the loader assigns it, and the tenant it matches in it,
    without looking at what the backend had supplied. *)
Example appService_authority_replaces_backend :
  let src := mkSources
               (FetchResponse
                  (mkResponse 200
                     (Some (Backend.mkConfig (Some "c1") (Some "t1")
                              (Some "https://login.microsoftonline.com/t1")))))
               (FetchResponse
                  (mkResponse 200
                     (Some [AppService.mkAuthInfo (Some "c1")
                              (Some "https://login.microsoftonline.com/common")])))
               None None None None in
  loads src initialStore
        (mkRuntimeConfig (Some "c1") (Some "common")
           (Some "https://login.microsoftonline.com/common")
           (Some ["User.Read"; "api://c1/access_as_user"])).
Proof. reflexivity. Qed.

(** *** The cache *)

(** C6. A call that follows another without [clearConfigCache] in between
    returns the same reference and leaves the store as it was: no request is
    issued and the object is the same. After [clearConfigCache] the next call
    queries both endpoints again and returns the object resolved from what
    the sources supply then. *)
Theorem C6_cache (src1 src2 src3 : Sources) (st : Store) :
  let '(r1, st1) := loadRuntimeConfig src1 st in
  let '(r2, st2) := loadRuntimeConfig src2 st1 in
  let '(_, st3) := clearConfigCache st1 in
  let '(r4, st4) := loadRuntimeConfig src3 st3 in
  r2 = r1 /\ st2 = st1 /\
  requests st2 = requests st1 /\ deref st2 r2 = deref st1 r1 /\
  requests st4 = (requests st1 ++ ["/getMsalConfig"; "/.auth/me"])%list /\
  deref st4 r4 = Some (resolve src3) /\
  cachedConfig st4 = Some r4.
Proof.
  pose proof (loadRuntimeConfig_caches src1 st) as Hc1.
  destruct (loadRuntimeConfig src1 st) as [r1 st1]. cbn [fst snd] in Hc1.
  rewrite (loadRuntimeConfig_hit src2 st1 r1 Hc1).
  unfold clearConfigCache, writeCache.
  rewrite loadRuntimeConfig_miss by reflexivity. cbn.
  repeat split. unfold deref. cbn. apply list_lookup_middle. reflexivity.
Qed.

Lemma resolve_ok (src : Sources) :
  Js.truthy (AZURE_AUTHORITY (resolve src)) = true /\ API_SCOPES (resolve src) <> None.
Proof.
  split.
  - apply JsFacts.truthy_Some_iff. destruct (resolve_authority_nonempty src) as (a & Ha & Hne).
    exists a. auto.
  - rewrite resolve_merged, withDefaults_scopes.
    destruct (API_SCOPES (merged src)); discriminate.
Qed.

Lemma reachable_store_ok (st : Store) : reachable st -> store_ok st.
Proof.
  induction 1 as [|src st Hr [IHc IHh]|st Hr [IHc IHh]].
  - split; [discriminate | constructor].
  - destruct (cachedConfig st) as [r|] eqn:Hc.
    + rewrite (loadRuntimeConfig_hit _ _ _ Hc). cbn. split; [|exact IHh].
      intros r' Hr'. apply IHc. congruence.
    + rewrite (loadRuntimeConfig_miss _ _ Hc). cbn. split.
      * intros r [= <-]. cbn [heap]. rewrite length_app. cbn. lia.
      * cbn [heap]. apply Forall_app. split; [exact IHh|].
        constructor; [apply resolve_ok | constructor].
  - cbn. split; [discriminate | exact IHh].
Qed.

(** Every call on a reachable store returns a reference to an object with a
    non-empty authority, whether it was just resolved or comes from the
    cache. *)
Lemma reachable_load_authority (src : Sources) (st : Store) :
  reachable st ->
  exists cfg a, loads src st cfg /\ AZURE_AUTHORITY cfg = Some a /\ a <> EmptyString.
Proof.
  intros Hr.
  pose proof (reachable_store_ok _ (reachable_load src st Hr)) as [Hc Hh].
  pose proof (loadRuntimeConfig_caches src st) as Hcache.
  unfold loads. destruct (loadRuntimeConfig src st) as [r st']. cbn [fst snd] in *.
  specialize (Hc r Hcache).
  destruct (lookup_lt_is_Some_2 (heap st') r Hc) as [cfg Hcfg].
  rewrite Forall_forall in Hh.
  assert (Hin : cfg ∈ heap st') by (eapply list_elem_of_lookup_2; exact Hcfg).
  destruct (Hh cfg Hin) as [Ht _].
  apply JsFacts.truthy_Some_iff in Ht. destruct Ht as (a & Ha & Hne).
  exists cfg, a. auto.
Qed.

(** *** What the consumer of the scopes does with them *)

Import AuthConfigTs.

Lemma includes_In (x : string) (scopes : list string) :
  includes x scopes = true -> In x scopes.
Proof.
  unfold includes. rewrite existsb_exists. intros (y & Hy & Heq).
  apply String.eqb_eq in Heq. subst. exact Hy.
Qed.

(** The scopes of the silent request contain the baseline scope whatever
    scopes were resolved: [loadMsalConfig] ignores an empty array and puts the
    baseline scope in front of an array that lacks it. *)
Lemma loadMsalConfig_keeps_baseline (runtimeConfig : RuntimeConfig) (o : MsalObjects) :
  In "User.Read" (silentRequest_scopes o) ->
  In "User.Read" (silentRequest_scopes (loadMsalConfig runtimeConfig o)).
Proof.
  intros Ho. unfold loadMsalConfig.
  destruct (Js.truthy (AZURE_CLIENT_ID runtimeConfig));
    destruct (Js.truthy (AZURE_AUTHORITY runtimeConfig));
    destruct (API_SCOPES runtimeConfig) as [[|s0 scopes]|]; cbn [silentRequest_scopes];
    try exact Ho;
    (destruct (includes "User.Read" (s0 :: scopes)) eqn:Hinc;
     [apply includes_In; exact Hinc | left; reflexivity]).
Qed.

Example loadMsalConfig_empty_scopes :
  loadMsalConfig (mkRuntimeConfig None None (Some commonAuthority) (Some [])) initialObjects
  = initialObjects.
Proof. reflexivity. Qed.

End RuntimeConfigFacts.

(** ** The token-attaching client *)

Module ApiClientFacts.
Import Browser ApiClientTs TraceSpec ApiClientSpec.
Local Open Scope list_scope.

(** *** Running programs *)

Lemma bind_returned {A B} (m : Prog A) (f : A -> Prog B) (h : History) a es :
  m h = (Returned a, es) ->
  (m ≫= f) h = (fst (f a (h ++ es)), es ++ snd (f a (h ++ es))).
Proof.
  intros Hm. unfold mbind, Prog_bind. rewrite Hm.
  destruct (f a (h ++ es)). reflexivity.
Qed.

Lemma bind_thrown {A B} (m : Prog A) (f : A -> Prog B) (h : History) e es :
  m h = (Thrown e, es) -> (m ≫= f) h = (Thrown e, es).
Proof. intros Hm. unfold mbind, Prog_bind. rewrite Hm. reflexivity. Qed.

Lemma count_app (p : Event -> bool) (es1 es2 : list Event) :
  count p (es1 ++ es2) = (count p es1 + count p es2)%nat.
Proof. unfold count. rewrite List.filter_app, length_app. reflexivity. Qed.

(** *** [getAccessToken] *)

(** Closes the conjuncts of a statement about a trace that is known
    event by event. *)
Ltac trace_facts :=
  cbn; repeat split;
  first [ lia
        | discriminate
        | intros [Hs _]; exact (False_ind _ (Hs eq_refl))
        | intros (_ & a & l & [=])
        | intros _; split; [discriminate | eauto]
        | intros; congruence
        | eauto ].

(** The token acquisition of the client always returns; it sends no
    request and sets no error state; it makes at most one silent and at most
    one popup request, the popup exactly when the silent request failed and
    the account list read afterwards is not empty; when the popup fails the
    result is [null]. *)
Lemma getAccessToken_returns (this : AuthenticatedApiClient) (scopes : list string)
    (h : History) :
  exists token es,
    getAccessToken this scopes h = (Returned token, es) /\
    count is_fetch es = 0%nat /\
    count is_setError es = 0%nat /\
    (count is_silent es <= 1)%nat /\
    (count is_popup es <= 1)%nat /\
    (count is_popup es = 1%nat <->
       silent_failure es <> None /\ exists a l, last_accounts es = Some (a :: l)) /\
    (popup_failed es = true -> token = None) /\
    (msalInstance this = None -> token = None /\ es = []).
Proof.
  unfold getAccessToken.
  destruct (msalInstance this) as [msal|].
  2:{ exists None, []. trace_facts. }
  unfold try_catch, mbind, Prog_bind, call_getAllAccounts, call_acquireTokenSilent,
    call_acquireTokenPopup, mret, Prog_ret.
  destruct (getAllAccounts msal h) as [|account accounts] eqn:Hacc.
  { eexists _, _. split; [reflexivity|]. trace_facts. }
  destruct (acquireTokenSilent msal (h ++ [EvGetAllAccounts (account :: accounts)])
              scopes account) as [t|err] eqn:Hsil; cbn [token_outcome].
  { eexists _, _. split; [reflexivity|]. trace_facts. }
  cbn [app].
  match goal with |- context [getAllAccounts msal ?h'] =>
    destruct (getAllAccounts msal h') as [|account' accounts'] eqn:Hacc' end.
  { eexists _, _. split; [reflexivity|]. trace_facts. }
  match goal with |- context [acquireTokenPopup msal ?h' scopes account'] =>
    destruct (acquireTokenPopup msal h' scopes account') as [t'|err'] eqn:Hpop end;
    cbn [token_outcome].
  - eexists _, _. split; [reflexivity|]. trace_facts.
  - eexists _, _. split; [reflexivity|]. trace_facts.
Qed.

(** *** [authenticatedFetch] *)

Lemma first_fetch_app_nofetch (es1 es2 : list Event) :
  count is_fetch es1 = 0%nat -> first_fetch (es1 ++ es2) = first_fetch es2.
Proof.
  induction es1 as [|e es1 IH]; [reflexivity|].
  unfold count. cbn [List.filter app]. destruct e; cbn; try exact IH.
  discriminate.
Qed.

(** The function with authentication on, step by step: the token, the
    first request and, after a 401, one more token and at most one more
    request. *)
Lemma authenticatedFetch_auth (E : Env) (this : AuthenticatedApiClient) (url : string)
    (options : AuthenticatedFetchOptions) (h : History) token es1 :
  default false (opt_skipAuth options) = false ->
  getAccessToken this (scopesOf this options) h = (Returned token, es1) ->
  let req1 := firstRequest url options token in
  let reply1 := fetch E (h ++ es1) req1 in
  authenticatedFetch E this url options h =
    match reply1 with
    | FetchRejected => (Thrown NetworkExn, es1 ++ [EvFetch req1 reply1])
    | FetchResponse r1 =>
        if status r1 =? 401 then
          let h2 := h ++ es1 ++ [EvFetch req1 reply1] in
          match getAccessToken this (scopesOf this options) h2 with
          | (Returned freshToken, es2) =>
              if Js.truthy freshToken then
                let req2 := with_authorization req1 ("Bearer " +:+ default EmptyString freshToken) in
                let reply2 := fetch E (h2 ++ es2) req2 in
                (fetch_outcome reply2,
                 es1 ++ [EvFetch req1 reply1] ++ es2 ++ [EvFetch req2 reply2])
              else (Returned r1, es1 ++ [EvFetch req1 reply1] ++ es2)
          | (Thrown e, es2) => (Thrown e, es1 ++ [EvFetch req1 reply1] ++ es2)
          end
        else (Returned r1, es1 ++ [EvFetch req1 reply1])
    end.
Proof.
  intros Hskip Hg req1 reply1. unfold authenticatedFetch, bearer. rewrite Hskip. cbn [negb].
  fold (scopesOf this options).
  unfold mbind, Prog_bind, mret, Prog_ret, call_fetch. rewrite Hg.
  rewrite !app_nil_r. fold (firstHeaders options token). fold (firstRequest url options token).
  fold req1. fold reply1.
  destruct reply1 as [|r1] eqn:Hr1; cbn [fetch_outcome]; [reflexivity|].
  rewrite andb_true_r.
  destruct (status r1 =? 401); [|reflexivity].
  rewrite <- !app_assoc.
  destruct (getAccessToken this (scopesOf this options) (h ++ es1 ++ [EvFetch req1 (FetchResponse r1)]))
    as [[freshToken|e] es2]; [|reflexivity].
  destruct (Js.truthy freshToken); [|rewrite app_nil_r; reflexivity].
  rewrite <- !app_assoc. reflexivity.
Qed.

(** C2. With [skipAuth] false, when the first response has status 401 the
    function runs the token acquisition exactly once more and, when that
    yields a token, sends exactly one more request: the first one with the
    [Authorization] header replaced by the text "Bearer " followed by the
    fresh token. Whatever
    the second request yields, a 401 included, is the result as it is; with
    no fresh token the 401 response itself is the result. No further token
    is acquired and no further request is sent. *)
Theorem C2_single_retry_on_401 (E : Env) (this : AuthenticatedApiClient) (url : string)
    (options : AuthenticatedFetchOptions) (h : History)
    (req1 : Request) (r1 : Response JsValue) :
  default false (opt_skipAuth options) = false ->
  first_fetch (snd (authenticatedFetch E this url options h))
    = Some (req1, FetchResponse r1) ->
  status r1 = 401 ->
  exists token es1 freshToken es2,
    getAccessToken this (scopesOf this options) h = (Returned token, es1) /\
    req1 = firstRequest url options token /\
    getAccessToken this (scopesOf this options)
                   (h ++ es1 ++ [EvFetch req1 (FetchResponse r1)])
      = (Returned freshToken, es2) /\
    count is_fetch es1 = 0%nat /\ count is_fetch es2 = 0%nat /\
    (if Js.truthy freshToken then
       let req2 := with_authorization req1 ("Bearer " +:+ default EmptyString freshToken) in
       let reply2 :=
         fetch E ((h ++ es1 ++ [EvFetch req1 (FetchResponse r1)]) ++ es2) req2 in
       authenticatedFetch E this url options h =
         (fetch_outcome reply2,
          es1 ++ [EvFetch req1 (FetchResponse r1)] ++ es2 ++ [EvFetch req2 reply2])
     else
       authenticatedFetch E this url options h =
         (Returned r1, es1 ++ [EvFetch req1 (FetchResponse r1)] ++ es2)) /\
    count is_fetch (snd (authenticatedFetch E this url options h))
      = (if Js.truthy freshToken then 2 else 1)%nat.
Proof.
  intros Hskip Hfirst H401.
  destruct (getAccessToken_returns this (scopesOf this options) h)
    as (token & es1 & Hg1 & Hf1 & _).
  pose proof (authenticatedFetch_auth E this url options h token es1 Hskip Hg1) as Heq.
  cbv zeta in Heq.
  set (reqA := firstRequest url options token) in *.
  destruct (fetch E (h ++ es1) reqA) as [|rA] eqn:HrA.
  { rewrite Heq in Hfirst. cbn [snd] in Hfirst.
    rewrite (first_fetch_app_nofetch _ _ Hf1) in Hfirst. discriminate. }
  assert (Hsame : req1 = reqA /\ r1 = rA).
  { destruct (status rA =? 401);
      [destruct (getAccessToken this (scopesOf this options)
                   (h ++ es1 ++ [EvFetch reqA (FetchResponse rA)])) as [[ft|e] es2];
       [destruct (Js.truthy ft)|]|];
      rewrite Heq in Hfirst; cbn [snd] in Hfirst;
      rewrite (first_fetch_app_nofetch _ _ Hf1) in Hfirst;
      cbn in Hfirst; split; congruence. }
  destruct Hsame as [-> ->].
  rewrite H401 in Heq. cbn [Z.eqb Pos.eqb] in Heq.
  destruct (getAccessToken_returns this (scopesOf this options)
              (h ++ es1 ++ [EvFetch reqA (FetchResponse rA)]))
    as (freshToken & es2 & Hg2 & Hf2 & _).
  rewrite Hg2 in Heq.
  exists token, es1, freshToken, es2.
  split; [exact Hg1|]. split; [reflexivity|]. split; [exact Hg2|].
  split; [exact Hf1|]. split; [exact Hf2|].
  rewrite Heq.
  destruct (Js.truthy freshToken); (split; [reflexivity|]); cbn [snd];
    rewrite !count_app, Hf1, Hf2; reflexivity.
Qed.

(** A stale token and a network that answers 401 to everything: the token
    is refreshed once, the request is sent twice, the second time with the
    fresh token, and the second 401 is what the caller gets. *)
Example stale_token_scenario :
  let E := constantEnv 401 in
  let this := setMsalInstance newClient (refreshingMsal (mkAccount "ada") "stale" "fresh") in
  let run := authenticatedFetch E this "/info" noOptions [] in
  fst run = Returned (mkResponse 401 None) /\
  count is_fetch (snd run) = 2%nat /\
  count is_silent (snd run) = 2%nat /\
  (headers <$> requests_of (snd run)) !! 1%nat
    = Some (<[ "Authorization" := "Bearer fresh" ]>
              (firstHeaders noOptions (Some "stale"))).
Proof. repeat split; reflexivity. Qed.

(** An expired token and a network that accepts the fresh one: the caller
    gets the 200 of the second request and never sees the 401. *)
Example expired_token_scenario :
  let E := expiringEnv "Bearer fresh" in
  let this := setMsalInstance newClient (refreshingMsal (mkAccount "ada") "stale" "fresh") in
  let run := authenticatedFetch E this "/info" noOptions [] in
  fst run = Returned (mkResponse 200 None) /\
  count is_fetch (snd run) = 2%nat.
Proof. split; reflexivity. Qed.

Lemma C2_single_retry_on_401_witness :
  let E := constantEnv 401 in
  let this := setMsalInstance newClient (refreshingMsal (mkAccount "ada") "stale" "fresh") in
  let req1 := firstRequest "/info" noOptions (Some "stale") in
  let r1 := mkResponse 401 None in
  default false (opt_skipAuth noOptions) = false /\
  first_fetch (snd (authenticatedFetch E this "/info" noOptions []))
    = Some (req1, FetchResponse r1) /\
  status r1 = 401 /\
  exists token es1 freshToken es2,
    getAccessToken this (scopesOf this noOptions) [] = (Returned token, es1) /\
    req1 = firstRequest "/info" noOptions token /\
    getAccessToken this (scopesOf this noOptions)
                   ([] ++ es1 ++ [EvFetch req1 (FetchResponse r1)])
      = (Returned freshToken, es2) /\
    count is_fetch es1 = 0%nat /\ count is_fetch es2 = 0%nat /\
    (if Js.truthy freshToken then
       let req2 := with_authorization req1 ("Bearer " +:+ default EmptyString freshToken) in
       let reply2 :=
         fetch E (([] ++ es1 ++ [EvFetch req1 (FetchResponse r1)]) ++ es2) req2 in
       authenticatedFetch E this "/info" noOptions [] =
         (fetch_outcome reply2,
          es1 ++ [EvFetch req1 (FetchResponse r1)] ++ es2 ++ [EvFetch req2 reply2])
     else
       authenticatedFetch E this "/info" noOptions [] =
         (Returned r1, es1 ++ [EvFetch req1 (FetchResponse r1)] ++ es2)) /\
    count is_fetch (snd (authenticatedFetch E this "/info" noOptions []))
      = (if Js.truthy freshToken then 2 else 1)%nat /\
    freshToken = Some "fresh" /\
    requests_of (snd (authenticatedFetch E this "/info" noOptions []))
      = [req1; with_authorization req1 "Bearer fresh"] /\
    headers req1 !! "Authorization" = Some "Bearer stale" /\
    headers (with_authorization req1 "Bearer fresh") !! "Authorization"
      = Some "Bearer fresh".
Proof.
  intros E this req1 r1.
  split; [reflexivity|]. split; [reflexivity|]. split; [reflexivity|].
  destruct (C2_single_retry_on_401 E this "/info" noOptions [] req1 r1
              eq_refl eq_refl eq_refl)
    as (token & es1 & freshToken & es2 & Hg1 & Hreq & Hg2 & Hf1 & Hf2 & Hrun & Hcount).
  exists token, es1, freshToken, es2.
  assert (Hes1 : es1 = [EvGetAllAccounts [mkAccount "ada"];
                        EvAcquireTokenSilent ["User.Read"] (mkAccount "ada")
                                             (TokenOk "stale")])
    by (vm_compute in Hg1; congruence).
  assert (Hfresh : freshToken = Some "fresh")
    by (rewrite Hes1 in Hg2; vm_compute in Hg2; congruence).
  assert (Hes2 : es2 = [EvGetAllAccounts [mkAccount "ada"];
                        EvAcquireTokenSilent ["User.Read"] (mkAccount "ada")
                                             (TokenOk "fresh")])
    by (rewrite Hes1 in Hg2; vm_compute in Hg2; congruence).
  split; [exact Hg1|]. split; [exact Hreq|]. split; [exact Hg2|].
  split; [exact Hf1|]. split; [exact Hf2|]. split; [exact Hrun|].
  split; [exact Hcount|]. split; [exact Hfresh|].
  split; [|split; reflexivity].
  rewrite Hfresh in Hrun. rewrite Hrun, Hes1, Hes2. reflexivity.
Defined.

(** With [skipAuth] true no token is asked for and one request is sent. *)
Lemma authenticatedFetch_skipAuth (E : Env) (this : AuthenticatedApiClient) (url : string)
    (options : AuthenticatedFetchOptions) (h : History) :
  default false (opt_skipAuth options) = true ->
  let req := firstRequest url options None in
  authenticatedFetch E this url options h
  = (fetch_outcome (fetch E h req), [EvFetch req (fetch E h req)]).
Proof.
  intros Hskip req. unfold authenticatedFetch. rewrite Hskip. cbn [negb].
  unfold mbind, Prog_bind, mret, Prog_ret, call_fetch. rewrite !app_nil_r.
  change (mkRequest url (opt_method options) (opt_body options)
            (prepareHeaders (opt_headers options)) (opt_signal options)) with req.
  destruct (fetch E h req) as [|r]; cbn [fetch_outcome app]; [reflexivity|].
  rewrite andb_false_r. reflexivity.
Qed.

Lemma requests_of_app (es1 es2 : list Event) :
  requests_of (es1 ++ es2) = requests_of es1 ++ requests_of es2.
Proof. unfold requests_of. apply List.flat_map_app. Qed.

Lemma requests_of_nofetch (es : list Event) :
  count is_fetch es = 0%nat -> requests_of es = [].
Proof.
  induction es as [|e es IH]; [reflexivity|].
  unfold count. destruct e; cbn; try exact IH. discriminate.
Qed.

(** Every request the function sends is the first request or the first
    request with a fresh [Authorization] header; there is at least one. *)
Lemma authenticatedFetch_requests (E : Env) (this : AuthenticatedApiClient) (url : string)
    (options : AuthenticatedFetchOptions) (h : History) :
  exists token,
    requests_of (snd (authenticatedFetch E this url options h)) <> [] /\
    forall req, In req (requests_of (snd (authenticatedFetch E this url options h))) ->
      req = firstRequest url options token \/
      exists v, req = with_authorization (firstRequest url options token) v.
Proof.
  destruct (default false (opt_skipAuth options)) eqn:Hskip.
  - exists None. rewrite (authenticatedFetch_skipAuth _ _ _ _ _ Hskip). cbn.
    split; [discriminate|]. intros req [<-|[]]. left. reflexivity.
  - destruct (getAccessToken_returns this (scopesOf this options) h)
      as (token & es1 & Hg1 & Hf1 & _).
    exists token.
    rewrite (authenticatedFetch_auth E this url options h token es1 Hskip Hg1).
    cbv zeta.
    set (req1 := firstRequest url options token).
    destruct (fetch E (h ++ es1) req1) as [|r1].
    { cbn [snd]. rewrite requests_of_app, (requests_of_nofetch _ Hf1). cbn.
      split; [discriminate|]. intros req [<-|[]]. left. reflexivity. }
    destruct (status r1 =? 401).
    2:{ cbn [snd]. rewrite requests_of_app, (requests_of_nofetch _ Hf1). cbn.
        split; [discriminate|]. intros req [<-|[]]. left. reflexivity. }
    destruct (getAccessToken_returns this (scopesOf this options)
                (h ++ es1 ++ [EvFetch req1 (FetchResponse r1)]))
      as (freshToken & es2 & Hg2 & Hf2 & _).
    rewrite Hg2.
    destruct (Js.truthy freshToken); cbn [snd];
      rewrite !requests_of_app, (requests_of_nofetch _ Hf1), (requests_of_nofetch _ Hf2);
      cbn; (split; [discriminate|]).
    + intros req [<-|[<-|[]]]; [left; reflexivity | right; eexists; reflexivity].
    + intros req [<-|[]]. left. reflexivity.
Qed.

(** The default [Content-Type] entry stays unless the caller's headers
    have one of their own. *)
Lemma prepareHeaders_content_type (hs : option (gmap string string)) :
  default ∅ hs !! "Content-Type" = None ->
  prepareHeaders hs !! "Content-Type" = Some "application/json".
Proof.
  intros Hno. unfold prepareHeaders.
  rewrite lookup_union_r by exact Hno. apply lookup_singleton_eq.
Qed.

Lemma firstHeaders_content_type (options : AuthenticatedFetchOptions) (token : option string) :
  firstHeaders options token !! "Content-Type"
  = prepareHeaders (opt_headers options) !! "Content-Type".
Proof.
  unfold firstHeaders. destruct (Js.truthy token); [|reflexivity].
  apply lookup_insert_ne. discriminate.
Qed.

(** The JSON wrappers send the encoding of a truthy body, and nothing for
    a falsy one. *)
Lemma post_put_body (E : Env) (this : AuthenticatedApiClient) (url : string)
    (data : JsValue) (options : option AuthenticatedFetchOptions) (h : History) :
  forall req,
    In req (requests_of (snd (post E this url data options h))) \/
    In req (requests_of (snd (put E this url data options h))) ->
    body req = if truthy_value data then Some (BodyText (JSON_stringify E data)) else None.
Proof.
  intros req [Hin|Hin]; unfold post, put in Hin;
    match type of Hin with
    | In _ (requests_of (snd (authenticatedFetch _ _ _ ?o _))) =>
        destruct (authenticatedFetch_requests E this url o h) as (token & _ & Hall)
    end;
    destruct (Hall req Hin) as [->|(v & ->)]; reflexivity.
Qed.

End ApiClientFacts.

(** ** The session operations of [AuthProvider] *)

Module AuthContextFacts.
Import Browser AuthContextTs TraceSpec.
Local Open Scope list_scope.

(** [acquireTokenSilently] always returns. It makes at most one silent
    request and escalates to one popup request exactly when the silent one
    failed with the interaction-required class. Any other silent failure
    sets the error and yields [null], and so does a failed popup. *)
Lemma acquireTokenSilently_returns (s : AuthState) (scopes : list string) (h : History) :
  exists token es,
    acquireTokenSilently s scopes h = (Returned token, es) /\
    count is_fetch es = 0%nat /\
    (count is_silent es <= 1)%nat /\
    (count is_popup es <= 1)%nat /\
    (count is_popup es = 1%nat <->
       silent_failure es = Some InteractionRequiredAuthError) /\
    (forall m, silent_failure es = Some (OtherAuthError m) ->
       token = None /\
       error_after (error s) es = Some "Failed to acquire token silently") /\
    (popup_failed es = true ->
       token = None /\ error_after (error s) es = Some "Failed to acquire token") /\
    (instance s = None -> token = None /\ es = []).
Proof.
  unfold acquireTokenSilently.
  destruct (instance s) as [msal|];
    [destruct (isAuthenticated s); [destruct (accounts s) as [|account rest]|]|];
    try solve [exists None, []; cbn; repeat split;
               first [lia | discriminate | intros; discriminate | eauto]].
  unfold try_catch, mbind, Prog_bind, emit, call_acquireTokenSilent,
    call_acquireTokenPopup, mret, Prog_ret.
  cbn [app].
  destruct (acquireTokenSilent msal (h ++ [EvSetError None]) scopes account)
    as [t|[|m]] eqn:Hsil; cbn [token_outcome].
  - eexists _, _. split; [reflexivity|]. cbn.
    repeat split; first [lia | discriminate | intros; discriminate | eauto].
  - match goal with |- context [acquireTokenPopup msal ?h' scopes account] =>
      destruct (acquireTokenPopup msal h' scopes account) as [t'|err'] eqn:Hpop end;
      cbn [token_outcome].
    + eexists _, _. split; [reflexivity|]. cbn.
      repeat split; first [lia | discriminate | intros; discriminate | eauto].
    + eexists _, _. split; [reflexivity|]. cbn.
      repeat split; first [lia | discriminate | intros; discriminate | eauto].
  - eexists _, _. split; [reflexivity|]. cbn.
    repeat split; first [lia | discriminate | intros; discriminate | eauto].
Qed.

(** Without a client handle [login] and [logout] throw at once: nothing
    is set and nothing is asked of the outside. *)
Lemma login_not_initialized (s : AuthState) (h : History) :
  instance s = None ->
  login s h = (Thrown (ErrorExn "MSAL instance not initialized"), []).
Proof. intros Hi. unfold login. rewrite Hi. reflexivity. Qed.

Lemma logout_not_initialized (s : AuthState) (h : History) :
  instance s = None ->
  logout s h = (Thrown (ErrorExn "MSAL instance not initialized"), []).
Proof. intros Hi. unfold logout. rewrite Hi. reflexivity. Qed.

End AuthContextFacts.

(** ** Token acquisition and missing client handle, across both modules *)

Module SessionFacts.
Import Browser TraceSpec ApiClientSpec.
Local Open Scope list_scope.

(** C3, as stated, fails for the client of [apiClient.ts]: a silent request
    that fails with a class other than interaction-required is followed by
    a popup request all the same. *)
Lemma C3_counterexample_dispatcher_escalates :
  let msal := constantMsal [mkAccount "ada"]
                (TokenRejected (OtherAuthError "network down"))
                (TokenOk "popup-token") in
  let run := ApiClientTs.getAccessToken
               (ApiClientTs.setMsalInstance ApiClientTs.newClient msal) ["User.Read"] [] in
  silent_failure (snd run) = Some (OtherAuthError "network down") /\
  count is_popup (snd run) = 1%nat /\
  fst run = Returned (Some "popup-token").
Proof. repeat split; reflexivity. Qed.

(** C3, amended. [AuthContext.acquireTokenSilently] never throws; it makes
    one popup request exactly when its silent request failed with the
    interaction-required class; any other silent failure sets the error to
    "Failed to acquire token silently" and yields [null]; a failed popup
    sets "Failed to acquire token" and yields [null]. The client's
    [getAccessToken] never throws either and yields [null] when its popup
    fails, but it makes the popup request exactly when its silent request
    failed, whatever the class, and the account list read again is not
    empty; it has no error state to set. *)
Theorem C3_silent_then_interactive (s : AuthContextTs.AuthState)
    (this : ApiClientTs.AuthenticatedApiClient) (scopes : list string) (h : History) :
  (exists token es,
     AuthContextTs.acquireTokenSilently s scopes h = (Returned token, es) /\
     (count is_silent es <= 1)%nat /\ (count is_popup es <= 1)%nat /\
     (count is_popup es = 1%nat <->
        silent_failure es = Some InteractionRequiredAuthError) /\
     (forall m, silent_failure es = Some (OtherAuthError m) ->
        token = None /\
        error_after (AuthContextTs.error s) es = Some "Failed to acquire token silently") /\
     (popup_failed es = true ->
        token = None /\
        error_after (AuthContextTs.error s) es = Some "Failed to acquire token")) /\
  (exists token es,
     ApiClientTs.getAccessToken this scopes h = (Returned token, es) /\
     (count is_silent es <= 1)%nat /\ (count is_popup es <= 1)%nat /\
     (count is_popup es = 1%nat <->
        silent_failure es <> None /\ exists a l, last_accounts es = Some (a :: l)) /\
     (popup_failed es = true -> token = None) /\
     count is_setError es = 0%nat).
Proof.
  split.
  - destruct (AuthContextFacts.acquireTokenSilently_returns s scopes h)
      as (token & es & Hrun & _ & Hs & Hp & Hiff & Hother & Hpop & _).
    exists token, es. auto 10.
  - destruct (ApiClientFacts.getAccessToken_returns this scopes h)
      as (token & es & Hrun & _ & Hse & Hs & Hp & Hiff & Hpop & _).
    exists token, es. auto 10.
Qed.

(** C8, as stated, fails for dispatched requests: a client without a handle
    sends the request, without an [Authorization] header, and returns the
    response; no failure is reported. *)
Lemma C8_counterexample_dispatch_without_handle :
  let run := ApiClientTs.authenticatedFetch (constantEnv 200) ApiClientTs.newClient
               "/info" ApiClientTs.noOptions [] in
  ApiClientTs.msalInstance ApiClientTs.newClient = None /\
  fst run = Returned (mkResponse 200 None) /\
  (fun req => headers req !! "Authorization") <$> requests_of (snd run) = [None].
Proof. repeat split; reflexivity. Qed.

(** C8, amended. Without a client handle [login] and [logout] throw
    "MSAL instance not initialized" before doing anything. Token acquisition
    does not fail: [acquireTokenSilently] and the client's [getAccessToken]
    yield [null] without asking anything of the outside, and
    [authenticatedFetch] sends the request once, with the prepared headers
    and no bearer token added, and hands the outcome of that request to the
    caller. *)
Theorem C8_without_client_handle (E : Env) (s : AuthContextTs.AuthState)
    (this : ApiClientTs.AuthenticatedApiClient) (url : string)
    (options : ApiClientTs.AuthenticatedFetchOptions) (scopes : list string) (h : History) :
  AuthContextTs.instance s = None ->
  ApiClientTs.msalInstance this = None ->
  AuthContextTs.login s h = (Thrown (ErrorExn "MSAL instance not initialized"), []) /\
  AuthContextTs.logout s h = (Thrown (ErrorExn "MSAL instance not initialized"), []) /\
  AuthContextTs.acquireTokenSilently s scopes h = (Returned None, []) /\
  ApiClientTs.getAccessToken this scopes h = (Returned None, []) /\
  let req := mkRequest url (ApiClientTs.opt_method options) (ApiClientTs.opt_body options)
               (ApiClientTs.prepareHeaders (ApiClientTs.opt_headers options))
               (ApiClientTs.opt_signal options) in
  ApiClientTs.authenticatedFetch E this url options h
  = (fetch_outcome (fetch E h req), [EvFetch req (fetch E h req)]).
Proof.
  intros Hi Hm.
  split; [apply AuthContextFacts.login_not_initialized; exact Hi|].
  split; [apply AuthContextFacts.logout_not_initialized; exact Hi|].
  split; [unfold AuthContextTs.acquireTokenSilently; rewrite Hi; reflexivity|].
  assert (Hg : forall sc h', ApiClientTs.getAccessToken this sc h' = (Returned None, [])).
  { intros sc h'. unfold ApiClientTs.getAccessToken. rewrite Hm. reflexivity. }
  split; [apply Hg|].
  intros req.
  destruct (default false (ApiClientTs.opt_skipAuth options)) eqn:Hskip.
  - apply (ApiClientFacts.authenticatedFetch_skipAuth E this url options h Hskip).
  - rewrite (ApiClientFacts.authenticatedFetch_auth E this url options h None []
               Hskip (Hg _ _)).
    cbv zeta. rewrite !app_nil_r.
    change (firstRequest url options None) with req.
    destruct (fetch E h req) as [|r]; [reflexivity|].
    rewrite Hg. cbn [Js.truthy]. rewrite app_nil_r.
    destruct (status r =? 401); reflexivity.
Qed.

Lemma C8_without_client_handle_witness :
  let E := constantEnv 401 in
  let req := mkRequest "/info" None None
               (ApiClientTs.prepareHeaders None) None in
  AuthContextTs.instance AuthContextTs.initialState = None /\
  ApiClientTs.msalInstance ApiClientTs.newClient = None /\
  AuthContextTs.login AuthContextTs.initialState []
    = (Thrown (ErrorExn "MSAL instance not initialized"), []) /\
  AuthContextTs.logout AuthContextTs.initialState []
    = (Thrown (ErrorExn "MSAL instance not initialized"), []) /\
  AuthContextTs.acquireTokenSilently AuthContextTs.initialState ["User.Read"] []
    = (Returned None, []) /\
  ApiClientTs.getAccessToken ApiClientTs.newClient ["User.Read"] [] = (Returned None, []) /\
  ApiClientTs.authenticatedFetch E ApiClientTs.newClient "/info" ApiClientTs.noOptions []
  = (fetch_outcome (fetch E [] req), [EvFetch req (fetch E [] req)]).
Proof.
  intros E req.
  split; [reflexivity|]. split; [reflexivity|].
  apply (C8_without_client_handle E AuthContextTs.initialState ApiClientTs.newClient
           "/info" ApiClientTs.noOptions ["User.Read"] []); reflexivity.
Defined.

End SessionFacts.

(** ** The authenticated API functions *)

Module AuthenticatedApiFacts.
Import Browser ApiClientTs AuthenticatedApiTs TraceSpec ApiClientSpec.
Local Open Scope list_scope.

(** C7, on the code. Every request [uploadFileAuthenticated] sends carries
    the [FormData] as its body, with the file as first entry, and an explicit
    [Content-Type: application/json] header: the default entry put in by
    [authenticatedFetch] is not removed by the empty headers object the
    upload passes. At least one request is sent. *)
Theorem C7_upload_content_type (E : Env) (apiClient : AuthenticatedApiClient)
    (file : File) (tags : list string) (folder : string) (h : History) :
  let sent := requests_of (snd (uploadFileAuthenticated E apiClient file tags folder h)) in
  sent <> [] /\
  forall req, In req sent ->
    headers req !! "Content-Type" = Some "application/json" /\
    exists entries,
      body req = Some (BodyFormData (("file", EntryFile file) :: entries)).
Proof.
  intros sent. subst sent. unfold uploadFileAuthenticated.
  match goal with |- context [authenticatedFetch E apiClient "/upload" ?o h] =>
    set (options := o);
    destruct (ApiClientFacts.authenticatedFetch_requests E apiClient "/upload" options h)
      as (token & Hne & Hall)
  end.
  split; [exact Hne|]. intros req Hin.
  assert (Hct : firstHeaders options token !! "Content-Type" = Some "application/json").
  { rewrite ApiClientFacts.firstHeaders_content_type.
    apply ApiClientFacts.prepareHeaders_content_type. reflexivity. }
  assert (Hbody : exists entries,
             opt_body options = Some (BodyFormData (("file", EntryFile file) :: entries))).
  { subst options. cbn [opt_body].
    destruct (0 <? length tags)%nat; destruct (negb (String.eqb folder EmptyString));
      eexists; reflexivity. }
  destruct (Hall req Hin) as [->|(v & ->)]; cbn [headers body firstRequest with_authorization].
  - split; [exact Hct | exact Hbody].
  - split; [|exact Hbody]. rewrite lookup_insert_ne by discriminate. exact Hct.
Qed.

(** An upload by a signed-out page against a network that accepts it. *)
Example upload_scenario :
  let run := uploadFileAuthenticated (constantEnv 200) newClient (mkFile "a.pdf") [] EmptyString [] in
  (fun req => (body req, map_to_list (headers req))) <$> requests_of (snd run)
  = [ (Some (BodyFormData [("file", EntryFile (mkFile "a.pdf"))]),
       [("Content-Type", "application/json")]) ].
Proof. reflexivity. Qed.

(** C9. Whatever the flag, every member of the proxy is the authenticated
    variant of the function it is named after; the proxies made with [true]
    and with [false] are equal. *)
Theorem C9_proxy_ignores_flag (useAuthenticated : bool) :
  (forall n : ApiName, member (createApiProxy useAuthenticated) n = Authenticated n) /\
  createApiProxy useAuthenticated =
    mkApiProxy (Authenticated chatApi_) (Authenticated getAllUploadStatus_)
      (Authenticated deleteItem_) (Authenticated resubmitItem_) (Authenticated getInfo_)
      (Authenticated getWarningBanner_) (Authenticated getApplicationTitle_)
      (Authenticated getStatusLog_) (Authenticated getTags_)
      (Authenticated getFeatureFlags_) (Authenticated getMaxCSVFileSize_)
      (Authenticated fetchCitationFile_) (Authenticated uploadFile_) /\
  createApiProxy true = createApiProxy false /\
  length allNames = 13%nat.
Proof.
  split; [|split; [|split]].
  - intros n. destruct useAuthenticated, n; reflexivity.
  - destruct useAuthenticated; reflexivity.
  - reflexivity.
  - reflexivity.
Qed.

End AuthenticatedApiFacts.

(** ** More on the configuration loader *)

Module PatternFacts.
Import RuntimeConfigTs PatternSpec.

Lemma append_cons (c : ascii) (m rest : string) :
  String c m +:+ rest = String c (m +:+ rest).
Proof. reflexivity. Qed.

Lemma append_nil (rest : string) : EmptyString +:+ rest = rest.
Proof. reflexivity. Qed.

Lemma class_times_spec (n : nat) (s m rest : string) :
  class_times n s = Some (m, rest) ->
  s = m +:+ rest /\ String.length m = n /\ allInClass m = true.
Proof.
  revert s m rest. induction n as [|n IH]; intros s m rest H; cbn -[in_class lower] in H.
  - injection H as <- <-. auto.
  - destruct s as [|c s]; [discriminate|].
    destruct (in_class c) eqn:Hc; [|discriminate].
    destruct (class_times n s) as [[m' rest']|] eqn:Hn; [|discriminate].
    injection H as <- <-. destruct (IH _ _ _ Hn) as (-> & <- & Hall).
    cbn -[in_class]. rewrite Hc, Hall. auto.
Qed.

Lemma class_times_complete (m rest : string) :
  allInClass m = true -> class_times (String.length m) (m +:+ rest) = Some (m, rest).
Proof.
  induction m as [|c m IH]; [reflexivity|].
  rewrite append_cons. cbn -[in_class].
  intros H. apply andb_true_iff in H as [Hc Hm]. rewrite Hc, (IH Hm). reflexivity.
Qed.

Lemma literal_ci_spec (word s m rest : string) :
  literal_ci word s = Some (m, rest) -> s = m +:+ rest /\ sameLetters m word = true.
Proof.
  revert s m rest. induction word as [|w word IH]; intros s m rest H; cbn -[in_class lower] in H.
  - injection H as <- <-. auto.
  - destruct s as [|c s]; [discriminate|].
    destruct (Ascii.eqb (lower c) (lower w)) eqn:Hc; [|discriminate].
    destruct (literal_ci word s) as [[m' rest']|] eqn:Hn; [|discriminate].
    injection H as <- <-. destruct (IH _ _ _ Hn) as (-> & Hsame).
    cbn -[lower]. rewrite Hc, Hsame. auto.
Qed.

Lemma literal_ci_complete (word m rest : string) :
  sameLetters m word = true -> literal_ci word (m +:+ rest) = Some (m, rest).
Proof.
  revert m. induction word as [|w word IH]; intros [|c m] H; cbn -[lower] in H;
    try discriminate; [reflexivity|].
  rewrite append_cons. cbn -[lower].
  apply andb_true_iff in H as [Hc Hm]. rewrite Hc, (IH _ Hm). reflexivity.
Qed.

Lemma at_end_spec (rest : string) :
  at_end rest = true <-> rest = EmptyString \/ rest = "/".
Proof.
  unfold at_end. rewrite orb_true_iff, !String.eqb_eq. reflexivity.
Qed.

Lemma in_class_not_slash (c : ascii) : in_class c = true -> Ascii.eqb c "/" = false.
Proof.
  destruct (Ascii.eqb_spec c "/") as [->|]; [|reflexivity]. discriminate.
Qed.

Lemma allInClass_slashFree (m : string) : allInClass m = true -> slashFree m = true.
Proof.
  induction m as [|c m IH]; cbn -[in_class]; [reflexivity|].
  intros H. apply andb_true_iff in H as [Hc Hm].
  rewrite (in_class_not_slash _ Hc), (IH Hm). reflexivity.
Qed.

Lemma sameLetters_slashFree (m word : string) :
  slashFree word = true -> sameLetters m word = true -> slashFree m = true.
Proof.
  revert m. induction word as [|w word IH]; intros [|c m] Hw H; cbn -[lower] in *;
    try discriminate; [reflexivity|].
  apply andb_true_iff in Hw as [Hw Hword]. apply andb_true_iff in H as [Hc Hm].
  rewrite (IH _ Hword Hm), andb_true_r.
  destruct (Ascii.eqb_spec c "/") as [->|]; [|reflexivity].
  destruct (Ascii.eqb_spec w "/") as [->|Hne]; [discriminate|].
  exfalso. apply Ascii.eqb_eq in Hc. cbn in Hc.
  destruct w as [[] [] [] [] [] [] [] []]; cbn in Hc; try discriminate; congruence.
Qed.

Lemma tenantShaped_slashFree (g : string) : tenantShaped g = true -> slashFree g = true.
Proof.
  unfold tenantShaped. rewrite !orb_true_iff, andb_true_iff.
  intros [[[[_ H]|H]|H]|H].
  - apply allInClass_slashFree. exact H.
  - eapply sameLetters_slashFree; [|exact H]. reflexivity.
  - eapply sameLetters_slashFree; [|exact H]. reflexivity.
  - eapply sameLetters_slashFree; [|exact H]. reflexivity.
Qed.

Lemma tenantShaped_nonempty (g : string) : tenantShaped g = true -> g <> EmptyString.
Proof. intros H ->. discriminate. Qed.

Lemma tenantMatch_unfold (s : string) :
  tenantMatch s =
    match match_here s with
    | Some g => Some g
    | None => match s with
              | String _ s' => tenantMatch s'
              | EmptyString => None
              end
    end.
Proof. destruct s; reflexivity. Qed.

Lemma match_here_not_slash (c : ascii) (s : string) :
  c <> "/"%char -> match_here (String c s) = None.
Proof.
  intros Hne. unfold match_here.
  destruct c as [[] [] [] [] [] [] [] []]; try reflexivity. congruence.
Qed.

Lemma alternative_spec (m : option (string * string)) (g : string) :
  alternative m = Some g <-> exists rest, m = Some (g, rest) /\ at_end rest = true.
Proof.
  unfold alternative. destruct m as [[g' rest]|].
  - destruct (at_end rest) eqn:He; split.
    + intros [= <-]. eauto.
    + intros (r & [= <- <-] & _). reflexivity.
    + discriminate.
    + intros (r & [= <- <-] & Hr). congruence.
  - split; [discriminate|]. intros (r & [=] & _).
Qed.

(** What the pattern matches at a given position. *)
Lemma match_here_sound (s g : string) :
  match_here s = Some g ->
  tenantShaped g = true /\ exists rest, s = "/" +:+ g +:+ rest /\ at_end rest = true.
Proof.
  destruct s as [|c s]; [discriminate|].
  destruct (ascii_dec c "/") as [->|Hne]; [|rewrite match_here_not_slash by exact Hne; discriminate].
  unfold match_here, first_of, fold_right, tenantShaped.
  destruct (alternative (class_times 36 s)) as [g1|] eqn:H1.
  { intros [= <-]. apply alternative_spec in H1 as (rest & Hm & He).
    apply class_times_spec in Hm as (-> & Hlen & Hall).
    rewrite Hlen, Hall. split; [reflexivity|]. exists rest. auto. }
  destruct (alternative (literal_ci "common" s)) as [g2|] eqn:H2.
  { intros [= <-]. apply alternative_spec in H2 as (rest & Hm & He).
    apply literal_ci_spec in Hm as (-> & Hsame).
    rewrite Hsame, !orb_true_r. split; [reflexivity|]. exists rest. auto. }
  destruct (alternative (literal_ci "organizations" s)) as [g3|] eqn:H3.
  { intros [= <-]. apply alternative_spec in H3 as (rest & Hm & He).
    apply literal_ci_spec in Hm as (-> & Hsame).
    rewrite Hsame, !orb_true_r. split; [reflexivity|]. exists rest. auto. }
  destruct (alternative (literal_ci "consumers" s)) as [g4|] eqn:H4; [|discriminate].
  intros [= <-]. apply alternative_spec in H4 as (rest & Hm & He).
  apply literal_ci_spec in Hm as (-> & Hsame).
  rewrite Hsame, !orb_true_r. split; [reflexivity|]. exists rest. auto.
Qed.

Lemma append_assoc (a b c : string) : (a +:+ b) +:+ c = a +:+ (b +:+ c).
Proof. induction a as [|x a IH]; [reflexivity|]. rewrite !append_cons, IH. reflexivity. Qed.

Lemma append_empty_r (a : string) : a +:+ EmptyString = a.
Proof. induction a as [|x a IH]; [reflexivity|]. rewrite append_cons, IH. reflexivity. Qed.

(** X1. A match of the tenant pattern is the last path segment of the
    authority, a trailing slash apart, and has the shape of a tenant: 36
    characters of the class or one of the three words. *)
Theorem tenantMatch_sound (s g : string) :
  tenantMatch s = Some g ->
  tenantShaped g = true /\
  exists prefix rest,
    s = prefix +:+ "/" +:+ g +:+ rest /\ (rest = EmptyString \/ rest = "/").
Proof.
  induction s as [|c s IH]; rewrite tenantMatch_unfold.
  - cbn. discriminate.
  - destruct (match_here (String c s)) as [g'|] eqn:Hh.
    + intros [= <-]. apply match_here_sound in Hh as (Hshape & rest & Hs & He).
      split; [exact Hshape|]. exists EmptyString, rest.
      split; [exact Hs | apply at_end_spec; exact He].
    + intros Ht. destruct (IH Ht) as (Hshape & prefix & rest & -> & Hrest).
      split; [exact Hshape|]. exists (String c prefix), rest. split; [reflexivity | exact Hrest].
Qed.

Lemma length_append (a b : string) :
  String.length (a +:+ b) = (String.length a + String.length b)%nat.
Proof. induction a as [|x a IH]; [reflexivity|]. rewrite append_cons. cbn. rewrite IH. reflexivity. Qed.

(** Spells a string known to be a given word up to case, letter by
    letter. *)
Ltac spell H :=
  repeat match type of H with
         | sameLetters ?g (String ?w _) = true =>
             destruct g as [|? g]; cbn -[lower] in H; [discriminate|];
             let Hc := fresh "Hc" in
             apply andb_true_iff in H as [Hc H];
             apply Ascii.eqb_eq in Hc;
             let v := eval vm_compute in (lower w) in
             change (lower w) with v in Hc
         end;
  match type of H with
  | sameLetters ?g EmptyString = true => destruct g; [clear H | discriminate H]
  end.

Ltac run_pattern :=
  cbv [String.append];
  repeat (progress (cbn -[lower]; unfold in_class;
                    repeat match goal with
                           | Hc : lower _ = _ |- _ => rewrite Hc
                           end)).

Lemma match_here_complete (g rest : string) :
  tenantShaped g = true -> rest = EmptyString \/ rest = "/" ->
  match_here ("/" +:+ g +:+ rest) = Some g.
Proof.
  intros Hshape Hrest. rewrite append_cons, append_nil.
  unfold tenantShaped in Hshape. rewrite !orb_true_iff, andb_true_iff in Hshape.
  destruct Hshape as [[[[Hlen Hall]|H]|H]|H].
  - apply Nat.eqb_eq in Hlen.
    pose proof (class_times_complete g rest Hall) as Hc. rewrite Hlen in Hc.
    unfold match_here, first_of, fold_right. rewrite Hc. unfold alternative.
    replace (at_end rest) with true by (symmetry; apply at_end_spec; exact Hrest).
    reflexivity.
  - spell H. destruct Hrest as [-> | ->]; unfold match_here; run_pattern; reflexivity.
  - spell H. destruct Hrest as [-> | ->]; unfold match_here; run_pattern; reflexivity.
  - spell H. destruct Hrest as [-> | ->]; unfold match_here; run_pattern; reflexivity.
Qed.

Lemma no_inner_slash (g' rest' prefix tail : string) :
  slashFree g' = true -> rest' = EmptyString \/ rest' = "/" -> tail <> EmptyString ->
  g' +:+ rest' = prefix +:+ "/" +:+ tail -> False.
Proof.
  revert prefix. induction g' as [|a g' IH]; intros prefix Hfree Hrest Htail Heq.
  - rewrite append_nil in Heq. destruct Hrest as [-> | ->].
    + destruct prefix; discriminate.
    + destruct prefix as [|b prefix].
      * rewrite append_nil, append_cons, append_nil in Heq.
        injection Heq as Heq. congruence.
      * rewrite append_cons in Heq. injection Heq as _ Heq.
        destruct prefix; discriminate.
  - cbn in Hfree. apply andb_true_iff in Hfree as [Ha Hfree].
    rewrite append_cons in Heq. destruct prefix as [|b prefix].
    + rewrite append_nil, append_cons in Heq. injection Heq as -> _. discriminate.
    + rewrite append_cons in Heq. injection Heq as _ Heq.
      exact (IH prefix Hfree Hrest Htail Heq).
Qed.

(** X2. An authority whose last path segment, a trailing slash apart, has
    the shape of a tenant matches the tenant pattern, and the group is that
    segment, whatever comes before it. *)
Theorem tenantMatch_complete (prefix g rest : string) :
  tenantShaped g = true -> rest = EmptyString \/ rest = "/" ->
  tenantMatch (prefix +:+ "/" +:+ g +:+ rest) = Some g.
Proof.
  intros Hshape Hrest.
  induction prefix as [|c prefix IH]; rewrite tenantMatch_unfold.
  - rewrite append_nil, (match_here_complete g rest Hshape Hrest). reflexivity.
  - rewrite append_cons.
    destruct (match_here (String c (prefix +:+ "/" +:+ g +:+ rest))) as [g'|] eqn:Hh;
      [|exact IH].
    exfalso. apply match_here_sound in Hh as (Hshape' & rest' & Hs & He).
    rewrite append_cons, append_nil in Hs. injection Hs as _ Hs.
    apply (no_inner_slash g' rest' prefix (g +:+ rest)).
    + apply tenantShaped_slashFree. exact Hshape'.
    + apply at_end_spec. exact He.
    + intros Hempty. apply (tenantShaped_nonempty g Hshape).
      destruct g; [reflexivity | discriminate].
    + symmetry. exact Hs.
Qed.

Lemma tenantMatch_complete_witness :
  tenantMatch ("https://sts.windows.net" +:+ "/" +:+ "Organizations" +:+ "/")
  = Some "Organizations".
Proof.
  apply (tenantMatch_complete "https://sts.windows.net" "Organizations" "/");
    [reflexivity | right; reflexivity].
Defined.

Lemma tenantMatch_sound_witness :
  tenantShaped "72f988bf-86f1-41af-91ab-2d7cd011db47" = true /\
  exists prefix rest,
    "https://login.microsoftonline.com/72f988bf-86f1-41af-91ab-2d7cd011db47/"
    = prefix +:+ "/" +:+ "72f988bf-86f1-41af-91ab-2d7cd011db47" +:+ rest /\
    (rest = EmptyString \/ rest = "/").
Proof.
  apply (tenantMatch_sound
           "https://login.microsoftonline.com/72f988bf-86f1-41af-91ab-2d7cd011db47/"
           "72f988bf-86f1-41af-91ab-2d7cd011db47").
  reflexivity.
Defined.

End PatternFacts.

Module RuntimeConfigMore.
Import RuntimeConfigTs RuntimeConfigSpec PatternSpec AuthConfigTs AuthConfigSpec.
Local Open Scope list_scope.

Lemma tenantMatch_nonempty (s g : string) : tenantMatch s = Some g -> g <> EmptyString.
Proof.
  induction s as [|c s IH]; rewrite PatternFacts.tenantMatch_unfold.
  - cbn. discriminate.
  - destruct (match_here (String c s)) as [g'|] eqn:Hh.
    + intros [= <-]. apply PatternFacts.match_here_sound in Hh as [Hshape _].
      apply PatternFacts.tenantShaped_nonempty. exact Hshape.
    + exact IH.
Qed.

Lemma truthy_Some_nonempty (a : string) : a <> EmptyString -> Js.truthy (Some a) = true.
Proof. intros Hne. apply JsFacts.truthy_Some_iff. eauto. Qed.

(** The second [try] block in terms of what [/.auth/me] supplies. *)
Lemma fromAppService_offer (src : Sources) (config : RuntimeConfig) :
  fromAppService (authMe src) config =
    match appServiceOffer src with
    | None => config
    | Some authInfo =>
        let clientId := Js.or (AZURE_CLIENT_ID config) (AppService.client_id authInfo) in
        if Js.truthy (AppService.authority authInfo) then
          mkRuntimeConfig clientId
            (match tenantMatch (default EmptyString (AppService.authority authInfo)) with
             | Some g => Some g
             | None => AZURE_TENANT_ID config
             end)
            (AppService.authority authInfo) (API_SCOPES config)
        else mkRuntimeConfig clientId (AZURE_TENANT_ID config) (AZURE_AUTHORITY config)
                             (API_SCOPES config)
    end.
Proof.
  unfold fromAppService, appServiceOffer.
  destruct (authMe src) as [|ra]; [reflexivity|].
  destruct (ok ra); [|reflexivity].
  destruct (json ra) as [[|ai ?]|]; [reflexivity| |reflexivity].
  destruct (Js.truthy (AppService.authority ai)); [|reflexivity].
  destruct (tenantMatch (default EmptyString (AppService.authority ai))); reflexivity.
Qed.

(** The tenant id and the authority after the injected global and the
    build-time values, from what they were after [/.auth/me]. *)
Lemma merged_after_appService (src : Sources) :
  AZURE_TENANT_ID (merged src)
  = fold_left Js.or (offer (RUNTIME_CONFIG src) AZURE_TENANT_ID ++ [VITE_AZURE_TENANT_ID src])
      (AZURE_TENANT_ID (fromAppService (authMe src)
                          (fromBackend (getMsalConfig src) emptyConfig))) /\
  AZURE_AUTHORITY (merged src)
  = fold_left Js.or (offer (RUNTIME_CONFIG src) AZURE_AUTHORITY ++ [VITE_AZURE_AUTHORITY src])
      (AZURE_AUTHORITY (fromAppService (authMe src)
                          (fromBackend (getMsalConfig src) emptyConfig))).
Proof.
  unfold merged, fromBuildEnv, fromRuntimeGlobal. rewrite !fold_left_app.
  destruct (RUNTIME_CONFIG src); split; reflexivity.
Qed.

Lemma fromBackend_tenantId (src : Sources) :
  AZURE_TENANT_ID (fromBackend (getMsalConfig src) emptyConfig)
  = fold_left Js.or (offer (backendOffer src) Backend.tenantId) None.
Proof.
  unfold fromBackend, backendOffer.
  destruct (getMsalConfig src) as [|rb]; [reflexivity|].
  destruct (ok rb); [|reflexivity]. destruct (json rb); reflexivity.
Qed.

(** X3. When [/.auth/me] lists an identity with a non-empty authority, that
    authority is the resolved one, whatever the backend, the injected global
    and the build-time values supply; the resolved tenant id is the tenant
    this authority matches and, when it matches none, the first non-empty
    tenant id of backend, injected global and build-time value. *)
Theorem appService_authority_wins (src : Sources) (st : Store)
    (authInfo : AppService.AuthInfo) (a : string) :
  cachedConfig st = None ->
  appServiceOffer src = Some authInfo ->
  AppService.authority authInfo = Some a -> a <> EmptyString ->
  exists cfg,
    loads src st cfg /\
    AZURE_AUTHORITY cfg = Some a /\
    match tenantMatch a with
    | Some g => AZURE_TENANT_ID cfg = Some g
    | None => firstSet (tenantIdOffers src) (AZURE_TENANT_ID cfg)
    end.
Proof.
  intros Hc Hoffer Ha Hne. exists (resolve src).
  split; [apply RuntimeConfigFacts.loads_miss; exact Hc|].
  pose proof (truthy_Some_nonempty a Hne) as Hta.
  destruct (merged_after_appService src) as [Hten Hau].
  rewrite fromAppService_offer, Hoffer in Hten, Hau. cbv zeta in Hten, Hau.
  rewrite Ha, Hta in Hten, Hau.
  change (default EmptyString (Some a)) with a in Hten, Hau.
  cbn [AZURE_TENANT_ID AZURE_AUTHORITY] in Hten, Hau.
  rewrite (RuntimeConfigFacts.fill_truthy _ _ Hta) in Hau.
  split.
  - rewrite RuntimeConfigFacts.resolve_merged, RuntimeConfigFacts.withDefaults_authority.
    rewrite Hau, Hta. reflexivity.
  - rewrite RuntimeConfigFacts.resolve_merged, RuntimeConfigFacts.withDefaults_tenantId.
    destruct (tenantMatch a) as [g|] eqn:Hm.
    + rewrite Hten. apply RuntimeConfigFacts.fill_truthy.
      apply truthy_Some_nonempty. exact (tenantMatch_nonempty a g Hm).
    + rewrite Hten, fromBackend_tenantId, <- fold_left_app.
      apply RuntimeConfigFacts.fill_firstSet; [reflexivity|].
      unfold tenantIdOffers. rewrite !app_assoc. apply RuntimeConfigFacts.offers_nonempty.
Qed.

Lemma appService_authority_wins_witness :
  let authInfo := AppService.mkAuthInfo None
                    (Some "https://login.microsoftonline.com/organizations/") in
  let src := mkSources
               (FetchResponse
                  (mkResponse 200
                     (Some (Backend.mkConfig (Some "c1") (Some "t1")
                              (Some "https://login.microsoftonline.com/t1")))))
               (FetchResponse (mkResponse 200 (Some [authInfo])))
               None None None None in
  exists cfg,
    loads src initialStore cfg /\
    AZURE_AUTHORITY cfg = Some "https://login.microsoftonline.com/organizations/" /\
    AZURE_TENANT_ID cfg = Some "organizations".
Proof.
  intros authInfo src.
  destruct (appService_authority_wins src initialStore authInfo
              "https://login.microsoftonline.com/organizations/"
              eq_refl eq_refl eq_refl ltac:(discriminate))
    as (cfg & Hl & Ha & Ht).
  exists cfg. split; [exact Hl|]. split; [exact Ha | exact Ht].
Defined.

(** X4. On every store the module can reach, a call of the loader, whether
    it resolves or answers from the cache, returns a reference to an object
    whose authority is a non-empty string and whose scopes are present. *)
Theorem reachable_load_resolved (src : Sources) (st : Store) :
  reachable st ->
  exists cfg a scopes,
    loads src st cfg /\
    AZURE_AUTHORITY cfg = Some a /\ a <> EmptyString /\ API_SCOPES cfg = Some scopes.
Proof.
  intros Hr.
  pose proof (RuntimeConfigFacts.reachable_store_ok _ (reachable_load src st Hr)) as [Hc Hh].
  pose proof (RuntimeConfigFacts.loadRuntimeConfig_caches src st) as Hcache.
  unfold loads. destruct (loadRuntimeConfig src st) as [r st']. cbn [fst snd] in *.
  specialize (Hc r Hcache).
  destruct (lookup_lt_is_Some_2 (heap st') r Hc) as [cfg Hcfg].
  rewrite Forall_forall in Hh.
  assert (Hin : cfg ∈ heap st') by (eapply list_elem_of_lookup_2; exact Hcfg).
  destruct (Hh cfg Hin) as [Ht Hs].
  apply JsFacts.truthy_Some_iff in Ht. destruct Ht as (a & Ha & Hne).
  destruct (API_SCOPES cfg) as [scopes|] eqn:Hsc; [|congruence].
  exists cfg, a, scopes. auto.
Qed.

Lemma reachable_load_resolved_witness :
  let src := mkSources FetchRejected FetchRejected None None None None in
  let st := snd (clearConfigCache (snd (loadRuntimeConfig src initialStore))) in
  exists cfg a scopes,
    loads src st cfg /\
    AZURE_AUTHORITY cfg = Some a /\ a <> EmptyString /\ API_SCOPES cfg = Some scopes.
Proof.
  intros src st.
  apply (reachable_load_resolved src st).
  apply reachable_clear, reachable_load, reachable_initial.
Defined.

(** X5. [getCachedConfig] changes nothing and tells what the next call of
    the loader does: with a cached reference the loader returns it and
    issues no request; with [null] it issues requests. After a call of the
    loader [getCachedConfig] gives the reference returned, after
    [clearConfigCache] it gives [null]. *)
Theorem getCachedConfig_agrees (src : Sources) (st : Store) :
  snd (getCachedConfig st) = st /\
  (forall r, fst (getCachedConfig st) = Some r -> loadRuntimeConfig src st = (r, st)) /\
  (fst (getCachedConfig st) = None <->
     requests (snd (loadRuntimeConfig src st)) <> requests st) /\
  fst (getCachedConfig (snd (loadRuntimeConfig src st)))
    = Some (fst (loadRuntimeConfig src st)) /\
  fst (getCachedConfig (snd (clearConfigCache st))) = None.
Proof.
  unfold getCachedConfig, readCache. cbn [fst snd].
  split; [reflexivity|]. split; [|split; [|split]].
  - intros r Hr. apply RuntimeConfigFacts.loadRuntimeConfig_hit. exact Hr.
  - destruct (cachedConfig st) as [r|] eqn:Hc.
    + rewrite (RuntimeConfigFacts.loadRuntimeConfig_hit _ _ _ Hc). cbn.
      split; [discriminate | congruence].
    + rewrite (RuntimeConfigFacts.loadRuntimeConfig_miss _ _ Hc). cbn.
      split; [|reflexivity]. intros _ Heq.
      apply (f_equal (@length string)) in Heq. rewrite length_app in Heq. cbn in Heq. lia.
  - apply RuntimeConfigFacts.loadRuntimeConfig_caches.
  - reflexivity.
Qed.

(** X6. Whatever configurations [loadMsalConfig] is given, the authority of
    the MSAL configuration stays a non-empty string, the scopes of the silent
    request contain the baseline scope, and they contain every scope of the
    API request. *)
Theorem configured_invariant (o : MsalObjects) :
  configured o ->
  auth_authority o <> EmptyString /\
  In "User.Read" (silentRequest_scopes o) /\
  (forall x, In x (apiRequest_scopes o) -> In x (silentRequest_scopes o)).
Proof.
  induction 1 as [|runtimeConfig o Ho (IHa & IHb & IHs)].
  - split; [discriminate|]. split; [left; reflexivity|]. intros x [].
  - unfold loadMsalConfig.
    set (o1 := if Js.truthy (AZURE_CLIENT_ID runtimeConfig) then _ else o).
    assert (H1 : auth_authority o1 = auth_authority o /\
                 apiRequest_scopes o1 = apiRequest_scopes o /\
                 silentRequest_scopes o1 = silentRequest_scopes o).
    { subst o1. destruct (Js.truthy (AZURE_CLIENT_ID runtimeConfig)); auto. }
    destruct H1 as (H1a & H1p & H1s).
    set (o2 := if Js.truthy (AZURE_AUTHORITY runtimeConfig) then _ else o1).
    assert (H2 : auth_authority o2 <> EmptyString /\
                 apiRequest_scopes o2 = apiRequest_scopes o /\
                 silentRequest_scopes o2 = silentRequest_scopes o).
    { subst o2. destruct (Js.truthy (AZURE_AUTHORITY runtimeConfig)) eqn:Ht.
      - apply JsFacts.truthy_Some_iff in Ht as (a & -> & Hne). cbn. auto.
      - rewrite H1a. auto. }
    destruct H2 as (H2a & H2p & H2s).
    destruct (API_SCOPES runtimeConfig) as [[|s0 scopes]|];
      cbn [silentRequest_scopes apiRequest_scopes auth_authority];
      try (rewrite H2p, H2s; auto).
    split; [exact H2a|].
    destruct (includes "User.Read" (s0 :: scopes)) eqn:Hinc.
    + split; [exact (RuntimeConfigFacts.includes_In _ _ Hinc) | intros x Hx; exact Hx].
    + split; [left; reflexivity | intros x Hx; right; exact Hx].
Qed.

Lemma configured_invariant_witness :
  let o := loadMsalConfig
             (mkRuntimeConfig (Some "c1") None None (Some ["api://c1/access_as_user"]))
             initialObjects in
  auth_authority o <> EmptyString /\
  In "User.Read" (silentRequest_scopes o) /\
  (forall x, In x (apiRequest_scopes o) -> In x (silentRequest_scopes o)).
Proof.
  intros o. apply (configured_invariant o).
  apply configured_load, configured_initial.
Defined.

End RuntimeConfigMore.

(** ** Start-up of the provider and what the gate renders *)

Module StartupFacts.
Import Browser AuthContextTs AuthConfigTs AuthProviderTs AuthenticatedAppTs.
Import RuntimeConfigTs RuntimeConfigSpec TraceSpec.
Local Open Scope list_scope.

Ltac run_init :=
  unfold stateAfter, initializeMsal, try_finally, try_catch_init, mbind, Init_bind, mret,
    Init_ret, raise, settle, setIsLoading, setError, setInstance, setAccounts,
    setIsAuthenticated, readAccounts, awaitRedirect;
  cbn [fst snd instance accounts isAuthenticated isLoading error].

Lemma initializeMsal_loading (boot : Startup) (configResult : MsalObjects)
    (s : AuthState) (h : History) :
  fst (initializeMsal boot configResult (s, h)) = inr tt /\
  isLoading (stateAfter (initializeMsal boot configResult) s h) = false.
Proof.
  run_init.
  destruct (String.eqb (auth_clientId configResult) EmptyString); [split; reflexivity|].
  destruct (construct boot configResult) as [e|msal]; cbn; [split; reflexivity|].
  destruct (initialize boot) as [e|]; cbn; [split; reflexivity|].
  match goal with |- context [handleRedirectPromise boot ?hh] =>
    destruct (handleRedirectPromise boot hh) as [e|[]] end; cbn; split; reflexivity.
Qed.

Lemma initializeMsal_instance (boot : Startup) (configResult : MsalObjects)
    (s : AuthState) (h : History) :
  let s' := stateAfter (initializeMsal boot configResult) s h in
  match construct boot configResult, initialize boot with
  | inr msal, None =>
      if String.eqb (auth_clientId configResult) EmptyString
      then instance s' = instance s /\ error s' = Some clientIdMissing
      else instance s' = Some msal
  | _, _ => instance s' = instance s /\ error s' <> None
  end.
Proof.
  run_init.
  destruct (String.eqb (auth_clientId configResult) EmptyString) eqn:Hc.
  { cbn. destruct (construct boot configResult); [|destruct (initialize boot)];
      repeat split; discriminate. }
  destruct (construct boot configResult) as [e|msal]; cbn.
  { repeat split. discriminate. }
  destruct (initialize boot) as [e|]; cbn.
  { repeat split. discriminate. }
  match goal with |- context [handleRedirectPromise boot ?hh] =>
    destruct (handleRedirectPromise boot hh) as [e|[]] end; cbn; repeat split.
Qed.

(** X7. The initialization never throws and always leaves [isLoading]
    false. It publishes a client handle exactly when the client id is not
    empty and both the construction and [initialize()] of the handle succeed,
    whether or not the redirect handling fails afterwards; otherwise the
    handle of the state is left as it was and the error is set. *)
Theorem initializeMsal_settles (boot : Startup) (configResult : MsalObjects)
    (s : AuthState) (h : History) :
  let s' := stateAfter (initializeMsal boot configResult) s h in
  fst (initializeMsal boot configResult (s, h)) = inr tt /\
  isLoading s' = false /\
  match construct boot configResult, initialize boot with
  | inr msal, None =>
      if String.eqb (auth_clientId configResult) EmptyString
      then instance s' = instance s /\ error s' = Some clientIdMissing
      else instance s' = Some msal
  | _, _ => instance s' = instance s /\ error s' <> None
  end.
Proof.
  intros s'.
  destruct (initializeMsal_loading boot configResult s h) as [Hr Hl].
  split; [exact Hr|]. split; [exact Hl|].
  exact (initializeMsal_instance boot configResult s h).
Qed.

(** X8. Start-up after a first resolution: when no source that is present
    offers a non-empty client id, the initialization ends with the
    configuration error, publishes no handle and leaves accounts and
    sign-in state as they were; when one does, the client id handed to the
    identity library is the first such value. *)
Theorem initializeMsal_client_id (boot : Startup) (src : Sources)
    (s : AuthState) (h : History) :
  let configResult := loadMsalConfig (resolve src) initialObjects in
  let s' := stateAfter (initializeMsal boot configResult) s h in
  match List.find Js.truthy (clientIdOffers src) with
  | None =>
      s' = mkAuthState (instance s) (accounts s) (isAuthenticated s) false
                       (Some clientIdMissing)
  | Some v => Some (auth_clientId configResult) = v /\
              auth_clientId configResult <> EmptyString
  end.
Proof.
  intros configResult s'.
  assert (Hcid : firstSet (clientIdOffers src) (AZURE_CLIENT_ID (resolve src))).
  { rewrite RuntimeConfigFacts.resolve_merged, RuntimeConfigFacts.withDefaults_clientId,
      RuntimeConfigFacts.merged_clientId.
    apply RuntimeConfigFacts.fill_firstSet; [reflexivity|].
    unfold clientIdOffers. rewrite !app_assoc. apply RuntimeConfigFacts.offers_nonempty. }
  assert (Hobj : auth_clientId configResult =
                 if Js.truthy (AZURE_CLIENT_ID (resolve src))
                 then default EmptyString (AZURE_CLIENT_ID (resolve src))
                 else EmptyString).
  { subst configResult. unfold loadMsalConfig.
    destruct (Js.truthy (AZURE_CLIENT_ID (resolve src)));
      destruct (Js.truthy (AZURE_AUTHORITY (resolve src)));
      destruct (API_SCOPES (resolve src)) as [[|? ?]|]; reflexivity. }
  unfold firstSet in Hcid.
  destruct (find Js.truthy (clientIdOffers src)) as [v|] eqn:Hf.
  - apply find_some in Hf as [_ Hv]. rewrite Hcid, Hv in Hobj.
    apply JsFacts.truthy_Some_iff in Hv as (c & -> & Hne).
    cbn in Hobj. rewrite Hobj. auto.
  - rewrite Hcid in Hobj. subst s'. run_init. rewrite Hobj. reflexivity.
Qed.

(** X9. When the initialization succeeds, the state is signed in exactly
    when a redirect response was handled or the account list is not empty,
    and the error is cleared. A handled redirect signs in even if the
    library lists no account. *)
Theorem initializeMsal_signed_in (boot : Startup) (configResult : MsalObjects)
    (s : AuthState) (h : History) (msal : PublicClientApplication) (response : bool) :
  auth_clientId configResult <> EmptyString ->
  construct boot configResult = inr msal ->
  initialize boot = None ->
  let l1 := getAllAccounts msal (h ++ [EvSetError None]) in
  let h1 := h ++ [EvSetError None; EvGetAllAccounts l1; EvSetAccounts l1;
                  EvSetIsAuthenticated (0 <? length l1)%nat] in
  handleRedirectPromise boot h1 = inr response ->
  let s' := stateAfter (initializeMsal boot configResult) s h in
  error s' = None /\
  accounts s' = (if response then getAllAccounts msal h1 else l1) /\
  isAuthenticated s' = response || (0 <? length (accounts s'))%nat.
Proof.
  intros Hne Hc Hi l1 h1 Hr s'. subst s'. run_init.
  replace (String.eqb (auth_clientId configResult) EmptyString) with false
    by (symmetry; apply String.eqb_neq; exact Hne).
  rewrite Hc, Hi. cbn. rewrite <- !app_assoc. cbn [app].
  fold l1. unfold h1 in *. clearbody l1. cbn in Hr. rewrite Hr.
  destruct response; cbn; repeat split.
Qed.

Lemma initializeMsal_signed_in_witness :
  let msal := constantMsal [] (TokenOk "t") (TokenOk "p") in
  let boot := mkStartup (fun _ => inr msal) None (fun _ => inr true) in
  let configResult := mkMsalObjects "c1" "https://login.microsoftonline.com/common"
                        [] ["User.Read"] in
  let s' := stateAfter (initializeMsal boot configResult) initialState [] in
  error s' = None /\ accounts s' = [] /\ isAuthenticated s' = true.
Proof.
  intros msal boot configResult s'.
  destruct (initializeMsal_signed_in boot configResult initialState [] msal true
              ltac:(discriminate) eq_refl eq_refl eq_refl)
    as (He & Ha & Hi).
  split; [exact He|]. split; [exact Ha | exact Hi].
Defined.

(** X10. When start-up cannot publish a handle (the client id is empty, or
    the construction or [initialize()] of the handle fails) in a state
    without one, the gate is past its loading screen and renders its
    children: the sign-in prompt needs a handle, and the failure shows no
    blocking screen. *)
Theorem failed_startup_renders_children (boot : Startup) (configResult : MsalObjects)
    (s : AuthState) (h : History) :
  instance s = None ->
  auth_clientId configResult = EmptyString \/
  (exists e, construct boot configResult = inl e) \/
  (exists e, initialize boot = Some e) ->
  render (stateAfter (initializeMsal boot configResult) s h) = ChildrenView /\
  error (stateAfter (initializeMsal boot configResult) s h) <> None.
Proof.
  intros Hs Hfail.
  destruct (initializeMsal_loading boot configResult s h) as [_ Hl].
  pose proof (initializeMsal_instance boot configResult s h) as Hi. cbv zeta in Hi.
  assert (Hnone : instance (stateAfter (initializeMsal boot configResult) s h) = None /\
                  error (stateAfter (initializeMsal boot configResult) s h) <> None).
  { destruct Hfail as [Hc | [[e He] | [e He]]].
    - rewrite Hc in Hi. cbn in Hi.
      destruct (construct boot configResult); [|destruct (initialize boot)];
        destruct Hi as [-> Herr]; (split; [exact Hs|]); try exact Herr;
        rewrite Herr; discriminate.
    - rewrite He in Hi. destruct Hi as [-> Herr]. auto.
    - rewrite He in Hi. destruct (construct boot configResult);
        destruct Hi as [-> Herr]; auto. }
  destruct Hnone as [Hnone Herr]. split; [|exact Herr].
  unfold render. rewrite Hl, Hnone. reflexivity.
Qed.

Lemma failed_startup_renders_children_witness :
  let boot := mkStartup (fun _ => inl (CaughtError "no crypto")) None (fun _ => inr false) in
  render (stateAfter (initializeMsal boot initialObjects) initialState []) = ChildrenView /\
  error (stateAfter (initializeMsal boot initialObjects) initialState []) <> None.
Proof.
  intros boot.
  apply (failed_startup_renders_children boot initialObjects initialState []);
    [reflexivity | left; reflexivity].
Defined.

End StartupFacts.

(** ** More on the session operations *)

Module SessionMore.
Import Browser AuthContextTs AuthenticatedAppTs LayoutTs TraceSpec SessionSpec.
Local Open Scope list_scope.

Ltac run_prog :=
  unfold try_catch, mbind, Prog_bind, mret, Prog_ret, emit, throw, call_getAllAccounts,
    call_acquireTokenSilent, call_acquireTokenPopup, call_loginRedirect,
    call_logoutRedirect, call_fetch;
  cbn [app fst snd].

(** X11. The silent-login probe of the gate never throws, calls no state
    setter and starts no token request or interactive flow. It sends at most
    one request, [GET /.auth/me] without options, and sends it exactly when
    there is a handle, the state is neither signed in nor loading, and the
    library lists no account. *)
Theorem attemptSilentLogin_probe_only (E : Env) (s : AuthState) (h : History) :
  exists es,
    attemptSilentLogin E s h = (Returned tt, es) /\
    count is_setter es = 0%nat /\
    count is_silent es = 0%nat /\
    count is_interactive es = 0%nat /\
    (requests_of es = [] \/ requests_of es = [probeRequest]) /\
    (requests_of es = [probeRequest] <->
       exists msal, instance s = Some msal /\ isAuthenticated s = false /\
                    isLoading s = false /\ getAllAccounts msal h = []).
Proof.
  unfold attemptSilentLogin.
  destruct (instance s) as [msal|].
  2:{ exists []. cbn. repeat split; auto; try discriminate. intros (m & [=] & _). }
  destruct (isAuthenticated s); cbn [negb andb].
  { exists []. cbn. repeat split; auto; try discriminate. intros (m & _ & [=] & _). }
  destruct (isLoading s); cbn [negb].
  { exists []. cbn. repeat split; auto; try discriminate. intros (m & _ & _ & [=] & _). }
  run_prog.
  destruct (getAllAccounts msal h) as [|a l] eqn:Hacc.
  2:{ eexists. split; [reflexivity|]. cbn. repeat split; auto; try discriminate.
      intros (m & [= <-] & _ & _ & Hl). congruence. }
  destruct (fetch E (h ++ [EvGetAllAccounts []]) probeRequest) as [|r] eqn:Hf;
    cbn [fetch_outcome].
  { eexists. split; [reflexivity|]. cbn. repeat split; auto. eauto. }
  destruct (ok r); [destruct (json r)|];
    (eexists; split; [reflexivity|]; cbn; repeat split; auto; eauto).
Qed.

(** X12. [login] with a handle: when the library lists an account it sets
    accounts and signed-in state and starts no redirect; otherwise it starts
    exactly one login redirect for [User.Read] with the account picker. It
    throws exactly when that redirect is rejected, with the same error, after
    setting the error to "Login failed". *)
Theorem login_with_handle (s : AuthState) (h : History) (msal : PublicClientApplication) :
  instance s = Some msal ->
  let l := getAllAccounts msal (h ++ [EvSetError None]) in
  let r := loginRedirect msal (h ++ [EvSetError None; EvGetAllAccounts l])
             ["User.Read"] "select_account" in
  login s h =
    match l, r with
    | _ :: _, _ =>
        (Returned tt,
         [EvSetError None; EvGetAllAccounts l; EvSetAccounts l; EvSetIsAuthenticated true])
    | [], None =>
        (Returned tt,
         [EvSetError None; EvGetAllAccounts [];
          EvLoginRedirect ["User.Read"] "select_account" None])
    | [], Some e =>
        (Thrown e,
         [EvSetError None; EvGetAllAccounts [];
          EvLoginRedirect ["User.Read"] "select_account" (Some e);
          EvSetError (Some "Login failed")])
    end.
Proof.
  intros Hi l r. unfold login. rewrite Hi. run_prog.
  fold l. destruct l as [|a l'] eqn:Hl.
  - rewrite <- app_assoc. cbn [app]. fold r. destruct r; reflexivity.
  - reflexivity.
Qed.

Lemma login_with_handle_witness :
  let msal := mkMsal (fun _ => []) (fun _ _ _ => TokenOk "t") (fun _ _ _ => TokenOk "p")
                (fun _ _ _ => Some (ErrorExn "popup_window_error")) (fun _ _ => None) in
  let s := mkAuthState (Some msal) [] false false None in
  login s [] =
    (Thrown (ErrorExn "popup_window_error"),
     [EvSetError None; EvGetAllAccounts [];
      EvLoginRedirect ["User.Read"] "select_account" (Some (ErrorExn "popup_window_error"));
      EvSetError (Some "Login failed")]).
Proof.
  intros msal s. exact (login_with_handle s [] msal eq_refl).
Defined.

(** X13. [logout] with a handle signs out the first account the library
    lists, if any. The local accounts are cleared and the state signed out
    exactly when it does not throw; a rejected redirect is thrown again after
    setting the error to "Logout failed", and then neither the accounts nor
    the signed-in state are touched. *)
Theorem logout_with_handle (s : AuthState) (h : History) (msal : PublicClientApplication) :
  instance s = Some msal ->
  let l := getAllAccounts msal (h ++ [EvSetError None]) in
  logout s h =
    match l with
    | [] =>
        (Returned tt,
         [EvSetError None; EvGetAllAccounts []; EvSetAccounts [];
          EvSetIsAuthenticated false])
    | account :: _ =>
        match logoutRedirect msal (h ++ [EvSetError None; EvGetAllAccounts l]) account with
        | None =>
            (Returned tt,
             [EvSetError None; EvGetAllAccounts l; EvLogoutRedirect account None;
              EvSetAccounts []; EvSetIsAuthenticated false])
        | Some e =>
            (Thrown e,
             [EvSetError None; EvGetAllAccounts l; EvLogoutRedirect account (Some e);
              EvSetError (Some "Logout failed")])
        end
    end.
Proof.
  intros Hi l. unfold logout. rewrite Hi. run_prog.
  fold l. destruct l as [|a l'] eqn:Hl.
  - reflexivity.
  - rewrite <- app_assoc. cbn [app].
    destruct (logoutRedirect msal (h ++ [EvSetError None; EvGetAllAccounts (a :: l')]) a);
      reflexivity.
Qed.

Lemma logout_with_handle_witness :
  let msal := mkMsal (fun _ => [mkAccount "ada"]) (fun _ _ _ => TokenOk "t")
                (fun _ _ _ => TokenOk "p") (fun _ _ _ => None)
                (fun _ _ => Some (ErrorExn "interaction_in_progress")) in
  let s := mkAuthState (Some msal) [mkAccount "ada"] true false None in
  logout s [] =
    (Thrown (ErrorExn "interaction_in_progress"),
     [EvSetError None; EvGetAllAccounts [mkAccount "ada"];
      EvLogoutRedirect (mkAccount "ada") (Some (ErrorExn "interaction_in_progress"));
      EvSetError (Some "Logout failed")]).
Proof.
  intros msal s. exact (logout_with_handle s [] msal eq_refl).
Defined.

(** X14. The sign-out handler of the layout never throws and does what
    [logout] does. Without a handle that is nothing at all: the failure of
    [logout] is dropped, no setter is called and the error state stays as it
    was. *)
Theorem handleLogout_swallows (s : AuthState) (h : History) :
  handleLogout s h = (Returned tt, snd (logout s h)) /\
  (instance s = None ->
     handleLogout s h = (Returned tt, []) /\
     exists e, fst (logout s h) = Thrown e).
Proof.
  unfold handleLogout, try_catch.
  destruct (logout s h) as [[[]|e] es] eqn:Hl; cbn [snd].
  - split; [reflexivity|]. intros Hi.
    rewrite (AuthContextFacts.logout_not_initialized s h Hi) in Hl. discriminate.
  - unfold mret, Prog_ret. rewrite app_nil_r. split; [reflexivity|]. intros Hi.
    rewrite (AuthContextFacts.logout_not_initialized s h Hi) in Hl.
    injection Hl as <- <-. eauto.
Qed.

(** X15. [acquireTokenSilently] on a state with a handle, signed in and
    with an account: every token request it makes, silent or popup, is for
    the scopes given and for the first account of the state; it yields a
    token exactly when the error state ends up cleared. *)
Theorem acquireTokenSilently_requests (s : AuthState) (scopes : list string) (h : History)
    (msal : PublicClientApplication) (account : AccountInfo) (rest : list AccountInfo) :
  instance s = Some msal -> isAuthenticated s = true -> accounts s = account :: rest ->
  exists token es,
    acquireTokenSilently s scopes h = (Returned token, es) /\
    (forall q, In q (token_requests es) -> q = (scopes, account)) /\
    token_requests es <> [] /\
    (is_Some token <-> error_after (error s) es = None).
Proof.
  intros Hi Ha Hacc. unfold acquireTokenSilently. rewrite Hi, Ha, Hacc. run_prog.
  destruct (acquireTokenSilent msal (h ++ [EvSetError None]) scopes account)
    as [t|[|m]]; cbn [token_outcome].
  - eexists _, _. split; [reflexivity|]. cbn. repeat split; try discriminate; eauto.
    intros q [<-|[]]. reflexivity.
  - match goal with |- context [acquireTokenPopup msal ?h' scopes account] =>
      destruct (acquireTokenPopup msal h' scopes account) as [t'|err'] end;
      cbn [token_outcome].
    + eexists _, _. split; [reflexivity|]. cbn. repeat split; try discriminate; eauto.
      intros q [<-|[<-|[]]]; reflexivity.
    + eexists _, _. split; [reflexivity|]. cbn. repeat split; try discriminate.
      * intros q [<-|[<-|[]]]; reflexivity.
      * intros [x [=]].
  - eexists _, _. split; [reflexivity|]. cbn. repeat split; try discriminate.
    + intros q [<-|[]]. reflexivity.
    + intros [x [=]].
Qed.

Lemma acquireTokenSilently_requests_witness :
  let msal := constantMsal [] (TokenRejected InteractionRequiredAuthError)
                (TokenOk "popup-token") in
  let s := mkAuthState (Some msal) [mkAccount "ada"] true false (Some "old") in
  exists token es,
    acquireTokenSilently s ["api://c1/access_as_user"] [] = (Returned token, es) /\
    (forall q, In q (token_requests es) ->
               q = (["api://c1/access_as_user"], mkAccount "ada")) /\
    token_requests es <> [] /\
    (is_Some token <-> error_after (error s) es = None).
Proof.
  intros msal s.
  apply (acquireTokenSilently_requests s ["api://c1/access_as_user"] [] msal
           (mkAccount "ada") []); reflexivity.
Defined.

End SessionMore.

(** ** More on the token-attaching client *)

Module ApiClientMore.
Import Browser ApiClientTs ApiClientClassTs TraceSpec ApiClientSpec SessionSpec.
Local Open Scope list_scope.

Lemma last_reply_app (es1 es2 : list Event) :
  last_reply (es1 ++ es2) =
    match last_reply es2 with
    | Some reply => Some reply
    | None => last_reply es1
    end.
Proof.
  unfold last_reply. rewrite fold_left_app.
  generalize (fold_left
                (fun acc e => match e with EvFetch _ reply => Some reply | _ => acc end)
                es1 None).
  induction es2 as [|e es2 IH] using rev_ind; intros acc.
  - reflexivity.
  - rewrite !fold_left_app. cbn. destruct e; try apply IH. reflexivity.
Qed.

Lemma last_reply_nofetch (es : list Event) :
  count is_fetch es = 0%nat -> last_reply es = None.
Proof.
  induction es as [|e es IH] using rev_ind; [reflexivity|].
  rewrite ApiClientFacts.count_app. intros H.
  rewrite last_reply_app. destruct e; cbn in *; try (apply IH; lia). lia.
Qed.

Lemma token_requests_app (es1 es2 : list Event) :
  token_requests (es1 ++ es2) = token_requests es1 ++ token_requests es2.
Proof. unfold token_requests. apply List.flat_map_app. Qed.

Lemma tokens_obtained_app (es1 es2 : list Event) :
  tokens_obtained (es1 ++ es2) = tokens_obtained es1 ++ tokens_obtained es2.
Proof. unfold tokens_obtained. apply List.flat_map_app. Qed.

(** The token requests of [getAccessToken] ask for the scopes given, and
    a token it returns was handed out by one of them. *)
Lemma getAccessToken_requests (this : AuthenticatedApiClient) (scopes : list string)
    (h : History) :
  let es := snd (getAccessToken this scopes h) in
  (forall q, In q (token_requests es) -> fst q = scopes) /\
  (forall t, fst (getAccessToken this scopes h) = Returned (Some t) ->
             In t (tokens_obtained es)).
Proof.
  unfold getAccessToken.
  destruct (msalInstance this) as [msal|]; [|cbn; split; [intros q []|discriminate]].
  unfold try_catch, mbind, Prog_bind, call_getAllAccounts, call_acquireTokenSilent,
    call_acquireTokenPopup, mret, Prog_ret.
  destruct (getAllAccounts msal h) as [|account accounts];
    [cbn; split; [intros q []|discriminate]|].
  destruct (acquireTokenSilent msal (h ++ [EvGetAllAccounts (account :: accounts)])
              scopes account) as [t|err]; cbn [token_outcome].
  { cbn. split; [intros q [<-|[]]; reflexivity | intros t' [= <-]; left; reflexivity]. }
  cbn [app].
  match goal with |- context [getAllAccounts msal ?h'] =>
    destruct (getAllAccounts msal h') as [|account' accounts'] end.
  { cbn. split; [intros q [<-|[]]; reflexivity | discriminate]. }
  match goal with |- context [acquireTokenPopup msal ?h' scopes account'] =>
    destruct (acquireTokenPopup msal h' scopes account') as [t'|err'] end;
    cbn [token_outcome]; cbn.
  - split; [intros q [<-|[<-|[]]]; reflexivity | intros t [= <-]; left; reflexivity].
  - split; [intros q [<-|[<-|[]]]; reflexivity | discriminate].
Qed.

(** The result of [authenticatedFetch] is the outcome of its last request. *)
Lemma authenticatedFetch_last_reply (E : Env) (this : AuthenticatedApiClient) (url : string)
    (options : AuthenticatedFetchOptions) (h : History) :
  exists reply,
    last_reply (snd (authenticatedFetch E this url options h)) = Some reply /\
    fst (authenticatedFetch E this url options h) = fetch_outcome reply.
Proof.
  destruct (default false (opt_skipAuth options)) eqn:Hskip.
  { rewrite (ApiClientFacts.authenticatedFetch_skipAuth _ _ _ _ _ Hskip). cbn. eauto. }
  destruct (ApiClientFacts.getAccessToken_returns this (scopesOf this options) h)
    as (token & es1 & Hg1 & Hf1 & _).
  rewrite (ApiClientFacts.authenticatedFetch_auth E this url options h token es1 Hskip Hg1).
  cbv zeta. set (req1 := firstRequest url options token).
  destruct (fetch E (h ++ es1) req1) as [|r1].
  { cbn [fst snd]. exists FetchRejected. rewrite last_reply_app. cbn. auto. }
  destruct (status r1 =? 401).
  2:{ cbn [fst snd]. exists (FetchResponse r1). rewrite last_reply_app. cbn. auto. }
  destruct (ApiClientFacts.getAccessToken_returns this (scopesOf this options)
              (h ++ es1 ++ [EvFetch req1 (FetchResponse r1)]))
    as (freshToken & es2 & Hg2 & Hf2 & _).
  rewrite Hg2. destruct (Js.truthy freshToken); cbn [fst snd].
  - eexists. rewrite !last_reply_app. cbn. auto.
  - exists (FetchResponse r1). rewrite !last_reply_app, (last_reply_nofetch _ Hf2). cbn. auto.
Qed.


(** X16. What [authenticatedFetch] hands to its caller is the outcome of the
    last request it sent: the response whatever its status, or the network
    failure. It sends one request or two, and two only with authentication on
    and a first response of status 401. *)
Theorem authenticatedFetch_outcome (E : Env) (this : AuthenticatedApiClient) (url : string)
    (options : AuthenticatedFetchOptions) (h : History) :
  let run := authenticatedFetch E this url options h in
  exists reply,
    last_reply (snd run) = Some reply /\
    fst run = fetch_outcome reply /\
    (count is_fetch (snd run) = 1%nat \/
     count is_fetch (snd run) = 2%nat /\
     default false (opt_skipAuth options) = false /\
     exists req1 r1, first_fetch (snd run) = Some (req1, FetchResponse r1) /\ status r1 = 401).
Proof.
  intros run. subst run.
  destruct (default false (opt_skipAuth options)) eqn:Hskip.
  { rewrite (ApiClientFacts.authenticatedFetch_skipAuth _ _ _ _ _ Hskip). cbn.
    eexists. split; [reflexivity|]. split; [reflexivity|]. left. reflexivity. }
  destruct (ApiClientFacts.getAccessToken_returns this (scopesOf this options) h)
    as (token & es1 & Hg1 & Hf1 & _).
  rewrite (ApiClientFacts.authenticatedFetch_auth E this url options h token es1 Hskip Hg1).
  cbv zeta. set (req1 := firstRequest url options token).
  destruct (fetch E (h ++ es1) req1) as [|r1] eqn:Hr1.
  { cbn [fst snd]. exists FetchRejected.
    split; [rewrite last_reply_app; cbn; reflexivity|]. split; [reflexivity|]. left.
    rewrite ApiClientFacts.count_app, Hf1. reflexivity. }
  destruct (status r1 =? 401) eqn:H401.
  2:{ cbn [fst snd]. exists (FetchResponse r1).
      split; [rewrite last_reply_app; cbn; reflexivity|]. split; [reflexivity|]. left.
      rewrite ApiClientFacts.count_app, Hf1. reflexivity. }
  apply Z.eqb_eq in H401.
  destruct (ApiClientFacts.getAccessToken_returns this (scopesOf this options)
              (h ++ es1 ++ [EvFetch req1 (FetchResponse r1)]))
    as (freshToken & es2 & Hg2 & Hf2 & _).
  rewrite Hg2. destruct (Js.truthy freshToken); cbn [fst snd].
  - eexists. split; [rewrite !last_reply_app; cbn; reflexivity|].
    split; [reflexivity|]. right.
    rewrite !ApiClientFacts.count_app, Hf1, Hf2. split; [reflexivity|].
    split; [reflexivity|]. exists req1, r1.
    rewrite (ApiClientFacts.first_fetch_app_nofetch _ _ Hf1). auto.
  - exists (FetchResponse r1).
    split; [rewrite !last_reply_app, (last_reply_nofetch _ Hf2); cbn; reflexivity|].
    split; [reflexivity|]. left.
    rewrite !ApiClientFacts.count_app, Hf1, Hf2. reflexivity.
Qed.

(** What the prepared headers hold: the caller's entry, else the default
    content type. *)
Lemma prepareHeaders_lookup (hs : option (gmap string string)) (k : string) :
  prepareHeaders hs !! k =
    match default ∅ hs !! k with
    | Some v => Some v
    | None => if decide (k = "Content-Type") then Some "application/json" else None
    end.
Proof.
  unfold prepareHeaders. rewrite lookup_union.
  destruct (default ∅ hs !! k) as [v|] eqn:Hk.
  - destruct ({["Content-Type" := "application/json"]} !! k); reflexivity.
  - case_decide as Hd.
    + subst k. rewrite lookup_singleton_eq. reflexivity.
    + rewrite lookup_singleton_ne by congruence. reflexivity.
Qed.

(** X17. Every request [authenticatedFetch] sends goes to the URL given,
    with the method, body and signal of the options. A header of the caller
    is sent as given, the [Content-Type] included, which defaults to
    [application/json]; only [Authorization] is ever changed, and then to
    the text "Bearer " followed by a non-empty token the identity library
    handed out during the call. *)
Theorem authenticatedFetch_headers (E : Env) (this : AuthenticatedApiClient) (url : string)
    (options : AuthenticatedFetchOptions) (h : History) :
  let es := snd (authenticatedFetch E this url options h) in
  forall req, In req (requests_of es) ->
    Browser.url req = url /\ method req = opt_method options /\
    body req = opt_body options /\ signal req = opt_signal options /\
    (forall k, k <> "Authorization" ->
       headers req !! k =
         match default ∅ (opt_headers options) !! k with
         | Some v => Some v
         | None => if decide (k = "Content-Type") then Some "application/json" else None
         end) /\
    (headers req !! "Authorization" = default ∅ (opt_headers options) !! "Authorization" \/
     exists t, t <> EmptyString /\ In t (tokens_obtained es) /\
               default false (opt_skipAuth options) = false /\
               headers req !! "Authorization" = Some ("Bearer " +:+ t)).
Proof.
  intros es req Hin. subst es.
  assert (Hfirst : forall token,
             forall k, k <> "Authorization" ->
               firstHeaders options token !! k = prepareHeaders (opt_headers options) !! k).
  { intros token k Hk. unfold firstHeaders. destruct (Js.truthy token); [|reflexivity].
    apply lookup_insert_ne. congruence. }
  assert (Hauth0 : prepareHeaders (opt_headers options) !! "Authorization"
                   = default ∅ (opt_headers options) !! "Authorization").
  { rewrite prepareHeaders_lookup.
    destruct (default ∅ (opt_headers options) !! "Authorization"); [reflexivity|].
    case_decide; [discriminate | reflexivity]. }
  destruct (default false (opt_skipAuth options)) eqn:Hskip.
  { rewrite (ApiClientFacts.authenticatedFetch_skipAuth _ _ _ _ _ Hskip) in Hin.
    cbn in Hin. destruct Hin as [<-|[]]. cbn.
    repeat split; auto. intros k Hk. apply prepareHeaders_lookup. }
  pose proof (getAccessToken_requests this (scopesOf this options) h) as [_ Htok1].
  destruct (ApiClientFacts.getAccessToken_returns this (scopesOf this options) h)
    as (token & es1 & Hg1 & Hf1 & _).
  rewrite Hg1 in Htok1. cbn [fst snd] in Htok1.
  assert (Hreq1 : forall es',
    let req1 := firstRequest url options token in
             Browser.url req1 = url /\ method req1 = opt_method options /\
             body req1 = opt_body options /\ signal req1 = opt_signal options /\
             (forall k, k <> "Authorization" ->
                headers req1 !! k =
                  match default ∅ (opt_headers options) !! k with
                  | Some v => Some v
                  | None => if decide (k = "Content-Type")
                            then Some "application/json" else None
                  end) /\
             (headers req1 !! "Authorization"
                = default ∅ (opt_headers options) !! "Authorization" \/
              exists t, t <> EmptyString /\ In t (tokens_obtained (es1 ++ es')) /\
                        false = false /\
                        headers req1 !! "Authorization" = Some ("Bearer " +:+ t))).
  { intros es' req1. subst req1. cbn [Browser.url method body signal headers firstRequest].
    repeat split; auto.
    - intros k Hk. rewrite (Hfirst token k Hk). apply prepareHeaders_lookup.
    - unfold firstHeaders. destruct (Js.truthy token) eqn:Ht; [|left; exact Hauth0].
      right. apply JsFacts.truthy_Some_iff in Ht as (t & -> & Hne).
      exists t. rewrite tokens_obtained_app, in_app_iff.
      repeat split; auto. cbn. apply lookup_insert_eq. }
  rewrite (ApiClientFacts.authenticatedFetch_auth E this url options h token es1 Hskip Hg1)
    in Hin |- *.
  cbv zeta in Hin |- *. set (req1 := firstRequest url options token) in *.
  destruct (fetch E (h ++ es1) req1) as [|r1].
  { cbn [snd] in Hin |- *.
    rewrite ApiClientFacts.requests_of_app, (ApiClientFacts.requests_of_nofetch _ Hf1) in Hin.
    cbn in Hin. destruct Hin as [<-|[]]. apply Hreq1. }
  destruct (status r1 =? 401).
  2:{ cbn [snd] in Hin |- *.
      rewrite ApiClientFacts.requests_of_app, (ApiClientFacts.requests_of_nofetch _ Hf1) in Hin.
      cbn in Hin. destruct Hin as [<-|[]]. apply Hreq1. }
  pose proof (getAccessToken_requests this (scopesOf this options)
                (h ++ es1 ++ [EvFetch req1 (FetchResponse r1)])) as [_ Htok2].
  destruct (ApiClientFacts.getAccessToken_returns this (scopesOf this options)
              (h ++ es1 ++ [EvFetch req1 (FetchResponse r1)]))
    as (freshToken & es2 & Hg2 & Hf2 & _).
  rewrite Hg2 in Hin, Htok2 |- *. cbn [fst snd] in Htok2.
  destruct (Js.truthy freshToken) eqn:Hfresh; cbn [snd] in Hin |- *;
    rewrite !ApiClientFacts.requests_of_app, (ApiClientFacts.requests_of_nofetch _ Hf1),
      (ApiClientFacts.requests_of_nofetch _ Hf2) in Hin; cbn in Hin.
  - destruct Hin as [<-|[<-|[]]]; [apply Hreq1|].
    apply JsFacts.truthy_Some_iff in Hfresh as (t & -> & Hne).
    destruct (Hreq1 []) as (Hu & Hm & Hb & Hs & Hk & _).
    cbn [Browser.url method body signal headers with_authorization].
    repeat split; auto.
    + intros k Hk'. rewrite lookup_insert_ne by congruence. apply Hk. exact Hk'.
    + right. exists t. split; [exact Hne|].
      split; [|split; [reflexivity | cbn; apply lookup_insert_eq]].
      rewrite !tokens_obtained_app, !in_app_iff.
      right. right. left. apply Htok2. reflexivity.
  - destruct Hin as [<-|[]]. apply Hreq1.
Qed.

(** X18. Every token request made during [authenticatedFetch], silent or
    popup, first attempt or refresh, asks for the scopes of the call's
    options when they give some, the empty list included, and otherwise for
    the default scopes of the client: those given to its constructor, or
    [User.Read] when it was given none. *)
Theorem authenticatedFetch_scopes (E : Env) (config : option PartialApiConfig)
    (url : string) (options : AuthenticatedFetchOptions) (h : History) :
  let this := construct config in
  let wanted :=
    match opt_scopes options with
    | Some scopes => scopes
    | None => default ["User.Read"] (config ≫= cfg_defaultScopes)
    end in
  forall q, In q (token_requests (snd (authenticatedFetch E this url options h))) ->
            fst q = wanted.
Proof.
  intros this wanted q Hin.
  assert (Hw : scopesOf this options = wanted).
  { subst this wanted. unfold scopesOf, construct.
    destruct (opt_scopes options); [reflexivity|].
    destruct config as [[[i|] [l|]]|]; reflexivity. }
  rewrite <- Hw.
  destruct (default false (opt_skipAuth options)) eqn:Hskip.
  { rewrite (ApiClientFacts.authenticatedFetch_skipAuth _ _ _ _ _ Hskip) in Hin.
    cbn in Hin. destruct Hin. }
  pose proof (getAccessToken_requests this (scopesOf this options) h) as [Hq1 _].
  destruct (ApiClientFacts.getAccessToken_returns this (scopesOf this options) h)
    as (token & es1 & Hg1 & _).
  rewrite Hg1 in Hq1. cbn [snd] in Hq1.
  rewrite (ApiClientFacts.authenticatedFetch_auth E this url options h token es1 Hskip Hg1)
    in Hin.
  cbv zeta in Hin. set (req1 := firstRequest url options token) in *.
  destruct (fetch E (h ++ es1) req1) as [|r1].
  { cbn [snd] in Hin. rewrite token_requests_app, in_app_iff in Hin. cbn in Hin.
    destruct Hin as [Hin|[]]. apply Hq1. exact Hin. }
  destruct (status r1 =? 401).
  2:{ cbn [snd] in Hin. rewrite token_requests_app, in_app_iff in Hin. cbn in Hin.
      destruct Hin as [Hin|[]]. apply Hq1. exact Hin. }
  pose proof (getAccessToken_requests this (scopesOf this options)
                (h ++ es1 ++ [EvFetch req1 (FetchResponse r1)])) as [Hq2 _].
  destruct (ApiClientFacts.getAccessToken_returns this (scopesOf this options)
              (h ++ es1 ++ [EvFetch req1 (FetchResponse r1)]))
    as (freshToken & es2 & Hg2 & _).
  rewrite Hg2 in Hin, Hq2. cbn [snd] in Hq2.
  destruct (Js.truthy freshToken); cbn [snd] in Hin;
    rewrite !token_requests_app, !in_app_iff in Hin; cbn in Hin.
  - destruct Hin as [Hin|[[]|[Hin|[]]]]; [apply Hq1 | apply Hq2]; exact Hin.
  - destruct Hin as [Hin|[[]|Hin]]; [apply Hq1 | apply Hq2]; exact Hin.
Qed.

(** X19. The verb wrappers fix the method whatever the options say, and
    [post] and [put] replace the body of the options: it is the JSON text of
    the data when the data is truthy and absent when it is falsy ([0],
    [false], the empty string, [null], [undefined]), even if the options
    carried a body. *)
Theorem verb_wrappers (E : Env) (this : AuthenticatedApiClient) (url : string)
    (data : JsValue) (options : option AuthenticatedFetchOptions) (h : History) :
  (forall req, In req (requests_of (snd (get E this url options h))) ->
     method req = Some "GET" /\ body req = (options ≫= opt_body)) /\
  (forall req, In req (requests_of (snd (delete E this url options h))) ->
     method req = Some "DELETE" /\ body req = (options ≫= opt_body)) /\
  (forall req, In req (requests_of (snd (post E this url data options h))) ->
     method req = Some "POST" /\
     body req = if truthy_value data then Some (BodyText (JSON_stringify E data)) else None) /\
  (forall req, In req (requests_of (snd (put E this url data options h))) ->
     method req = Some "PUT" /\
     body req = if truthy_value data then Some (BodyText (JSON_stringify E data)) else None).
Proof.
  split; [|split; [|split]]; intros req Hin; unfold get, delete, post, put in Hin;
    match type of Hin with
    | In _ (requests_of (snd (authenticatedFetch _ _ _ ?o _))) =>
        destruct (ApiClientFacts.authenticatedFetch_requests E this url o h)
          as (token & _ & Hall)
    end;
    destruct (Hall req Hin) as [->|(v & ->)]; destruct options; split; reflexivity.
Qed.

Lemma authenticatedFetch_headers_witness :
  let E := constantEnv 401 in
  let this := setMsalInstance newClient (refreshingMsal (mkAccount "ada") "stale" "fresh") in
  let callerHeaders : gmap string string :=
    {[ "Authorization" := "Basic abc"; "Content-Type" := "text/plain"; "X-Trace" := "7" ]} in
  let options :=
    mkOptions (Some "PUT") (Some (BodyText "x")) (Some callerHeaders) (Some 3%nat)
              None None in
  let es := snd (authenticatedFetch E this "/upload" options []) in
  let req1 := firstRequest "/upload" options (Some "stale") in
  let req2 := with_authorization req1 "Bearer fresh" in
  requests_of es = [req1; req2] /\
  tokens_obtained es = ["stale"; "fresh"] /\
  (forall req, In req [req1; req2] ->
     Browser.url req = "/upload" /\ method req = Some "PUT" /\
     body req = Some (BodyText "x") /\ signal req = Some 3%nat /\
     headers req !! "Content-Type" = Some "text/plain" /\
     headers req !! "X-Trace" = Some "7" /\
     headers req !! "Accept" = None /\
     exists t, In t ["stale"; "fresh"] /\
               headers req !! "Authorization" = Some ("Bearer " +:+ t)) /\
  headers req1 !! "Authorization" = Some "Bearer stale" /\
  headers req2 !! "Authorization" = Some "Bearer fresh".
Proof.
  intros E this callerHeaders options es req1 req2.
  assert (Hreqs : requests_of es = [req1; req2]) by reflexivity.
  assert (Htoks : tokens_obtained es = ["stale"; "fresh"]) by reflexivity.
  split; [exact Hreqs|]. split; [exact Htoks|]. split; [|split; reflexivity].
  intros req Hin. rewrite <- Hreqs in Hin.
  destruct (authenticatedFetch_headers E this "/upload" options [] req Hin)
    as (Hu & Hm & Hb & Hs & Hk & Ha).
  split; [exact Hu|]. split; [exact Hm|]. split; [exact Hb|]. split; [exact Hs|].
  split; [exact (Hk "Content-Type" ltac:(discriminate))|].
  split; [exact (Hk "X-Trace" ltac:(discriminate))|].
  split; [exact (Hk "Accept" ltac:(discriminate))|].
  destruct Ha as [Hcaller|(t & _ & Ht & _ & Hbearer)].
  - exfalso. rewrite Hreqs in Hin.
    destruct Hin as [<-|[<-|[]]]; vm_compute in Hcaller; discriminate.
  - exists t. fold es in Ht. rewrite Htoks in Ht. split; [exact Ht | exact Hbearer].
Defined.

Lemma authenticatedFetch_scopes_witness :
  let msal := constantMsal [mkAccount "ada"] (TokenOk "t") (TokenOk "p") in
  let config := Some (mkPartialApiConfig (Some msal) (Some ["api://c1/.default"])) in
  let run := authenticatedFetch (constantEnv 200) (construct config) "/info" noOptions [] in
  let q := (["api://c1/.default"], mkAccount "ada") in
  In q (token_requests (snd run)) /\ fst q = ["api://c1/.default"].
Proof.
  intros msal config run q.
  assert (Hin : In q (token_requests (snd run))) by (left; reflexivity).
  split; [exact Hin|].
  exact (authenticatedFetch_scopes (constantEnv 200) config "/info" noOptions [] q Hin).
Defined.

End ApiClientMore.

(** ** The API functions and the helpers of [useApi] *)

Module ApiCallsFacts.
Import Browser ApiClientTs ApiCallsTs UseApiTs TraceSpec ApiClientSpec SessionSpec ApiCallsSpec.
Local Open Scope list_scope.

(** A function made of one request through the client and local steps
    sends what [authenticatedFetch] sends and decides on the answer to the
    last request. *)
Lemma thenLocally_reply {A} (E : Env) (this : AuthenticatedApiClient) (url : string)
    (options : AuthenticatedFetchOptions) (k : Response JsValue -> ApiExn + A)
    (h : History) :
  let run := thenLocally (authenticatedFetch E this url options) k h in
  snd run = snd (authenticatedFetch E this url options h) /\
  exists reply, last_reply (snd run) = Some reply /\ fst run = fromReply k reply.
Proof.
  intros run. subst run. unfold thenLocally.
  destruct (ApiClientMore.authenticatedFetch_last_reply E this url options h)
    as (reply & Hlast & Hout).
  destruct (authenticatedFetch E this url options h) as [[r|e] es]; cbn [fst snd] in *.
  - split; [reflexivity|]. exists reply. split; [exact Hlast|].
    destruct reply; cbn in Hout; [discriminate|]. injection Hout as ->. reflexivity.
  - split; [reflexivity|]. exists reply. split; [exact Hlast|].
    destruct reply; cbn in Hout; [|discriminate]. injection Hout as ->. reflexivity.
Qed.

Lemma not_ok_or_above (r : Response JsValue) :
  (299 <? status r) || negb (ok r) = negb (ok r).
Proof.
  unfold ok. destruct (299 <? status r) eqn:Hhi; [|reflexivity].
  apply Z.ltb_lt in Hhi.
  replace (status r <=? 299) with false by (symmetry; apply Z.leb_gt; lia).
  rewrite andb_false_r. reflexivity.
Qed.

(** X20. Each of the eight JSON getters sends only [GET] requests without a
    body to its URL and decides on the answer to the last of them: the parsed
    body when the status is in 200..299 (the rejection of the parser when the
    body is not JSON), its own error message for any other status, and the
    network failure when the request was rejected. A 401 that the refreshed
    token cured is not reported. *)
Theorem jsonGetters_result (E : Env) (apiClient : AuthenticatedApiClient)
    (encodeURIComponent : string -> string) (citation : string) (h : History)
    (f : ApiProg JsValue) (url failure : string) :
  In (f, url, failure) (jsonGetters E apiClient encodeURIComponent citation) ->
  (forall req, In req (requests_of (snd (f h))) ->
     Browser.url req = url /\ method req = Some "GET" /\ body req = None) /\
  exists reply,
    last_reply (snd (f h)) = Some reply /\
    fst (f h) =
      match reply with
      | FetchRejected => inl (Propagated NetworkExn)
      | FetchResponse response =>
          if ok response then
            match json response with
            | Some v => inr v
            | None => inl JsonRejected
            end
          else inl (ErrorOf (JsString failure))
      end.
Proof.
  intros Hin.
  assert (Hf : f = getJson E apiClient url failure).
  { cbn in Hin. repeat (destruct Hin as [[= <- <- <-]|Hin]; [reflexivity|]). destruct Hin. }
  subst f. unfold getJson, get.
  match goal with |- context [thenLocally (authenticatedFetch E apiClient url ?o) ?k h] =>
    destruct (thenLocally_reply E apiClient url o k h) as (Hes & reply & Hlast & Hout);
    destruct (ApiClientFacts.authenticatedFetch_requests E apiClient url o h)
      as (token & _ & Hall)
  end.
  cbv zeta in Hes, Hlast, Hout. split.
  - intros req Hreq. rewrite Hes in Hreq.
    destruct (Hall req Hreq) as [->|(v & ->)]; repeat split.
  - exists reply. split; [exact Hlast|]. rewrite Hout.
    destruct reply as [|r]; cbn; [reflexivity|].
    destruct (ok r); reflexivity.
Qed.

Lemma jsonGetters_result_witness :
  let E := expiringEnv "Bearer fresh" in
  let apiClient := setMsalInstance newClient
                     (refreshingMsal (mkAccount "ada") "stale" "fresh") in
  exists reply,
    last_reply (snd (getInfoAuthenticated E apiClient [])) = Some reply /\
    fst (getInfoAuthenticated E apiClient []) =
      match reply with
      | FetchRejected => inl (Propagated NetworkExn)
      | FetchResponse response =>
          if ok response then
            match json response with
            | Some v => inr v
            | None => inl JsonRejected
            end
          else inl (ErrorOf (JsString "Failed to get info"))
      end.
Proof.
  intros E apiClient.
  apply (jsonGetters_result E apiClient (fun s => s) EmptyString []
           (getInfoAuthenticated E apiClient) "/info" "Failed to get info").
  left. reflexivity.
Defined.

(** X21. [chatApiAuthenticated] posts the JSON text of the chat body to
    [/chat] and passes the abort signal with every request, the retried one
    included. It returns the last response when its status is in 200..299
    and throws "Unknown error" for any other status. *)
Theorem chatApiAuthenticated_result (E : Env) (apiClient : AuthenticatedApiClient)
    (options : ChatRequest) (abort : nat) (h : History) :
  let run := chatApiAuthenticated E apiClient options abort h in
  (forall req, In req (requests_of (snd run)) ->
     Browser.url req = "/chat" /\ method req = Some "POST" /\
     signal req = Some abort /\
     body req = Some (BodyText (JSON_stringify E (chatBody options)))) /\
  exists reply,
    last_reply (snd run) = Some reply /\
    fst run =
      match reply with
      | FetchRejected => inl (Propagated NetworkExn)
      | FetchResponse response =>
          if ok response then inr response
          else inl (ErrorOf (JsString "Unknown error"))
      end.
Proof.
  intros run. subst run. unfold chatApiAuthenticated, post.
  match goal with |- context [thenLocally (authenticatedFetch E apiClient ?u ?o) ?k h] =>
    destruct (thenLocally_reply E apiClient u o k h) as (Hes & reply & Hlast & Hout);
    destruct (ApiClientFacts.authenticatedFetch_requests E apiClient u o h)
      as (token & _ & Hall)
  end.
  cbv zeta in Hes, Hlast, Hout. split.
  - intros req Hreq. rewrite Hes in Hreq.
    destruct (Hall req Hreq) as [->|(v & ->)]; repeat split.
  - exists reply. split; [exact Hlast|]. rewrite Hout.
    destruct reply as [|r]; cbn; [reflexivity|].
    rewrite not_ok_or_above. destruct (ok r); reflexivity.
Qed.

(** X22. [getAllUploadStatusAuthenticated] parses the body before it looks
    at the status: a response whose body is not JSON makes it throw the
    rejection of the parser, whatever the status. With a parsed body it
    returns [{statuses: body}] for a status in 200..299; for any other status
    it throws an error made from the [error] property of the body when that
    is truthy and "Unknown error" otherwise, and a [TypeError] when the body
    is [null]. *)
Theorem getAllUploadStatusAuthenticated_result (E : Env)
    (apiClient : AuthenticatedApiClient) (options : GetUploadStatusRequest) (h : History) :
  let run := getAllUploadStatusAuthenticated E apiClient options h in
  exists reply,
    last_reply (snd run) = Some reply /\
    fst run =
      match reply with
      | FetchRejected => inl (Propagated NetworkExn)
      | FetchResponse response =>
          match json response with
          | None => inl JsonRejected
          | Some parsedResponse =>
              if ok response then inr (JsObject [("statuses", parsedResponse)])
              else
                match parsedResponse with
                | JsNull | JsUndefined => inl PropertyTypeError
                | JsObject fields =>
                    match field "error" fields with
                    | Some error =>
                        inl (ErrorOf (if truthy_value error then error
                                      else JsString "Unknown error"))
                    | None => inl (ErrorOf (JsString "Unknown error"))
                    end
                | _ => inl (ErrorOf (JsString "Unknown error"))
                end
          end
      end.
Proof.
  intros run. subst run. unfold getAllUploadStatusAuthenticated, post.
  match goal with |- context [thenLocally (authenticatedFetch E apiClient ?u ?o) ?k h] =>
    destruct (thenLocally_reply E apiClient u o k h) as (_ & reply & Hlast & Hout)
  end.
  cbv zeta in Hlast, Hout. exists reply. split; [exact Hlast|]. rewrite Hout.
  destruct reply as [|r]; cbn [fromReply]; [reflexivity|].
  unfold parsed. destruct (json r) as [v|]; [|reflexivity].
  rewrite not_ok_or_above. destruct (ok r); cbn [negb]; [reflexivity|].
  destruct v; cbn; try reflexivity.
  destruct (field "error" fields); reflexivity.
Qed.

(** X23. [deleteItemAuthenticated] and [resubmitItemAuthenticated] return
    [true] exactly when the last response has a status in 200..299; for any
    other status they throw "HTTP error! status: " followed by the status in
    decimal. *)
Theorem postPath_result (E : Env) (apiClient : AuthenticatedApiClient)
    (path : JsValue) (h : History) (f : ApiProg bool) (url : string) :
  In (f, url) [ (deleteItemAuthenticated E apiClient path, "/deleteItems");
                (resubmitItemAuthenticated E apiClient path, "/resubmitItems") ] ->
  (forall req, In req (requests_of (snd (f h))) ->
     Browser.url req = url /\ method req = Some "POST" /\
     body req = Some (BodyText (JSON_stringify E (JsObject [("path", path)])))) /\
  exists reply,
    last_reply (snd (f h)) = Some reply /\
    fst (f h) =
      match reply with
      | FetchRejected => inl (Propagated NetworkExn)
      | FetchResponse response =>
          if ok response then inr true
          else inl (ErrorOf (JsString ("HTTP error! status: " +:+ decimal (status response))))
      end.
Proof.
  intros Hin.
  assert (Hf : f = postPath E apiClient url path).
  { cbn in Hin. destruct Hin as [[= <- <-]|[[= <- <-]|[]]]; reflexivity. }
  subst f. unfold postPath, post.
  match goal with |- context [thenLocally (authenticatedFetch E apiClient url ?o) ?k h] =>
    destruct (thenLocally_reply E apiClient url o k h) as (Hes & reply & Hlast & Hout);
    destruct (ApiClientFacts.authenticatedFetch_requests E apiClient url o h)
      as (token & _ & Hall)
  end.
  cbv zeta in Hes, Hlast, Hout. split.
  - intros req Hreq. rewrite Hes in Hreq.
    destruct (Hall req Hreq) as [->|(v & ->)]; repeat split.
  - exists reply. split; [exact Hlast|]. rewrite Hout.
    destruct reply as [|r]; cbn; [reflexivity|].
    destruct (ok r); reflexivity.
Qed.

Lemma postPath_result_witness :
  let E := constantEnv 403 in
  fst (deleteItemAuthenticated E newClient (JsString "a.pdf") [])
  = inl (ErrorOf (JsString "HTTP error! status: 403")).
Proof.
  intros E.
  destruct (postPath_result E newClient (JsString "a.pdf") []
              (deleteItemAuthenticated E newClient (JsString "a.pdf")) "/deleteItems"
              ltac:(left; reflexivity))
    as (_ & reply & Hlast & Hout).
  rewrite Hout. cbn in Hlast. injection Hlast as <-. reflexivity.
Defined.



Lemma resolve_backend_clientId (src : RuntimeConfigTs.Sources)
    (b : RuntimeConfigTs.Backend.Config) :
  RuntimeConfigSpec.backendOffer src = Some b ->
  Js.truthy (RuntimeConfigTs.Backend.clientId b) = true ->
  RuntimeConfigTs.AZURE_CLIENT_ID (RuntimeConfigTs.resolve src)
  = RuntimeConfigTs.Backend.clientId b.
Proof.
  intros Hb Ht.
  rewrite RuntimeConfigFacts.resolve_merged, RuntimeConfigFacts.withDefaults_clientId,
    RuntimeConfigFacts.merged_clientId.
  unfold RuntimeConfigSpec.clientIdOffers. rewrite Hb. cbn [RuntimeConfigSpec.offer app fold_left].
  rewrite JsFacts.or_None_l. apply RuntimeConfigFacts.fill_truthy. exact Ht.
Qed.

(** X25. [checkAuthenticationCapabilities] never throws and judges the MSAL
    configuration by the injected global and the build-time client id alone.
    A client id that only the backend endpoint supplies is resolved by the
    loader, yet the check reports that silent authentication is not
    supported, and with a [/.auth/me] that is not ok also that no
    authentication configuration was found. *)
Theorem capabilities_ignore_backend (E : Env) (describe : Exn -> string)
    (src : RuntimeConfigTs.Sources) (b : RuntimeConfigTs.Backend.Config) (h : History) :
  RuntimeConfigSpec.backendOffer src = Some b ->
  Js.truthy (RuntimeConfigTs.Backend.clientId b) = true ->
  Js.truthy (Js.or (RuntimeConfigTs.RUNTIME_CONFIG src ≫= RuntimeConfigTs.AZURE_CLIENT_ID)
                   (RuntimeConfigTs.VITE_AZURE_CLIENT_ID src)) = false ->
  RuntimeConfigTs.AZURE_CLIENT_ID (RuntimeConfigTs.resolve src)
    = RuntimeConfigTs.Backend.clientId b /\
  exists caps,
    fst (checkAuthenticationCapabilities E describe src h) = Returned caps /\
    supportsSilentAuth caps = false /\
    (forall response,
       fetch E h (mkRequest "/.auth/me" None None ∅ None) = FetchResponse response ->
       hasAuthentication caps = ok response /\
       hasValidTokens caps = ok response /\
       (ok response = false ->
        errorMessage caps = Some "No authentication configuration found")) /\
    (fetch E h (mkRequest "/.auth/me" None None ∅ None) = FetchRejected ->
     hasAuthentication caps = false /\ errorMessage caps <> None).
Proof.
  intros Hb Ht Hno. split; [exact (resolve_backend_clientId src b Hb Ht)|].
  unfold checkAuthenticationCapabilities.
  set (m := Js.truthy (Js.or (RuntimeConfigTs.RUNTIME_CONFIG src
                                ≫= RuntimeConfigTs.AZURE_CLIENT_ID)
                             (RuntimeConfigTs.VITE_AZURE_CLIENT_ID src))) in *.
  clearbody m. subst m.
  unfold try_catch, mbind, Prog_bind, mret, Prog_ret, call_fetch.
  destruct (fetch E h (mkRequest "/.auth/me" None None ∅ None)) as [|r];
    cbn [fetch_outcome fst snd].
  - eexists. split; [reflexivity|]. cbn. split; [reflexivity|].
    split; [intros response [=]|]. intros _. split; [reflexivity | discriminate].
  - eexists. split; [reflexivity|]. cbn. split; [reflexivity|].
    split; [|intros [=]]. intros response [= <-]. rewrite !orb_false_r.
    split; [reflexivity|]. split; [reflexivity|]. intros ->. reflexivity.
Qed.

Lemma capabilities_ignore_backend_witness :
  let src := RuntimeConfigTs.mkSources
               (FetchResponse
                  (mkResponse 200
                     (Some (RuntimeConfigTs.Backend.mkConfig (Some "c1") (Some "t1") None))))
               FetchRejected None None None None in
  RuntimeConfigTs.AZURE_CLIENT_ID (RuntimeConfigTs.resolve src) = Some "c1" /\
  exists caps,
    fst (checkAuthenticationCapabilities (constantEnv 401) (fun _ => "TypeError") src [])
      = Returned caps /\
    supportsSilentAuth caps = false /\
    errorMessage caps = Some "No authentication configuration found".
Proof.
  intros src.
  destruct (capabilities_ignore_backend (constantEnv 401) (fun _ => "TypeError") src
              (RuntimeConfigTs.Backend.mkConfig (Some "c1") (Some "t1") None) []
              eq_refl eq_refl eq_refl)
    as (Hcid & caps & Hrun & Hs & Hresp & _).
  split; [exact Hcid|]. exists caps. split; [exact Hrun|]. split; [exact Hs|].
  destruct (Hresp (mkResponse 401 None) eq_refl) as (_ & _ & Herr).
  apply Herr. reflexivity.
Defined.

End ApiCallsFacts.
